(** * Dubai ETA prediction: zone model, chronological split, feature
      engineering and prediction post-processing

    A shallow embedding of the core of the repository
    ([src/data_generator.py], [src/feature_engineering.py],
    [src/models.py], [src/predictor.py]) together with the properties
    the specification states about it.

    Conventions of the embedding:
    - Python [int] is [Z]; a NumPy [int64] result is wrapped explicitly.
    - A duration, a prediction or any other float is a rational ([Q]):
      every finite binary64 value is one.  Statistics and confidence
      intervals are computed exactly.  Where rounding decides a discrete
      result it is modelled bit by bit: the split sizes
      [int(n * ratio)] (see [float_mul]) and the factors of a response,
      which [round(x, 1)] turns into tenths (see [fl], [arith] and
      [round1]).  Infinities, NaN and the limits of the exponent range
      are not modelled.
    - [np.sin], [np.cos] and the square root inside [std] are kept as
      symbolic cells.
    - A [pandas.DataFrame] is an object on a heap; methods are written in
      a state-and-exception monad so that in-place updates, aliasing and
      partially executed calls are visible. *)

From Stdlib Require Import ZArith QArith Qround Qabs Qpower Lqa Lia List Permutation Sorted.
From Stdlib Require Import Floats Uint63 OrderedTypeEx Ascii.
From stdpp Require Import base gmap strings list pretty.

Local Open Scope string_scope.
Local Open Scope list_scope.
Local Open Scope Z_scope.

(* ================================================================== *)
(** * Python runtime: exceptions and the state-and-exception monad    *)
(* ================================================================== *)

(** An exception is its class name and its argument. *)
Record exn := Exception { exn_class : string; exn_arg : string }.

Definition ValueError (msg : string) : exn := Exception "ValueError" msg.
Definition KeyError (key : string) : exn := Exception "KeyError" key.
Definition TypeError (msg : string) : exn := Exception "TypeError" msg.
Definition ZeroDivisionError : exn :=
  Exception "ZeroDivisionError" "integer division or modulo by zero".

(** [SE S A]: a statement acting on a state [S]; it either returns an [A]
    or raises, and in both cases leaves a state behind. *)
Definition SE (S A : Type) : Type := S -> S * (exn + A).

Definition ret {S A} (a : A) : SE S A := fun s => (s, inr a).
Definition raise {S A} (e : exn) : SE S A := fun s => (s, inl e).
Definition bind {S A B} (m : SE S A) (k : A -> SE S B) : SE S B :=
  fun s => match m s with
           | (s', inr a) => k a s'
           | (s', inl e) => (s', inl e)
           end.
Definition get_state {S} : SE S S := fun s => (s, inr s).
Definition lift {S A} (r : exn + A) : SE S A :=
  fun s => (s, r).

Notation "x <- m ;; k" := (bind m (fun x => k))
  (at level 100, m at next level, right associativity).
Notation "m ;; k" := (bind m (fun _ => k))
  (at level 100, right associativity).

(** Exceptions without state, for expressions. *)
Definition rbind {A B} (r : exn + A) (k : A -> exn + B) : exn + B :=
  match r with inr a => k a | inl e => inl e end.

Fixpoint mapM {A B} (g : A -> exn + B) (l : list A) : exn + list B :=
  match l with
  | [] => inr []
  | a :: l' => rbind (g a) (fun b => rbind (mapM g l') (fun bs => inr (b :: bs)))
  end.

(* ================================================================== *)
(** * Cells, numbers and hashable keys                                *)
(* ================================================================== *)

Inductive cell :=
| CInt (z : Z)          (* int / int64 *)
| CFloat (q : Q)        (* float, idealised *)
| CBool (b : bool)
| CStr (s : string)
| CTime (t : Z)         (* datetime, seconds since the epoch *)
| CNaN
| CSqrt (q : Q)         (* the square root of q *)
| CSin (q : Q)          (* sin (2 * pi * q) *)
| CCos (q : Q).         (* cos (2 * pi * q) *)

Global Instance Q_eq_dec : EqDecision Q.
Proof. solve_decision. Defined.

Global Instance cell_eq_dec : EqDecision cell.
Proof. solve_decision. Defined.

Global Instance Q_countable : Countable Q :=
  inj_countable' (fun q => (Qnum q, Qden q)) (fun p => Qmake p.1 p.2)
                 (fun q => match q with Qmake _ _ => eq_refl end).

Definition cell_encode (c : cell) : Z + Q + bool + string + Z + unit + Q + Q + Q :=
  match c with
  | CInt z => inl (inl (inl (inl (inl (inl (inl (inl z)))))))
  | CFloat q => inl (inl (inl (inl (inl (inl (inl (inr q)))))))
  | CBool b => inl (inl (inl (inl (inl (inl (inr b))))))
  | CStr s => inl (inl (inl (inl (inl (inr s)))))
  | CTime t => inl (inl (inl (inl (inr t))))
  | CNaN => inl (inl (inl (inr tt)))
  | CSqrt q => inl (inl (inr q))
  | CSin q => inl (inr q)
  | CCos q => inr q
  end.

Definition cell_decode (x : Z + Q + bool + string + Z + unit + Q + Q + Q) : cell :=
  match x with
  | inl (inl (inl (inl (inl (inl (inl (inl z))))))) => CInt z
  | inl (inl (inl (inl (inl (inl (inl (inr q))))))) => CFloat q
  | inl (inl (inl (inl (inl (inl (inr b)))))) => CBool b
  | inl (inl (inl (inl (inl (inr s))))) => CStr s
  | inl (inl (inl (inl (inr t)))) => CTime t
  | inl (inl (inl (inr _))) => CNaN
  | inl (inl (inr q)) => CSqrt q
  | inl (inr q) => CSin q
  | inr q => CCos q
  end.

Global Instance cell_countable : Countable cell :=
  inj_countable' cell_encode cell_decode
                 (fun c => match c with
                           | CNaN => eq_refl | CInt _ => eq_refl | CFloat _ => eq_refl
                           | CBool _ => eq_refl | CStr _ => eq_refl | CTime _ => eq_refl
                           | CSqrt _ => eq_refl | CSin _ => eq_refl | CCos _ => eq_refl
                           end).

(** Keys of a [dict]: a scalar or a 2-tuple.  Python identifies [True]
    with [1] and an integral float with the integer, which [hash_norm]
    reproduces. *)
Inductive pykey := KAtom (c : cell) | KTuple (a b : cell).

Global Instance pykey_eq_dec : EqDecision pykey.
Proof. solve_decision. Defined.

Global Instance pykey_countable : Countable pykey :=
  inj_countable' (fun k => match k with KAtom c => inl c | KTuple a b => inr (a, b) end)
                 (fun x => match x with inl c => KAtom c | inr p => KTuple p.1 p.2 end)
                 (fun k => match k with KAtom _ => eq_refl | KTuple _ _ => eq_refl end).

Definition hash_norm (c : cell) : cell :=
  match c with
  | CBool b => CInt (Z.b2z b)
  | CFloat q => let r := Qred q in
                if Pos.eqb (Qden r) 1 then CInt (Qnum r) else CFloat r
  | _ => c
  end.

Definition key1 (c : cell) : pykey := KAtom (hash_norm c).
Definition key2 (a b : cell) : pykey := KTuple (hash_norm a) (hash_norm b).
Definition kstr (s : string) : pykey := KAtom (CStr s).

Definition is_nan (c : cell) : bool :=
  match c with CNaN => true | _ => false end.

(** The numeric reading of a cell. *)
Inductive number := NInt (z : Z) | NFloat (q : Q) | NNaN.

Definition to_number (c : cell) : exn + number :=
  match c with
  | CInt z => inr (NInt z)
  | CFloat q => inr (NFloat q)
  | CBool b => inr (NInt (Z.b2z b))
  | CNaN => inr NNaN
  | _ => inl (TypeError "unsupported operand type")
  end.

Definition number_Q (n : number) : option Q :=
  match n with
  | NInt z => Some (inject_Z z)
  | NFloat q => Some q
  | NNaN => None
  end.

(** int64 arithmetic wraps around. *)
Definition wrap64 (z : Z) : Z := (z + 2 ^ 63) mod 2 ^ 64 - 2 ^ 63.

(** [a * b] on two cells of a numeric column. *)
Definition cell_mul (a b : cell) : exn + cell :=
  rbind (to_number a) (fun x =>
  rbind (to_number b) (fun y =>
  match x, y with
  | NInt m, NInt n => inr (CInt (wrap64 (m * n)))
  | NNaN, _ | _, NNaN => inr CNaN
  | _, _ => match number_Q x, number_Q y with
            | Some p, Some q => inr (CFloat (Qred (p * q)))
            | _, _ => inr CNaN
            end
  end)).

(** [2 * np.pi * c / period], as a fraction of a turn. *)
Definition turn_fraction (period : Z) (c : cell) : exn + option Q :=
  rbind (to_number c) (fun x =>
  inr (match number_Q x with
       | Some q => Some (Qred (q / inject_Z period))
       | None => None
       end)).

Definition np_sin (t : option Q) : cell :=
  match t with Some q => CSin q | None => CNaN end.
Definition np_cos (t : option Q) : cell :=
  match t with Some q => CCos q | None => CNaN end.

(** [Series.between(lo, hi)] with both bounds inclusive, then
    [.astype(int)]. *)
Definition between_int (lo hi : Z) (c : cell) : exn + Z :=
  rbind (to_number c) (fun x =>
  inr (match number_Q x with
       | Some q => Z.b2z (Qle_bool (inject_Z lo) q && Qle_bool q (inject_Z hi))
       | None => 0
       end)).

(** Elementwise [==]: NaN differs from everything. *)
Definition cell_eqb (a b : cell) : bool :=
  negb (is_nan a) && negb (is_nan b) && bool_decide (hash_norm a = hash_norm b).

(* ================================================================== *)
(** * Data frames                                                     *)
(* ================================================================== *)

(** Column labels in order, each with its values; [nrows] is the length
    of the index. *)
Record DataFrame := mkFrame {
  nrows : nat;
  columns : list (string * list cell)
}.

Definition col_names (f : DataFrame) : list string := map fst (columns f).

Fixpoint assoc {V} (name : string) (l : list (string * V)) : option V :=
  match l with
  | [] => None
  | (n, v) :: l' => if String.eqb n name then Some v else assoc name l'
  end.

Definition get_col (f : DataFrame) (name : string) : option (list cell) :=
  assoc name (columns f).

Definition has_col (f : DataFrame) (name : string) : bool :=
  existsb (String.eqb name) (col_names f).

(** [df[name] = values]: an existing label keeps its position, a new one
    is appended. *)
Fixpoint replace_col (name : string) (v : list cell)
         (l : list (string * list cell)) : list (string * list cell) :=
  match l with
  | [] => []
  | (n, c) :: l' =>
      if String.eqb n name then (n, v) :: replace_col name v l'
      else (n, c) :: replace_col name v l'
  end.

Definition set_col (f : DataFrame) (name : string) (v : list cell) : DataFrame :=
  if has_col f name
  then mkFrame (nrows f) (replace_col name v (columns f))
  else mkFrame (nrows f) (columns f ++ [(name, v)]).

(** A row, as [apply(..., axis=1)] and [iloc] present it. *)
Definition row := list (string * cell).

Definition row_at (f : DataFrame) (i : nat) : row :=
  map (fun nc => (nc.1, nth i nc.2 CNaN)) (columns f).

Definition rows (f : DataFrame) : list row :=
  map (row_at f) (seq 0 (nrows f)).

Definition row_get (x : row) (name : string) : exn + cell :=
  match assoc name x with
  | Some c => inr c
  | None => inl (KeyError name)
  end.

(** ** Statements on one frame object *)

Definition FrameM (A : Type) : Type := SE DataFrame A.

(** [features[name]] *)
Definition getitem (name : string) : FrameM (list cell) :=
  fun f => match get_col f name with
           | Some v => (f, inr v)
           | None => (f, inl (KeyError name))
           end.

(** [features[name] = values] *)
Definition setitem (name : string) (v : list cell) : FrameM unit :=
  fun f => (set_col f name v, inr tt).

(** [features[name] = scalar] *)
Definition setitem_scalar (name : string) (c : cell) : FrameM unit :=
  fun f => (set_col f name (repeat c (nrows f)), inr tt).

(** [features.apply(fn, axis=1)].  On a frame without rows pandas hands
    back a copy of the frame instead of a series, and the assignment of
    that result to a single column is refused. *)
Definition apply_rows (fn : row -> exn + cell) : FrameM (list cell) :=
  fun f => match nrows f with
           | O => (f, inl (ValueError
                     "Cannot set a DataFrame with multiple columns to the single column"))
           | _ => (f, mapM fn (rows f))
           end.

Definition series_map {S} (g : cell -> exn + cell) (v : list cell) : SE S (list cell) :=
  lift (mapM g v).

Fixpoint zip_with_M (g : cell -> cell -> exn + cell) (u v : list cell)
  : exn + list cell :=
  match u, v with
  | a :: u', b :: v' =>
      rbind (g a b) (fun c => rbind (zip_with_M g u' v') (fun cs => inr (c :: cs)))
  | _, _ => inr []
  end.

(* ================================================================== *)
(** * Objects: the feature engineer and the frames on the heap        *)
(* ================================================================== *)

(** [self.feature_stats]: a dict with five literal keys; a field is
    [None] while its key is absent. *)
Record FeatureStats := mkStats {
  hour_mean : option (gmap pykey cell);
  dow_mean : option (gmap pykey cell);
  zone_combo_mean : option (gmap pykey cell);
  global_mean : option cell;
  global_std : option cell
}.

Record FeatureEngineer := mkEngineer {
  feature_stats : FeatureStats;
  zone_pair_stats : gmap pykey (gmap pykey cell);
  training_columns : option (list string);
  fitted : bool
}.

(** [FeatureEngineer.__init__] *)
Definition init_engineer : FeatureEngineer :=
  mkEngineer (mkStats None None None None None) ∅ None false.

Definition with_feature_stats (g : FeatureStats -> FeatureStats)
           (e : FeatureEngineer) : FeatureEngineer :=
  mkEngineer (g (feature_stats e)) (zone_pair_stats e) (training_columns e) (fitted e).
Definition with_zone_pair_stats (z : gmap pykey (gmap pykey cell))
           (e : FeatureEngineer) : FeatureEngineer :=
  mkEngineer (feature_stats e) z (training_columns e) (fitted e).
Definition with_training_columns (c : option (list string))
           (e : FeatureEngineer) : FeatureEngineer :=
  mkEngineer (feature_stats e) (zone_pair_stats e) c (fitted e).
Definition with_fitted (b : bool) (e : FeatureEngineer) : FeatureEngineer :=
  mkEngineer (feature_stats e) (zone_pair_stats e) (training_columns e) b.

Definition set_hour_mean (t : gmap pykey cell) (s : FeatureStats) : FeatureStats :=
  mkStats (Some t) (dow_mean s) (zone_combo_mean s) (global_mean s) (global_std s).
Definition set_dow_mean (t : gmap pykey cell) (s : FeatureStats) : FeatureStats :=
  mkStats (hour_mean s) (Some t) (zone_combo_mean s) (global_mean s) (global_std s).
Definition set_zone_combo_mean (t : gmap pykey cell) (s : FeatureStats) : FeatureStats :=
  mkStats (hour_mean s) (dow_mean s) (Some t) (global_mean s) (global_std s).
Definition set_global_mean (c : cell) (s : FeatureStats) : FeatureStats :=
  mkStats (hour_mean s) (dow_mean s) (zone_combo_mean s) (Some c) (global_std s).
Definition set_global_std (c : cell) (s : FeatureStats) : FeatureStats :=
  mkStats (hour_mean s) (dow_mean s) (zone_combo_mean s) (global_mean s) (Some c).

(** [self.feature_stats[key]] *)
Definition stat {A} (field : FeatureStats -> option A) (key : string)
           (e : FeatureEngineer) : exn + A :=
  match field (feature_stats e) with
  | Some a => inr a
  | None => inl (KeyError key)
  end.

Definition loc := positive.

(** The engineer instance and the frames alive. *)
Record World := mkWorld {
  self : FeatureEngineer;
  heap : gmap loc DataFrame
}.

Definition M (A : Type) : Type := SE World A.

Definition get_self : M FeatureEngineer := fun w => (w, inr (self w)).
Definition modify_self (g : FeatureEngineer -> FeatureEngineer) : M unit :=
  fun w => (mkWorld (g (self w)) (heap w), inr tt).

Definition deref (l : loc) : M DataFrame :=
  fun w => match heap w !! l with
           | Some f => (w, inr f)
           | None => (w, inl (Exception "ReferenceError" "no such object"))
           end.

Definition new_object (f : DataFrame) : M loc :=
  fun w => let l := fresh (dom (heap w)) in
           (mkWorld (self w) (<[l := f]> (heap w)), inr l).

(** Run statements that mutate the frame object at [l]. *)
Definition on_frame {A} (l : loc) (m : FrameM A) : M A :=
  fun w => match heap w !! l with
           | Some f => let fr := m f in
                       (mkWorld (self w) (<[l := fr.1]> (heap w)), fr.2)
           | None => (w, inl (Exception "ReferenceError" "no such object"))
           end.

(** [df.copy()] *)
Definition copy (l : loc) : M loc :=
  f <- deref l ;; new_object f.

(* ================================================================== *)
(** * FeatureEngineer.fit                                             *)
(* ================================================================== *)

Definition Qsum (l : list Q) : Q := fold_right Qplus 0%Q l.

Definition numeric_column (v : list cell) : exn + list (option Q) :=
  mapM (fun c => rbind (to_number c) (fun x => inr (number_Q x))) v.

(** The values that are not NaN. *)
Definition present (v : list (option Q)) : list Q := omap id v.

Definition Qlen (l : list Q) : Q := inject_Z (Z.of_nat (length l)).

Definition agg_mean (v : list (option Q)) : cell :=
  match present v with
  | [] => CNaN
  | qs => CFloat (Qred (Qsum qs / Qlen qs))
  end.

(** Sample standard deviation (ddof = 1). *)
Definition agg_std (v : list (option Q)) : cell :=
  match present v with
  | [] | [_] => CNaN
  | qs => let m := (Qsum qs / Qlen qs)%Q in
          CSqrt (Qred (Qsum (map (fun x => (x - m) * (x - m))%Q qs) / (Qlen qs - 1)))
  end.

Definition agg_count (v : list (option Q)) : cell :=
  CInt (Z.of_nat (length (present v))).

(** Group keys of the rows; a row whose key holds a NaN belongs to no
    group. *)
Definition scalar_key (c : cell) : option pykey :=
  if is_nan c then None else Some (key1 c).
Definition tuple_key (a b : cell) : option pykey :=
  if is_nan a || is_nan b then None else Some (key2 a b).

Definition group_rows (keys : list (option pykey)) (vals : list (option Q))
  : gmap pykey (list (option Q)) :=
  fold_left (fun g kv => match kv.1 with
                         | Some k => <[k := default [] (g !! k) ++ [kv.2]]> g
                         | None => g
                         end)
            (zip keys vals) ∅.

Definition column (f : DataFrame) (name : string) : exn + list cell :=
  match get_col f name with
  | Some v => inr v
  | None => inl (KeyError name)
  end.

(** [df.groupby(k)[value]] *)
Definition groupby1 (f : DataFrame) (k value : string)
  : exn + gmap pykey (list (option Q)) :=
  rbind (column f k) (fun ks =>
  rbind (column f value) (fun vs =>
  rbind (numeric_column vs) (fun qs =>
  inr (group_rows (map scalar_key ks) qs)))).

(** [df.groupby([k1, k2])[value]] *)
Definition groupby2 (f : DataFrame) (k1 k2 value : string)
  : exn + gmap pykey (list (option Q)) :=
  rbind (column f k1) (fun a =>
  rbind (column f k2) (fun b =>
  rbind (column f value) (fun vs =>
  rbind (numeric_column vs) (fun qs =>
  inr (group_rows (zip_with tuple_key a b) qs))))).

(** [.agg(['mean', 'std', 'count']).to_dict()]: the default orientation
    of [DataFrame.to_dict], column label -> (index -> value). *)
Definition agg_to_dict (g : gmap pykey (list (option Q)))
  : gmap pykey (gmap pykey cell) :=
  <[kstr "count" := agg_count <$> g]>
    (<[kstr "std" := agg_std <$> g]>
       (<[kstr "mean" := agg_mean <$> g]> ∅)).

(** [.mean().to_dict()]: index -> value. *)
Definition mean_to_dict (g : gmap pykey (list (option Q))) : gmap pykey cell :=
  agg_mean <$> g.

Definition fit (df : loc) : M unit :=
  f <- deref df ;;
  (* Zone pair statistics *)
  g <- lift (groupby2 f "pickup_zone" "dropoff_zone" "actual_duration_minutes") ;;
  modify_self (with_zone_pair_stats (agg_to_dict g)) ;;
  (* Hour statistics *)
  g <- lift (groupby1 f "hour" "actual_duration_minutes") ;;
  modify_self (with_feature_stats (set_hour_mean (mean_to_dict g))) ;;
  (* Day of week statistics *)
  g <- lift (groupby1 f "day_of_week" "actual_duration_minutes") ;;
  modify_self (with_feature_stats (set_dow_mean (mean_to_dict g))) ;;
  (* Zone type combinations *)
  g <- lift (groupby2 f "zone_type_pickup" "zone_type_dropoff" "actual_duration_minutes") ;;
  modify_self (with_feature_stats (set_zone_combo_mean (mean_to_dict g))) ;;
  (* Global statistics *)
  v <- lift (rbind (column f "actual_duration_minutes") numeric_column) ;;
  modify_self (with_feature_stats (set_global_mean (agg_mean v))) ;;
  v <- lift (rbind (column f "actual_duration_minutes") numeric_column) ;;
  modify_self (with_feature_stats (set_global_std (agg_std v))) ;;
  modify_self (with_fitted true).

(* ================================================================== *)
(** * FeatureEngineer.transform                                       *)
(* ================================================================== *)

(** [np.sin(2 * np.pi * s / period)] and its cosine, elementwise. *)
Definition sin_turn (period : Z) (c : cell) : exn + cell :=
  rbind (turn_fraction period c) (fun t => inr (np_sin t)).
Definition cos_turn (period : Z) (c : cell) : exn + cell :=
  rbind (turn_fraction period c) (fun t => inr (np_cos t)).

(** The lambda of the three zone-pair features:
    [self.zone_pair_stats.get((x['pickup_zone'], x['dropoff_zone']), {})
         .get(field, default)];
    the default is an argument, so it is evaluated before the inner
    [get] is called. *)
Definition zone_pair_lookup (e : FeatureEngineer) (field : string)
           (dflt : exn + cell) (x : row) : exn + cell :=
  rbind (row_get x "pickup_zone") (fun p =>
  rbind (row_get x "dropoff_zone") (fun d =>
  let inner := default ∅ (zone_pair_stats e !! key2 p d) in
  rbind dflt (fun g =>
  inr (default g (inner !! kstr field))))).

(** [Series.map(d)]: a value that is no key of [d] becomes NaN. *)
Definition map_dict (d : gmap pykey cell) (c : cell) : cell :=
  default CNaN (d !! key1 c).

Definition fillna (g : cell) (c : cell) : cell :=
  if is_nan c then g else c.

(** The lambda of [zone_combo_mean]. *)
Definition zone_combo_lookup (e : FeatureEngineer) (x : row) : exn + cell :=
  rbind (stat zone_combo_mean "zone_combo_mean" e) (fun d =>
  rbind (row_get x "zone_type_pickup") (fun p =>
  rbind (row_get x "zone_type_dropoff") (fun q =>
  rbind (stat global_mean "global_mean" e) (fun g =>
  inr (default g (d !! key2 p q)))))).

(** The four time windows; [between] includes both bounds. *)
Definition is_morning (c : cell) : exn + cell :=
  rbind (between_int 6 10 c) (fun b => inr (CInt b)).
Definition is_afternoon (c : cell) : exn + cell :=
  rbind (between_int 12 16 c) (fun b => inr (CInt b)).
Definition is_evening (c : cell) : exn + cell :=
  rbind (between_int 17 21 c) (fun b => inr (CInt b)).
Definition is_night (c : cell) : exn + cell :=
  rbind (between_int 22 23 c) (fun a =>
  rbind (between_int 0 5 c) (fun b => inr (CInt (Z.lor a b)))).

Definition same_type (a b : cell) : exn + cell :=
  inr (CInt (Z.b2z (cell_eqb a b))).

(** Lines 59-119 of [transform]: the columns added, in place, to the
    copy of the input. *)
Definition engineer_columns (e : FeatureEngineer) : FrameM unit :=
  (* Temporal cyclic features *)
  h <- getitem "hour" ;; v <- series_map (sin_turn 24) h ;; setitem "hour_sin" v ;;
  h <- getitem "hour" ;; v <- series_map (cos_turn 24) h ;; setitem "hour_cos" v ;;
  d <- getitem "day_of_week" ;; v <- series_map (sin_turn 7) d ;; setitem "dow_sin" v ;;
  d <- getitem "day_of_week" ;; v <- series_map (cos_turn 7) d ;; setitem "dow_cos" v ;;
  (* Zone pair features *)
  v <- apply_rows (zone_pair_lookup e "mean" (stat global_mean "global_mean" e)) ;;
  setitem "zone_pair_mean" v ;;
  v <- apply_rows (zone_pair_lookup e "std" (stat global_std "global_std" e)) ;;
  setitem "zone_pair_std" v ;;
  v <- apply_rows (zone_pair_lookup e "count" (inr (CInt 0))) ;;
  setitem "zone_pair_count" v ;;
  (* Hour and day averages *)
  h <- getitem "hour" ;;
  t <- lift (stat hour_mean "hour_mean" e) ;;
  g <- lift (stat global_mean "global_mean" e) ;;
  setitem "hour_mean" (map (fun c => fillna g (map_dict t c)) h) ;;
  d <- getitem "day_of_week" ;;
  t <- lift (stat dow_mean "dow_mean" e) ;;
  g <- lift (stat global_mean "global_mean" e) ;;
  setitem "dow_mean" (map (fun c => fillna g (map_dict t c)) d) ;;
  (* Zone type combination *)
  v <- apply_rows (zone_combo_lookup e) ;;
  setitem "zone_combo_mean" v ;;
  (* Interaction features *)
  a <- getitem "dubai_distance" ;; b <- getitem "is_rush_hour" ;;
  v <- lift (zip_with_M cell_mul a b) ;; setitem "distance_rush" v ;;
  a <- getitem "dubai_distance" ;; b <- getitem "is_weekend" ;;
  v <- lift (zip_with_M cell_mul a b) ;; setitem "distance_weekend" v ;;
  a <- getitem "dubai_distance" ;;
  v <- series_map (fun c => cell_mul c c) a ;; setitem "distance_squared" v ;;
  (* Friday prayer time feature *)
  f <- get_state ;;
  (if has_col f "is_friday_prayer"
   then a <- getitem "dubai_distance" ;; b <- getitem "is_friday_prayer" ;;
        v <- lift (zip_with_M cell_mul a b) ;; setitem "distance_friday_prayer" v
   else ret tt) ;;
  (* Zone characteristics *)
  a <- getitem "zone_type_pickup" ;; b <- getitem "zone_type_dropoff" ;;
  v <- lift (zip_with_M same_type a b) ;; setitem "same_zone_type" v ;;
  (* Time windows *)
  h <- getitem "hour" ;; v <- series_map is_morning h ;; setitem "is_morning" v ;;
  h <- getitem "hour" ;; v <- series_map is_afternoon h ;; setitem "is_afternoon" v ;;
  h <- getitem "hour" ;; v <- series_map is_evening h ;; setitem "is_evening" v ;;
  h <- getitem "hour" ;; v <- series_map is_night h ;; setitem "is_night" v.

(** ** One-hot encoding *)

Definition categorical_cols : list string :=
  ["zone_type_pickup"; "zone_type_dropoff"; "weather"].

Fixpoint insert_level (s : string) (l : list string) : list string :=
  match l with
  | [] => [s]
  | x :: l' => if String.eqb s x then l
               else if String.ltb s x then s :: l
               else x :: insert_level s l'
  end.

(** The distinct levels of a categorical column, sorted; NaN is no
    level.  Only text levels are supported. *)
Fixpoint levels (v : list cell) : exn + list string :=
  match v with
  | [] => inr []
  | CStr s :: v' => rbind (levels v') (fun l => inr (insert_level s l))
  | CNaN :: v' => levels v'
  | _ :: _ => inl (TypeError "unsupported categorical level")
  end.

Definition indicator (level : string) (c : cell) : cell :=
  CBool (bool_decide (c = CStr level)).

Definition dummy_columns (prefix : string) (v : list cell) (lv : list string)
  : list (string * list cell) :=
  map (fun l => (prefix +:+ "_" +:+ l, map (indicator l) v)) lv.

Definition encode (f : DataFrame) (name : string) : exn + list (string * list cell) :=
  rbind (column f name) (fun v =>
  rbind (levels v) (fun lv => inr (dummy_columns name v lv))).

Definition is_encoded (cats : list string) (name : string) : bool :=
  existsb (String.eqb name) cats.

(** [pd.get_dummies(f, columns=cats, prefix_sep='_')]: the other columns
    in their order, then the (boolean) indicator columns of each encoded
    column, one for each level in sorted order. *)
Definition get_dummies (f : DataFrame) (cats : list string) : exn + DataFrame :=
  rbind (mapM (encode f) cats) (fun enc =>
  inr (mkFrame (nrows f)
               (List.filter (fun nc => negb (is_encoded cats nc.1)) (columns f)
                ++ concat enc))).

(** ** Alignment with the training columns *)

(** [for col in self.training_columns:
        if col not in features.columns: features[col] = 0] *)
Fixpoint add_missing (cols : list string) : FrameM unit :=
  match cols with
  | [] => ret tt
  | col :: rest =>
      f <- get_state ;;
      (if has_col f col then ret tt else setitem_scalar col (CInt 0)) ;;
      add_missing rest
  end.

(** [features[names]]: every column carrying a requested label, in the
    order requested. *)
Definition select (f : DataFrame) (names : list string) : exn + DataFrame :=
  rbind (mapM (fun n => match List.filter (fun nc => String.eqb nc.1 n) (columns f) with
                        | [] => inl (KeyError n)
                        | l => inr l
                        end) names) (fun picked =>
  inr (mkFrame (nrows f) (concat picked))).

Definition transform (df : loc) : M loc :=
  me <- get_self ;;
  if negb (fitted me)
  then raise (ValueError "FeatureEngineer must be fitted before transform")
  else
    features <- copy df ;;
    on_frame features (engineer_columns me) ;;
    (* One-hot encoding for categorical features *)
    f <- deref features ;;
    d <- lift (get_dummies f categorical_cols) ;;
    features <- new_object d ;;
    (* Ensure consistent columns with training data *)
    match training_columns me with
    | Some cols =>
        on_frame features (add_missing cols) ;;
        f <- deref features ;;
        s <- lift (select f cols) ;;
        new_object s
    | None => ret features
    end.

Definition fit_transform (df : loc) : M loc :=
  fit df ;;
  transformed <- transform df ;;
  f <- deref transformed ;;
  modify_self (with_training_columns (Some (col_names f))) ;;
  ret transformed.

Definition exclude_cols : list string :=
  ["trip_id"; "request_datetime"; "actual_duration_minutes";
   "driver_efficiency"; "has_event"].

Definition get_feature_columns (f : DataFrame) : list string :=
  List.filter (fun col => negb (existsb (String.eqb col) exclude_cols)) (col_names f).

(* ================================================================== *)
(** * Configuration                                                   *)
(* ================================================================== *)

(** An entry of the [zones] section: a mapping (with or without the key
    ['cells']), a sequence whose items may or may not be lists, or
    anything else. *)
Inductive zone_data :=
| ZDict (cells : option (list Z))
| ZList (items : list (option (list Z)))
| ZOther.

(** A finite binary64 number [(-1)^neg * mant * 2^expo]. *)
Record binary64 := B64 { b_neg : bool; b_mant : Z; b_expo : Z }.

(** The values read from the configuration file, which is not part of
    the sources; the mapping [zones] keeps the order of the file. *)
Record Config := mkConfig {
  n_zones : Z;
  grid_size : Z;
  zones : list (string * zone_data);
  rush_morning : list Z;
  rush_evening : list Z;
  train_ratio : binary64;
  val_ratio : binary64
}.

(* ================================================================== *)
(** * binary64 products and their truncation                          *)
(* ================================================================== *)

(** Round the integer [m] (scaled by [2^e]) to 53 significant bits, to
    nearest, ties to even. *)
Definition round53 (m e : Z) : Z * Z :=
  let bits := Z.log2 m + 1 in
  if bits <=? 53 then (m, e)
  else
    let s := bits - 53 in
    let q := Z.shiftr m s in
    let r := Z.land m (Z.ones s) in
    let half := Z.shiftl 1 (s - 1) in
    let q' := if r <? half then q
              else if half <? r then q + 1
              else if Z.even q then q else q + 1 in
    (q', e + s).

(** [float(n)] *)
Definition float_of_int (n : Z) : binary64 :=
  let me := round53 (Z.abs n) 0 in
  B64 (n <? 0) me.1 me.2.

(** [x * y] *)
Definition float_mul (x y : binary64) : binary64 :=
  let me := round53 (b_mant x * b_mant y) (b_expo x + b_expo y) in
  B64 (xorb (b_neg x) (b_neg y)) me.1 me.2.

(** [int(x)]: truncation towards zero. *)
Definition py_int (x : binary64) : Z :=
  let mag := if 0 <=? b_expo x then b_mant x * 2 ^ b_expo x
             else b_mant x / 2 ^ (- b_expo x) in
  if b_neg x then - mag else mag.

(** The literals [0.7] and [0.15]. *)
Definition float_0_7 : binary64 := B64 false 6305039478318694 (-53).
Definition float_0_15 : binary64 := B64 false 5404319552844595 (-55).

(** The same product on the kernel's binary64 numbers, to compare with. *)
Definition prim_int_mul (n : Z) (r : float) : option Z :=
  match Prim2SF (PrimFloat.mul (PrimFloat.of_uint63 (Uint63.of_Z n)) r) with
  | S754_zero _ => Some 0
  | S754_finite s m e =>
      let mag := if 0 <=? e then Z.pos m * 2 ^ e else Z.pos m / 2 ^ (- e) in
      Some (if s then - mag else mag)
  | _ => None
  end.

(* ================================================================== *)
(** * DubaiDataGenerator                                              *)
(* ================================================================== *)

Module DubaiDataGenerator.

Definition assign_all (zone_type : string) (zs : list Z) (m : gmap Z string)
  : gmap Z string :=
  fold_left (fun m zone => <[zone := zone_type]> m) zs m.

(** One iteration of the loop over [zones_cfg.items()]. *)
Definition override (m : gmap Z string) (entry : string * zone_data)
  : gmap Z string :=
  match entry.2 with
  | ZDict (Some cells) => assign_all entry.1 cells m
  | ZDict None => m
  | ZList items =>
      fold_left (fun m zone_list => match zone_list with
                                    | Some l => assign_all entry.1 l m
                                    | None => m
                                    end) items m
  | ZOther => m
  end.

Definition _define_zone_types (cfg : Config) : gmap Z string :=
  let residential :=
    assign_all "residential" (map Z.of_nat (seq 0 (Z.to_nat (n_zones cfg)))) ∅ in
  fold_left override (zones cfg) residential.

(** [self.zone_types[zone]], as [apply_special_events] and
    [generate_dataset] read the table: a missing key raises
    [KeyError(zone)]. *)
Definition zone_types_getitem (cfg : Config) (zone : Z) : exn + string :=
  match _define_zone_types cfg !! zone with
  | Some zone_type => inr zone_type
  | None => inl (KeyError (pretty zone))
  end.

Definition calculate_dubai_distance (cfg : Config) (pickup dropoff : Z) : exn + Z :=
  if grid_size cfg =? 0 then inl ZeroDivisionError
  else
    let p_row := pickup / grid_size cfg in
    let p_col := pickup mod grid_size cfg in
    let d_row := dropoff / grid_size cfg in
    let d_col := dropoff mod grid_size cfg in
    inr (Z.abs (p_row - d_row) + Z.abs (p_col - d_col)).

Definition _is_rush_hour (cfg : Config) (hour : Z) : bool :=
  existsb (Z.eqb hour) (rush_morning cfg ++ rush_evening cfg).

(** ** split_data *)

(** The sort key of a timestamp; [None] is NaT, which sorts last. *)
Definition time_key (c : cell) : exn + option Z :=
  match c with
  | CTime t => inr (Some t)
  | CNaN => inr None
  | _ => inl (TypeError "not a datetime")
  end.

Definition key_le (a b : option Z) : bool :=
  match a, b with
  | Some x, Some y => x <=? y
  | _, None => true
  | None, Some _ => false
  end.

Fixpoint insert_row (x : option Z * nat) (l : list (option Z * nat))
  : list (option Z * nat) :=
  match l with
  | [] => [x]
  | y :: l' => if key_le x.1 y.1 then x :: l else y :: insert_row x l'
  end.

(** The row numbers in ascending order of their keys.  pandas sorts with
    quicksort, which fixes no order among equal keys; here equal keys
    keep their row order.  The properties below use only that the result
    is sorted and a permutation. *)
Definition argsort (keys : list (option Z)) : list nat :=
  map snd (fold_right insert_row [] (zip keys (seq 0 (length keys)))).

Definition take_rows (order : list nat) (f : DataFrame) : DataFrame :=
  mkFrame (length order)
          (map (fun nc => (nc.1, map (fun i => nth i nc.2 CNaN) order)) (columns f)).

(** [df.sort_values(by).reset_index(drop=True)] *)
Definition sort_values (f : DataFrame) (by_ : string) : exn + DataFrame :=
  rbind (column f by_) (fun v =>
  rbind (mapM time_key v) (fun keys =>
  inr (take_rows (argsort keys) f))).

(** A slice bound as Python normalises it on a sequence of length [n]. *)
Definition slice_bound (n : nat) (i : Z) : nat :=
  if i <? 0 then Z.to_nat (Z.max 0 (Z.of_nat n + i))
  else Nat.min (Z.to_nat i) n.

(** [df[start:stop]] *)
Definition slice_rows (f : DataFrame) (start stop : Z) : DataFrame :=
  let a := slice_bound (nrows f) start in
  let b := slice_bound (nrows f) stop in
  mkFrame (b - a)
          (map (fun nc => (nc.1, firstn (b - a) (skipn a nc.2))) (columns f)).

Definition split_data (cfg : Config) (f : DataFrame)
  : exn + (DataFrame * DataFrame * DataFrame) :=
  rbind (sort_values f "request_datetime") (fun df =>
  let n := Z.of_nat (nrows df) in
  let train_size := py_int (float_mul (float_of_int n) (train_ratio cfg)) in
  let val_size := py_int (float_mul (float_of_int n) (val_ratio cfg)) in
  let train_df := slice_rows df 0 train_size in
  let val_df := slice_rows df train_size (train_size + val_size) in
  let test_df := slice_rows df (train_size + val_size) (Z.of_nat (nrows df)) in
  inr (train_df, val_df, test_df)).

End DubaiDataGenerator.

(* ================================================================== *)
(** * Floating-point scalars of Python and NumPy                      *)
(* ================================================================== *)

(** The nearest integer, ties to the even one: the rounding of a
    significand, of [np.rint] and of the decimal digits of [round]. *)
Definition round_half_even (x : Q) : Z :=
  let f := Qfloor x in
  match Qcompare (x - inject_Z f) (1 # 2) with
  | Lt => f
  | Gt => f + 1
  | Eq => if Z.even f then f else f + 1
  end.

(** [floor(log2 |x|)] of a non-zero rational. *)
Definition ilog2 (x : Q) : Z :=
  let k := Z.log2 (Z.abs (Qnum x)) - Z.log2 (Zpos (Qden x)) in
  if Qle_bool (2 ^ k) (Qabs x) then k else k - 1.

(** The number with [prec] significant bits that is nearest to [x],
    ties to the even significand: the rounding of every IEEE 754
    operation, binary32 for [prec = 24] and binary64 for [prec = 53]. *)
Definition fl (prec : Z) (x : Q) : Q :=
  let x := Qred x in
  if Qeq_bool x 0 then 0%Q
  else let ulp := (2 ^ (ilog2 x - prec + 1))%Q in
       (inject_Z (round_half_even (x / ulp)) * ulp)%Q.

(** The scalar types that reach [_decompose_factors]: [int] and
    [numpy.int64]; [float], [numpy.float32] and [numpy.float64]. *)
Inductive itype := PyInt | Int64.
Inductive ftype := PyFloat | Float32 | Float64.

(** A floating-point scalar: its type and its value. *)
Record fnum := Float { ftype_of : ftype; fval : Q }.

Inductive num :=
| OfInt (t : itype) (n : Z)
| OfFloat (x : fnum).

Definition to_Q (a : num) : Q :=
  match a with
  | OfInt _ n => inject_Z n
  | OfFloat x => fval x
  end.

(** Significant bits of a type. *)
Definition prec (t : ftype) : Z :=
  match t with
  | Float32 => 24
  | PyFloat | Float64 => 53
  end.

(** The type of [x op y] for a floating-point scalar [x] of type [t] and
    another scalar.  Two Python numbers give a [float].  With a NumPy
    scalar involved the result is a NumPy float: under the legacy
    promotion ([nep50 = false], NumPy 1) a Python [int] enters as int64
    and a Python [float] as float64, so only float32 with float32 stays
    float32; under NEP 50 ([nep50 = true], NumPy 2) Python scalars are
    weak and a float32 keeps its type against them. *)
Definition result_type (nep50 : bool) (t : ftype) (other : num) : ftype :=
  match t, other with
  | PyFloat, OfInt PyInt _ => PyFloat
  | PyFloat, OfFloat (Float PyFloat _) => PyFloat
  | PyFloat, OfFloat (Float Float32 _) => if nep50 then Float32 else Float64
  | Float32, OfInt PyInt _ => if nep50 then Float32 else Float64
  | Float32, OfFloat (Float PyFloat _) => if nep50 then Float32 else Float64
  | Float32, OfFloat (Float Float32 _) => Float32
  | _, _ => Float64
  end.

(** [x op y] for [op] one of [*] and [-]: both operands are converted to
    the type of the result and the exact result is rounded once. *)
Definition arith (nep50 : bool) (op : Q -> Q -> Q) (x : fnum) (y : num) : fnum :=
  let t := result_type nep50 (ftype_of x) y in
  let p := prec t in
  Float t (fl p (op (fl p (fval x)) (fl p (to_Q y)))).

(** [round(a, 1)], which calls [type(a).__round__].  An integer is
    returned as it is.  A [float] becomes the binary64 nearest to the
    decimal with one digit that is nearest to it, ties to the even
    digit.  A NumPy float is rounded as [numpy.round] does it, in its
    own type: [rint(a * 10.0) / 10.0], every operation rounded. *)
Definition round1 (a : num) : num :=
  match a with
  | OfInt _ _ => a
  | OfFloat (Float PyFloat x) =>
      OfFloat (Float PyFloat (fl 53 (inject_Z (round_half_even (x * 10)) / 10)))
  | OfFloat (Float t x) =>
      let p := prec t in
      OfFloat (Float t (fl p (inject_Z (round_half_even (fl p (x * 10))) / 10)))
  end.

(** A decimal literal of the source: the binary64 nearest to it. *)
Definition literal (q : Q) : num := OfFloat (Float PyFloat (fl 53 q)).

(* ================================================================== *)
(** * AdvancedModel and ETAPredictor                                  *)
(* ================================================================== *)

(** [1.96 if confidence_level == 0.95 else 2.58] *)
Definition z_score (confidence_level : Q) : Q :=
  if Qeq_bool confidence_level (95 # 100) then 196 # 100 else 258 # 100.

Module AdvancedModel.

(** [predict_with_confidence], given the ensemble's predictions: the
    predictions and one [lower, upper] row for each. *)
Definition predict_with_confidence (predictions : list Q) (confidence_level : Q)
  : list Q * list (Q * Q) :=
  let std_estimate := map (fun p => p * (15 # 100))%Q predictions in
  let z := z_score confidence_level in
  let lower_bound := zip_with (fun p s => p - z * s)%Q predictions std_estimate in
  let upper_bound := zip_with (fun p s => p + z * s)%Q predictions std_estimate in
  (predictions, zip lower_bound upper_bound).

End AdvancedModel.

Module ETAPredictor.

Definition _calculate_dubai_distance (cfg : Config) (pickup dropoff : Z) : exn + Z :=
  if grid_size cfg =? 0 then inl ZeroDivisionError
  else
    let p_row := pickup / grid_size cfg in
    let p_col := pickup mod grid_size cfg in
    let d_row := dropoff / grid_size cfg in
    let d_col := dropoff mod grid_size cfg in
    inr (Z.abs (p_row - d_row) + Z.abs (p_col - d_col)).

Definition _is_rush_hour (cfg : Config) (hour : Z) : bool :=
  existsb (Z.eqb hour) (rush_morning cfg ++ rush_evening cfg).

Definition zone_in (zone : Z) (l : list Z) : bool := existsb (Z.eqb zone) l.

(** The loop of [_get_zone_type]: the first entry that lists the zone
    returns. *)
Fixpoint get_zone_type_from (entries : list (string * zone_data)) (zone : Z) : string :=
  match entries with
  | [] => "residential"
  | (zone_type, zone_data) :: rest =>
      match zone_data with
      | ZDict (Some cells) =>
          if zone_in zone cells then zone_type else get_zone_type_from rest zone
      | ZList items =>
          if existsb (fun zone_list => match zone_list with
                                       | Some l => zone_in zone l
                                       | None => false
                                       end) items
          then zone_type else get_zone_type_from rest zone
      | _ => get_zone_type_from rest zone
      end
  end.

Definition _get_zone_type (cfg : Config) (zone : Z) : string :=
  get_zone_type_from (zones cfg) zone.

(** [max(1, x)] *)
Definition max1 (x : Q) : Q := if Qle_bool x 1 then 1%Q else x.

Definition _simple_confidence_interval (prediction confidence_level : Q) : Q * Q :=
  let std := (prediction * (15 # 100))%Q in
  let z := z_score confidence_level in
  (max1 (prediction - z * std), prediction + z * std)%Q.

(** The fields of the request row ([input_data.iloc[0]]) that the
    decomposition reads; [is_friday_prayer] is read with a default. *)
Record TripData := mkTrip {
  dubai_distance : Z;
  is_rush_hour : bool;
  is_friday_prayer : option bool
}.

Record Factors := mkFactors {
  base_time : Q;
  traffic_adjustment : Q;
  weather_impact : Q;
  zone_complexity : Q
}.

(** [_decompose_factors], for a row whose integers have the type [row],
    a prediction of any floating-point type and either promotion rule of
    NumPy.  The record holds the values of the returned numbers. *)
Definition _decompose_factors (nep50 : bool) (row : itype) (trip_data : TripData)
           (prediction : fnum) : Factors :=
  (* distance * 3.0: type and value of a product do not depend on the
     order of its operands *)
  let base_time :=
    arith nep50 Qmult (Float PyFloat 3) (OfInt row (dubai_distance trip_data)) in
  let traffic_adjustment :=
    if is_rush_hour trip_data
    then OfFloat (arith nep50 Qmult prediction (literal (2 # 10)))
    else if default false (is_friday_prayer trip_data)
         then OfFloat (arith nep50 Qmult prediction (literal (15 # 100)))
         else OfInt PyInt 0 in
  let zone_complexity :=
    arith nep50 Qminus (arith nep50 Qminus prediction (OfFloat base_time))
          traffic_adjustment in
  mkFactors (to_Q (round1 (OfFloat base_time)))
            (to_Q (round1 traffic_adjustment))
            0
            (to_Q (round1 (OfFloat zone_complexity))).

(** [request_time.hour] and [request_time.weekday()] of a timestamp in
    seconds since 1970-01-01 (a Thursday). *)
Definition hour_of (t : Z) : Z := (t / 3600) mod 24.
Definition weekday_of (t : Z) : Z := (t / 86400 + 3) mod 7.

(** The single-row frame [predict] builds. *)
Definition input_data (cfg : Config) (pickup_zone dropoff_zone request_time : Z)
  : exn + DataFrame :=
  rbind (_calculate_dubai_distance cfg pickup_zone dropoff_zone) (fun dist =>
  let hour := hour_of request_time in
  let weekday := weekday_of request_time in
  inr (mkFrame 1
    [("pickup_zone", [CInt pickup_zone]);
     ("dropoff_zone", [CInt dropoff_zone]);
     ("request_datetime", [CTime request_time]);
     ("dubai_distance", [CInt dist]);
     ("hour", [CInt hour]);
     ("day_of_week", [CInt weekday]);
     ("is_weekend", [CBool (5 <=? weekday)]);
     ("is_rush_hour", [CBool (_is_rush_hour cfg hour)]);
     ("is_friday_prayer", [CBool ((weekday =? 4) && (12 <=? hour) && (hour <=? 13))]);
     ("zone_type_pickup", [CStr (_get_zone_type cfg pickup_zone)]);
     ("zone_type_dropoff", [CStr (_get_zone_type cfg dropoff_zone)]);
     ("weather", [CStr "clear"]);
     ("has_event", [CBool false])])).

(** The decomposition's view of that row. *)
Definition trip_of (cfg : Config) (pickup_zone dropoff_zone request_time : Z)
  : exn + TripData :=
  rbind (_calculate_dubai_distance cfg pickup_zone dropoff_zone) (fun dist =>
  let hour := hour_of request_time in
  let weekday := weekday_of request_time in
  inr (mkTrip dist (_is_rush_hour cfg hour)
              (Some ((weekday =? 4) && (12 <=? hour) && (hour <=? 13))))).

Record Response := mkResponse {
  estimated_duration_minutes : Q;
  confidence_interval : Q * Q;
  factors : Factors
}.

(** The part of [predict] after the chosen model has returned
    [prediction] for the request row.  The factors are computed from the
    row [input_data.iloc[0]], whose integers are NumPy int64 scalars, and
    from the prediction as a NumPy float64, for which both promotion
    rules of NumPy give the same factors.  The baseline model returns
    float64; a float32 output of XGBoost enters with its binary64 value,
    which is how the legacy promotion computes its factors (under
    NEP 50 the product with 0.2 or 0.15 stays a float32, see
    [_decompose_factors]). *)
Definition respond (model_type : string) (trip_data : TripData) (prediction : Q)
  : Response :=
  let confidence_interval :=
    if String.eqb model_type "baseline"
    then _simple_confidence_interval prediction (95 # 100)
    else nth 0 (AdvancedModel.predict_with_confidence [prediction] (95 # 100)).2
             (0%Q, 0%Q) in
  mkResponse prediction confidence_interval
             (_decompose_factors true Int64 trip_data (Float Float64 prediction)).

End ETAPredictor.

(* ================================================================== *)
(** * Vocabulary of the properties and sample data                    *)
(* ================================================================== *)



(** The value of one of the kernel's binary64 numbers, to compare with. *)
Definition prim_Q (f : float) : option Q :=
  match Prim2SF f with
  | S754_zero _ => Some 0%Q
  | S754_finite s m e =>
      Some ((if s then - inject_Z (Zpos m) else inject_Z (Zpos m)) * 2 ^ e)%Q
  | _ => None
  end.

Definition agrees (f : float) (q : Q) : bool :=
  match prim_Q f with
  | Some v => Qeq_bool v q
  | None => false
  end.

Definition prim_of_Z (k : Z) : float :=
  if k <? 0 then PrimFloat.opp (PrimFloat.of_uint63 (Uint63.of_Z (- k)))
  else PrimFloat.of_uint63 (Uint63.of_Z k).

(** The traffic adjustment and the residual of a rush-hour trip with
    prediction [k / 8] over distance [d], on the kernel's numbers and in
    the model. *)
Definition prim_traffic (k : Z) : float :=
  PrimFloat.mul (PrimFloat.div (prim_of_Z k) 8) (PrimFloat.div 2 10).

Definition prim_zone (k d : Z) : float :=
  PrimFloat.sub (PrimFloat.sub (PrimFloat.div (prim_of_Z k) 8)
                               (PrimFloat.mul (prim_of_Z d) 3))
                (prim_traffic k).

Definition model_traffic (k : Z) : fnum :=
  arith true Qmult (Float Float64 (k # 8)) (literal (2 # 10)).

Definition model_zone (k d : Z) : fnum :=
  arith true Qminus
    (arith true Qminus (Float Float64 (k # 8))
       (OfFloat (arith true Qmult (Float PyFloat 3) (OfInt Int64 d))))
    (OfFloat (model_traffic k)).

Definition zone_row (cfg : Config) (zone : Z) : Z := zone / grid_size cfg.
Definition zone_col (cfg : Config) (zone : Z) : Z := zone mod grid_size cfg.

(** The default grid of the repository (ten by ten), with two zone
    sections that overlap on cell 99. *)
Definition sample_config : Config :=
  mkConfig 100 10
           [("coastal", ZDict (Some [89; 99])); ("airport", ZDict (Some [99]))]
           [7; 8; 9] [17; 18; 19; 20] float_0_7 float_0_15.

(** Whether a [zones] entry lists the zone, in either format. *)
Definition listed (zone : Z) (zd : zone_data) : bool :=
  match zd with
  | ZDict (Some cells) => ETAPredictor.zone_in zone cells
  | ZList items => existsb (fun zone_list => match zone_list with
                                             | Some l => ETAPredictor.zone_in zone l
                                             | None => false
                                             end) items
  | _ => false
  end.

(** The type of the last entry that lists the zone. *)
Definition last_listing (entries : list (string * zone_data)) (zone : Z) : option string :=
  fold_left (fun r e => if listed zone e.2 then Some e.1 else r) entries None.

(** The type of the first entry that lists the zone. *)
Definition first_listing (entries : list (string * zone_data)) (zone : Z) : option string :=
  fst <$> List.find (fun e => listed zone e.2) entries.

(** Chronological order of two timestamps (NaT last). *)
Definition time_le (x y : cell) : bool :=
  match DubaiDataGenerator.time_key x, DubaiDataGenerator.time_key y with
  | inr a, inr b => DubaiDataGenerator.key_le a b
  | _, _ => false
  end.

Definition is_time (c : cell) : bool :=
  match c with CTime _ | CNaN => true | _ => false end.

(** Rows of [b] below the rows of [a], column by column. *)
Definition vstack (a b : DataFrame) : DataFrame :=
  mkFrame (nrows a + nrows b)
          (zip_with (fun x y => (x.1, x.2 ++ y.2)) (columns a) (columns b)).

Definition nonneg_ratio (r : binary64) : bool :=
  negb (b_neg r) && (0 <=? b_mant r).

(** Ten trips with their request times out of order. *)
Definition sample_trips : DataFrame :=
  mkFrame 10 [("request_datetime", map CTime [5; 3; 9; 1; 7; 3; 8; 2; 6; 4]);
              ("pickup_zone", map CInt [0; 1; 2; 3; 4; 5; 6; 7; 8; 9])].

(** The order of two (key, row number) pairs during the sort. *)
Definition pair_le (p q : option Z * nat) : Prop :=
  DubaiDataGenerator.key_le p.1 q.1 = true.

(** What [transform] makes of a frame [f], apart from the heap: the
    outcome of every stage in turn. *)
Definition transform_outcome (e : FeatureEngineer) (f : DataFrame) : exn + DataFrame :=
  let fr := engineer_columns e f in
  rbind fr.2 (fun _ =>
  rbind (get_dummies fr.1 categorical_cols) (fun d =>
  match training_columns e with
  | Some cols =>
      let ar := add_missing cols d in
      rbind ar.2 (fun _ => select ar.1 cols)
  | None => inr d
  end)).

(** ** Well-formed trip frames and fitted engineers *)

Definition numeric (c : cell) : bool :=
  match c with CInt _ | CFloat _ | CBool _ | CNaN => true | _ => false end.

Definition textual (c : cell) : bool :=
  match c with CStr _ | CNaN => true | _ => false end.

Definition col_all (P : cell -> bool) (f : DataFrame) (name : string) : bool :=
  match get_col f name with
  | Some v => forallb P v
  | None => false
  end.

(** The labels [get_dummies] produces for the three encoded columns. *)
Definition is_dummy_name (name : string) : bool :=
  String.prefix "zone_type_pickup_" name
  || String.prefix "zone_type_dropoff_" name
  || String.prefix "weather_" name.

(** A frame of trips as the generator and the predictor build them: at
    least one row, the numeric, key and categorical columns that
    [transform] reads, distinct labels, and no raw column carrying the
    label of an indicator column. *)
Definition trip_frame (f : DataFrame) : bool :=
  (0 <? nrows f)%nat
  && forallb (col_all numeric f)
             ["hour"; "day_of_week"; "dubai_distance"; "is_rush_hour"; "is_weekend"]
  && forallb (has_col f) ["pickup_zone"; "dropoff_zone"]
  && forallb (col_all textual f) categorical_cols
  && (if has_col f "is_friday_prayer" then col_all numeric f "is_friday_prayer" else true)
  && bool_decide (NoDup (col_names f))
  && forallb (fun name => negb (is_dummy_name name)) (col_names f).

(** [fit] has completed: the flag is set and the five statistics exist. *)
Definition well_fitted (e : FeatureEngineer) : bool :=
  fitted e
  && bool_decide (is_Some (hour_mean (feature_stats e)))
  && bool_decide (is_Some (dow_mean (feature_stats e)))
  && bool_decide (is_Some (zone_combo_mean (feature_stats e)))
  && bool_decide (is_Some (global_mean (feature_stats e)))
  && bool_decide (is_Some (global_std (feature_stats e))).

(** Several column assignments in a row. *)
Definition set_cols (f : DataFrame) (vs : list (string * list cell)) : DataFrame :=
  fold_left (fun g nv => set_col g nv.1 nv.2) vs f.

(** The labels [engineer_columns] assigns, in order. *)
Definition engineered_names (friday : bool) : list string :=
  ["hour_sin"; "hour_cos"; "dow_sin"; "dow_cos";
   "zone_pair_mean"; "zone_pair_std"; "zone_pair_count";
   "hour_mean"; "dow_mean"; "zone_combo_mean";
   "distance_rush"; "distance_weekend"; "distance_squared"]
  ++ (if friday then ["distance_friday_prayer"] else [])
  ++ ["same_zone_type"; "is_morning"; "is_afternoon"; "is_evening"; "is_night"].

(** The value a zone-pair feature takes in row [i]. *)
Definition zone_pair_value (e : FeatureEngineer) (field : string) (g : cell)
           (p d : list cell) (i : nat) : cell :=
  default g (default ∅ (zone_pair_stats e !! key2 (nth i p CNaN) (nth i d CNaN))
             !! kstr field).

(** Two training trips between different zone pairs, lasting 10 and 20
    minutes. *)
Definition sample_training : DataFrame :=
  mkFrame 2
    [("trip_id", [CStr "trip_000000"; CStr "trip_000001"]);
     ("pickup_zone", [CInt 0; CInt 2]);
     ("dropoff_zone", [CInt 1; CInt 3]);
     ("request_datetime", [CTime 1704700800; CTime 1704790800]);
     ("actual_duration_minutes", [CFloat 10; CFloat 20]);
     ("dubai_distance", [CInt 1; CInt 1]);
     ("hour", [CInt 8; CInt 9]);
     ("day_of_week", [CInt 0; CInt 1]);
     ("is_weekend", [CBool false; CBool false]);
     ("is_rush_hour", [CBool true; CBool true]);
     ("is_friday_prayer", [CBool false; CBool false]);
     ("zone_type_pickup", [CStr "residential"; CStr "residential"]);
     ("zone_type_dropoff", [CStr "residential"; CStr "business"]);
     ("weather", [CStr "clear"; CStr "rain"]);
     ("has_event", [CBool false; CBool false]);
     ("driver_efficiency", [CFloat 1; CFloat 1])].

(** A later batch of three requests at the hours 11, 16 and 21, as the
    predictor builds them, with a weather level ("fog") that the
    training data does not contain. *)
Definition sample_batch : DataFrame :=
  mkFrame 3
    [("pickup_zone", [CInt 0; CInt 2; CInt 5]);
     ("dropoff_zone", [CInt 1; CInt 3; CInt 6]);
     ("request_datetime", [CTime 1704711600; CTime 1704729600; CTime 1704747600]);
     ("dubai_distance", [CInt 1; CInt 1; CInt 1]);
     ("hour", [CInt 11; CInt 16; CInt 21]);
     ("day_of_week", [CInt 0; CInt 0; CInt 0]);
     ("is_weekend", [CBool false; CBool false; CBool false]);
     ("is_rush_hour", [CBool false; CBool false; CBool false]);
     ("is_friday_prayer", [CBool false; CBool false; CBool false]);
     ("zone_type_pickup", [CStr "residential"; CStr "residential"; CStr "residential"]);
     ("zone_type_dropoff", [CStr "residential"; CStr "business"; CStr "residential"]);
     ("weather", [CStr "clear"; CStr "fog"; CStr "clear"]);
     ("has_event", [CBool false; CBool false; CBool false])].

(** A fresh engineer, the training frame at location 1 and the batch at
    location 2; then the same after [fit_transform] of the training
    frame. *)
Definition sample_world : World :=
  mkWorld init_engineer (<[2%positive := sample_batch]> {[ 1%positive := sample_training ]}).

Definition sample_fitted_world : World := (fit_transform 1%positive sample_world).1.

(** What the columns [vs] assigned by [engineer_columns] to a trip frame
    [f] are: their labels, the three zone-pair features and the four
    time windows. *)
Definition engineered (e : FeatureEngineer) (f : DataFrame)
           (vs : list (string * list cell)) : Prop :=
  map fst vs = engineered_names (has_col f "is_friday_prayer")
  /\ (forall g gs p d,
        stat global_mean "global_mean" e = inr g ->
        stat global_std "global_std" e = inr gs ->
        get_col f "pickup_zone" = Some p -> get_col f "dropoff_zone" = Some d ->
        In ("zone_pair_mean", map (zone_pair_value e "mean" g p d) (seq 0 (nrows f))) vs
        /\ In ("zone_pair_std", map (zone_pair_value e "std" gs p d) (seq 0 (nrows f))) vs
        /\ In ("zone_pair_count",
               map (zone_pair_value e "count" (CInt 0) p d) (seq 0 (nrows f))) vs)
  /\ (forall h, get_col f "hour" = Some h ->
                exists m a v n,
                  mapM is_morning h = inr m /\ mapM is_afternoon h = inr a
                  /\ mapM is_evening h = inr v /\ mapM is_night h = inr n
                  /\ In ("is_morning", m) vs /\ In ("is_afternoon", a) vs
                  /\ In ("is_evening", v) vs /\ In ("is_night", n) vs).

(** Whether [transform] keeps a column with this label: always while no
    training columns are frozen, afterwards only the frozen ones. *)
Definition keeps (e : FeatureEngineer) (name : string) : bool :=
  match training_columns e with
  | None => true
  | Some cols => existsb (String.eqb name) cols
  end.

(** The four indicators (morning, afternoon, evening, night) of an
    integer hour, with the inclusive bounds of the windows. *)
Definition window_row (k : Z) : cell * cell * cell * cell :=
  (CInt (Z.b2z ((6 <=? k) && (k <=? 10))),
   CInt (Z.b2z ((12 <=? k) && (k <=? 16))),
   CInt (Z.b2z ((17 <=? k) && (k <=? 21))),
   CInt (Z.lor (Z.b2z ((22 <=? k) && (k <=? 23))) (Z.b2z ((0 <=? k) && (k <=? 5))))).

(** How many of the four indicators are set. *)
Definition windows_set (r : cell * cell * cell * cell) : Z :=
  match r with
  | (CInt a, CInt b, CInt c, CInt d) => a + b + c + d
  | _ => -1
  end.

Definition window_names : list string :=
  ["is_morning"; "is_afternoon"; "is_evening"; "is_night"].

(* ================================================================== *)
(** * Config: the loaded document and dotted look-ups                 *)
(* ================================================================== *)

(** What [yaml.safe_load] hands back.  A mapping is the list of its
    items that have a string key, in the order of the file (their keys
    distinct); [get] and the section properties look up string keys only,
    so they never see the other items. *)
#[warnings="-register-all"]
Inductive yaml :=
| YNull
| YBool (b : bool)
| YInt (z : Z)
| YFloat (x : binary64)
| YStr (s : string)
| YList (items : list yaml)
| YDict (items : list (string * yaml)).

(** [s.split(sep)] for a one-character separator. *)
Fixpoint split (sep : ascii) (s : string) : list string :=
  match s with
  | EmptyString => [EmptyString]
  | String c s' =>
      if Ascii.eqb c sep then EmptyString :: split sep s'
      else match split sep s' with
           | w :: ws => String c w :: ws
           | [] => [String c EmptyString]
           end
  end.

(** [sep.join(parts)] *)
Fixpoint join (sep : string) (parts : list string) : string :=
  match parts with
  | [] => EmptyString
  | [w] => w
  | w :: ws => w +:+ sep +:+ join sep ws
  end.

(** The class of a value, as the interpreter prints it in a message. *)
Definition type_name (v : yaml) : string :=
  match v with
  | YNull => "NoneType"
  | YBool _ => "bool"
  | YInt _ => "int"
  | YFloat _ => "float"
  | YStr _ => "str"
  | YList _ => "list"
  | YDict _ => "dict"
  end.

Definition AttributeError (msg : string) : exn := Exception "AttributeError" msg.

(** [d.get(key, default)] on whatever [d] is. *)
Definition dict_get (d : yaml) (key : string) (default : yaml) : exn + yaml :=
  match d with
  | YDict items => inr (match assoc key items with
                        | Some v => v
                        | None => default
                        end)
  | _ => inl (AttributeError ("'" +:+ type_name d +:+ "' object has no attribute 'get'"))
  end.

Module Config.

(** The loop of [get]: descend along the keys while the value is a
    mapping that has the key. *)
Fixpoint lookup_path (keys : list string) (value : yaml) : option yaml :=
  match keys with
  | [] => Some value
  | key :: keys' =>
      match value with
      | YDict items =>
          match assoc key items with
          | Some v => lookup_path keys' v
          | None => None
          end
      | _ => None
      end
  end.

Definition get (config : yaml) (key_path : string) (default : yaml) : yaml :=
  let keys := split "."%char key_path in
  match lookup_path keys config with
  | Some value => value
  | None => default
  end.

(** How the subscription [self.config[name]] by a string fails: a
    mapping without the key raises [KeyError(name)]; a document of any
    other type raises a TypeError.  The text of the TypeError differs
    from type to type (a list or a string asks for integer indices, the
    other types are not subscriptable) and between interpreter versions;
    the model keeps the class and the document's type, not the text. *)
Inductive subscript_error :=
| SubscriptKeyError (name : string)
| SubscriptTypeError (type : string).

(** [self.config[name]], the body of the four section properties. *)
Definition section (config : yaml) (name : string) : subscript_error + yaml :=
  match config with
  | YDict items =>
      match assoc name items with
      | Some v => inr v
      | None => inl (SubscriptKeyError name)
      end
  | _ => inl (SubscriptTypeError (type_name config))
  end.

Definition data_config (config : yaml) : subscript_error + yaml := section config "data".
Definition zones_config (config : yaml) : subscript_error + yaml := section config "zones".
Definition traffic_config (config : yaml) : subscript_error + yaml :=
  section config "traffic".
Definition model_config (config : yaml) : subscript_error + yaml := section config "model".

End Config.

(** The literals [0.1] and [0.8]. *)
Definition float_0_1 : binary64 := B64 false 7205759403792794 (-56).
Definition float_0_8 : binary64 := B64 false 7205759403792794 (-53).

Module AdvancedModelParams.

(** [AdvancedModel._init_params]: the dictionary [self.params], its
    items in the order of the literal. *)
Definition _init_params (config : yaml) : exn + list (string * yaml) :=
  let xgb_config := Config.get config "model.xgboost" (YDict []) in
  rbind (dict_get xgb_config "n_estimators" (YInt 200)) (fun n_estimators =>
  rbind (dict_get xgb_config "max_depth" (YInt 8)) (fun max_depth =>
  rbind (dict_get xgb_config "learning_rate" (YFloat float_0_1)) (fun learning_rate =>
  rbind (dict_get xgb_config "subsample" (YFloat float_0_8)) (fun subsample =>
  rbind (dict_get xgb_config "colsample_bytree" (YFloat float_0_8)) (fun colsample_bytree =>
  rbind (dict_get xgb_config "random_state" (YInt 42)) (fun random_state =>
  inr [("objective", YStr "reg:squarederror");
       ("n_estimators", n_estimators);
       ("max_depth", max_depth);
       ("learning_rate", learning_rate);
       ("subsample", subsample);
       ("colsample_bytree", colsample_bytree);
       ("random_state", random_state);
       ("n_jobs", YInt (-1))])))))).

End AdvancedModelParams.

(** A string without the separator of key paths. *)
Fixpoint no_dot (s : string) : bool :=
  match s with
  | EmptyString => true
  | String c s' => negb (Ascii.eqb c "."%char) && no_dot s'
  end.

(** A configuration in the shape of the repository's file, with an empty
    [xgboost] entry. *)
Definition sample_yaml : yaml :=
  YDict [("data", YDict [("n_zones", YInt 100); ("grid_size", YInt 10);
                         ("train_ratio", YFloat float_0_7)]);
         ("model", YDict [("xgboost", YNull)]);
         ("a.b", YInt 1)].

(** The sections of [zones] that list the zone. *)
Definition listings (entries : list (string * zone_data)) (zone : Z)
  : list (string * zone_data) :=
  List.filter (fun e => listed zone e.2) entries.

(** [self.zone_types.get(zone, 'residential')], as
    [calculate_base_duration] reads the generator's table. *)
Definition zone_type_or_residential (cfg : Config) (zone : Z) : string :=
  default "residential" (DubaiDataGenerator._define_zone_types cfg !! zone).


(** A frame with the zone and duration columns but without [hour]. *)
Definition frame_without_hour : DataFrame :=
  mkFrame 1 [("pickup_zone", [CInt 7]); ("dropoff_zone", [CInt 8]);
             ("actual_duration_minutes", [CFloat 30])].

(* ================================================================== *)
(** * The models and the methods of ETAPredictor                      *)
(* ================================================================== *)

Definition IndexError (msg : string) : exn := Exception "IndexError" msg.

(** [a[0]] on a one-dimensional array. *)
Definition first_item {A} (a : list A) : exn + A :=
  match a with
  | x :: _ => inr x
  | [] => inl (IndexError "index 0 is out of bounds for axis 0 with size 0")
  end.

(** The truth value of a cell in a condition. *)
Definition truthy (c : cell) : bool :=
  match c with
  | CBool b => b
  | CInt z => negb (z =? 0)
  | CFloat q => negb (Qeq_bool q 0)
  | CStr s => negb (String.eqb s "")
  | _ => true
  end.

(** What [_decompose_factors] reads from [input_data.iloc[0]]: the
    distance, which [predict] stores as an integer, the truth value of
    [is_rush_hour], and that of [is_friday_prayer] where the row has
    it. *)
Definition trip_of_row (x : row) : exn + ETAPredictor.TripData :=
  rbind (row_get x "dubai_distance") (fun d =>
  rbind (row_get x "is_rush_hour") (fun r =>
  match d with
  | CInt dist => inr (ETAPredictor.mkTrip dist (truthy r)
                                          (truthy <$> assoc "is_friday_prayer" x))
  | _ => inl (TypeError "the distance of a request row is an integer")
  end)).

Module Pipeline.

Section Libraries.

(** The estimators of scikit-learn and XGBoost are not part of the
    repository.  [LR] is the state of the scaler and the linear
    regression together, [XGB] that of a gradient-boosted regressor;
    fitting leaves a state behind whether or not it raises. *)
Variable LR : Type.
Variable lr_fit : LR -> DataFrame -> list cell -> LR * (exn + unit).
Variable lr_predict : LR -> DataFrame -> exn + list Q.
Variable XGB : Type.
Variable xgb_fit : DataFrame -> list cell -> option (DataFrame * list cell)
                   -> XGB * (exn + unit).
Variable xgb_predict : XGB -> DataFrame -> exn + list Q.

Record BaselineModel := mkBaseline {
  b_objects : LR;
  b_fitted : bool
}.

Record AdvancedModel := mkAdvanced {
  a_model : option XGB;
  a_feature_columns : option (list string);
  a_fitted : bool
}.

(** [BaselineModel.feature_columns] *)
Definition baseline_columns : list string :=
  ["dubai_distance"; "hour"; "day_of_week"; "is_rush_hour"].

(** [train_size], [val_size] and [features_count] of the metadata. *)
Record Metadata := mkMetadata {
  train_size : nat;
  val_size : nat;
  features_count : nat
}.

(** An [ETAPredictor]: its feature engineer together with the frames
    alive, the two models, the metadata and the flag. *)
Record Predictor := mkPredictor {
  world : World;
  baseline_model : BaselineModel;
  advanced_model : AdvancedModel;
  metadata : option Metadata;
  p_fitted : bool
}.

Definition P (A : Type) : Type := SE Predictor A.

(** A call into the feature engineer or the heap. *)
Definition liftW {A} (m : M A) : P A :=
  fun p => let r := m (world p) in
           (mkPredictor r.1 (baseline_model p) (advanced_model p) (metadata p) (p_fitted p),
            r.2).

Definition get_baseline : P BaselineModel := fun p => (p, inr (baseline_model p)).
Definition set_baseline (b : BaselineModel) : P unit :=
  fun p => (mkPredictor (world p) b (advanced_model p) (metadata p) (p_fitted p), inr tt).
Definition get_advanced : P AdvancedModel := fun p => (p, inr (advanced_model p)).
Definition set_advanced (a : AdvancedModel) : P unit :=
  fun p => (mkPredictor (world p) (baseline_model p) a (metadata p) (p_fitted p), inr tt).

(** [BaselineModel.fit] *)
Definition baseline_fit (X : DataFrame) (y : list cell) : P unit :=
  b <- get_baseline ;;
  X_baseline <- lift (select X baseline_columns) ;;
  let r := lr_fit (b_objects b) X_baseline y in
  set_baseline (mkBaseline r.1 (b_fitted b)) ;;
  lift r.2 ;;
  set_baseline (mkBaseline r.1 true).

(** [BaselineModel.predict] *)
Definition baseline_predict (b : BaselineModel) (X : DataFrame) : exn + list Q :=
  if negb (b_fitted b) then inl (ValueError "Model must be fitted before prediction")
  else rbind (select X baseline_columns) (fun X_baseline =>
       lr_predict (b_objects b) X_baseline).

(** [AdvancedModel.fit] *)
Definition advanced_fit (X_train : DataFrame) (y_train : list cell)
           (val : option (DataFrame * list cell)) : P unit :=
  a <- get_advanced ;;
  let r := xgb_fit X_train y_train val in
  set_advanced (mkAdvanced (Some r.1) (Some (col_names X_train)) (a_fitted a)) ;;
  lift r.2 ;;
  set_advanced (mkAdvanced (Some r.1) (Some (col_names X_train)) true).

(** [AdvancedModel.predict] *)
Definition advanced_predict (a : AdvancedModel) (X : DataFrame) : exn + list Q :=
  if negb (a_fitted a) then inl (ValueError "Model must be fitted before prediction")
  else match a_feature_columns a, a_model a with
       | Some cols, Some model =>
           rbind (select X cols) (fun X_pred => xgb_predict model X_pred)
       | None, _ => inl (KeyError "None")
       | Some cols, None =>
           rbind (select X cols) (fun _ =>
           inl (AttributeError "'NoneType' object has no attribute 'predict'"))
       end.

(** [AdvancedModel.predict_with_confidence] on a frame. *)
Definition advanced_predict_with_confidence (a : AdvancedModel) (X : DataFrame)
  : exn + (list Q * list (Q * Q)) :=
  rbind (advanced_predict a X) (fun predictions =>
  inr (AdvancedModel.predict_with_confidence predictions (95 # 100))).

(** [ETAPredictor.train] *)
Definition train (train_df : loc) (val_df : option loc) : P unit :=
  (* Feature engineering *)
  X_train <- liftW (fit_transform train_df) ;;
  tf <- liftW (deref train_df) ;;
  y_train <- lift (column tf "actual_duration_minutes") ;;
  (* Get feature columns *)
  xt <- liftW (deref X_train) ;;
  let feature_cols := get_feature_columns xt in
  X_train_features <- lift (select xt feature_cols) ;;
  (* Train baseline model *)
  baseline_fit X_train_features y_train ;;
  (* Prepare validation data if provided *)
  val <- match val_df with
         | Some v =>
             X_val <- liftW (transform v) ;;
             xv <- liftW (deref X_val) ;;
             X_val_features <- lift (select xv feature_cols) ;;
             vf <- liftW (deref v) ;;
             y_val <- lift (column vf "actual_duration_minutes") ;;
             ret (Some (X_val_features, y_val))
         | None => ret None
         end ;;
  (* Train advanced model *)
  advanced_fit X_train_features y_train val ;;
  (* Store metadata *)
  val_rows <- match val_df with
              | Some v => vf <- liftW (deref v) ;; ret (nrows vf)
              | None => ret O
              end ;;
  fun p => (mkPredictor (world p) (baseline_model p) (advanced_model p)
                        (Some (mkMetadata (nrows tf) val_rows (length feature_cols)))
                        true,
            inr tt).

(** [ETAPredictor.predict], up to the metadata of the response. *)
Definition predict (cfg : Config) (pickup_zone dropoff_zone request_time : Z)
           (model_type : string) : P ETAPredictor.Response :=
  me <- get_state ;;
  if negb (p_fitted me)
  then raise (ValueError "Models must be trained before prediction")
  else
    (* Create input dataframe *)
    f <- lift (ETAPredictor.input_data cfg pickup_zone dropoff_zone request_time) ;;
    input_data <- liftW (new_object f) ;;
    (* Engineer features *)
    X <- liftW (transform input_data) ;;
    x <- liftW (deref X) ;;
    let feature_cols := get_feature_columns x in
    X_features <- lift (select x feature_cols) ;;
    (* Get prediction *)
    pc <- (if String.eqb model_type "baseline"
           then b <- get_baseline ;;
                predictions <- lift (baseline_predict b X_features) ;;
                prediction <- lift (first_item predictions) ;;
                ret (prediction,
                     ETAPredictor._simple_confidence_interval prediction (95 # 100))
           else a <- get_advanced ;;
                r <- lift (advanced_predict_with_confidence a X_features) ;;
                prediction <- lift (first_item r.1) ;;
                interval <- lift (first_item r.2) ;;
                ret (prediction, interval)) ;;
    (* Prepare response *)
    row0 <- liftW (deref input_data) ;;
    trip_data <- lift (trip_of_row (row_at row0 0)) ;;
    ret (ETAPredictor.mkResponse
           pc.1 pc.2
           (ETAPredictor._decompose_factors true Int64 trip_data (Float Float64 pc.1))).

End Libraries.

End Pipeline.

Arguments Pipeline.mkBaseline {LR} _ _.
Arguments Pipeline.b_objects {LR} _.
Arguments Pipeline.b_fitted {LR} _.
Arguments Pipeline.mkAdvanced {XGB} _ _ _.
Arguments Pipeline.a_model {XGB} _.
Arguments Pipeline.a_feature_columns {XGB} _.
Arguments Pipeline.a_fitted {XGB} _.
Arguments Pipeline.mkPredictor {LR XGB} _ _ _ _ _.
Arguments Pipeline.world {LR XGB} _.
Arguments Pipeline.baseline_model {LR XGB} _.
Arguments Pipeline.advanced_model {LR XGB} _.
Arguments Pipeline.metadata {LR XGB} _.
Arguments Pipeline.p_fitted {LR XGB} _.
Arguments Pipeline.liftW {LR XGB A} _ _.
Arguments Pipeline.baseline_predict {LR} _ _ _.
Arguments Pipeline.advanced_predict {XGB} _ _ _.
Arguments Pipeline.advanced_predict_with_confidence {XGB} _ _ _.
Arguments Pipeline.baseline_fit {LR} _ {XGB} _ _ _.
Arguments Pipeline.advanced_fit {LR XGB} _ _ _ _ _.
Arguments Pipeline.train {LR} _ {XGB} _ _ _ _.
Arguments Pipeline.predict {LR} _ {XGB} _ _ _ _ _ _ _.

(** Two states of a predictor that differ at most in frames allocated
    in between: the same engineer, models, metadata and flag, and every
    frame of the first still in place in the second. *)
Definition only_allocates {LR XGB} (p p' : Pipeline.Predictor LR XGB) : Prop :=
  self (Pipeline.world p') = self (Pipeline.world p)
  /\ heap (Pipeline.world p) ⊆ heap (Pipeline.world p')
  /\ Pipeline.baseline_model p' = Pipeline.baseline_model p
  /\ Pipeline.advanced_model p' = Pipeline.advanced_model p
  /\ Pipeline.metadata p' = Pipeline.metadata p
  /\ Pipeline.p_fitted p' = Pipeline.p_fitted p.

(** A trained predictor whose models always answer 20 minutes, on top of
    the fitted sample engineer. *)
Definition sample_predictor : Pipeline.Predictor unit unit :=
  Pipeline.mkPredictor
    sample_fitted_world
    (Pipeline.mkBaseline tt true)
    (Pipeline.mkAdvanced
       (Some tt)
       (option_map (List.filter (fun col => negb (existsb (String.eqb col) exclude_cols)))
                   (training_columns (self sample_fitted_world)))
       true)
    None true.

Definition constant_model (_ : unit) (X : DataFrame) : exn + list Q :=
  inr (repeat 20%Q (nrows X)).

(** A fresh predictor next to the sample training frame, and estimator
    stubs whose fitting always succeeds. *)
Definition fresh_predictor : Pipeline.Predictor unit unit :=
  Pipeline.mkPredictor sample_world (Pipeline.mkBaseline tt false)
                       (Pipeline.mkAdvanced None None false) None false.



(** ** Feature engineering, one trip at a time *)

(** Every column of the frame holds one value for each row. *)
Definition frame_ok (f : DataFrame) : bool :=
  forallb (fun nc => (length nc.2 =? nrows f)%nat) (columns f).

(** The engineered features of a single trip, computed from its row [x]
    and the fitted statistics alone, with the formulas of [transform]
    applied to scalars; [distance_friday_prayer] is present when the row
    has an [is_friday_prayer] entry. *)
Definition row_features (e : FeatureEngineer) (x : row) : exn + list (string * cell) :=
  rbind (row_get x "hour") (fun hour =>
  rbind (row_get x "day_of_week") (fun dow =>
  rbind (row_get x "dubai_distance") (fun dist =>
  rbind (row_get x "is_rush_hour") (fun rush =>
  rbind (row_get x "is_weekend") (fun weekend =>
  rbind (row_get x "zone_type_pickup") (fun tp =>
  rbind (row_get x "zone_type_dropoff") (fun td =>
  rbind (stat hour_mean "hour_mean" e) (fun hm =>
  rbind (stat dow_mean "dow_mean" e) (fun dm =>
  rbind (stat global_mean "global_mean" e) (fun g =>
  rbind (sin_turn 24 hour) (fun hour_sin =>
  rbind (cos_turn 24 hour) (fun hour_cos =>
  rbind (sin_turn 7 dow) (fun dow_sin =>
  rbind (cos_turn 7 dow) (fun dow_cos =>
  rbind (zone_pair_lookup e "mean" (stat global_mean "global_mean" e) x) (fun pair_mean =>
  rbind (zone_pair_lookup e "std" (stat global_std "global_std" e) x) (fun pair_std =>
  rbind (zone_pair_lookup e "count" (inr (CInt 0)) x) (fun pair_count =>
  rbind (zone_combo_lookup e x) (fun combo_mean =>
  rbind (cell_mul dist rush) (fun distance_rush =>
  rbind (cell_mul dist weekend) (fun distance_weekend =>
  rbind (cell_mul dist dist) (fun distance_squared =>
  rbind (match assoc "is_friday_prayer" x with
         | Some prayer => rbind (cell_mul dist prayer) (fun v =>
                          inr [("distance_friday_prayer", v)])
         | None => inr []
         end) (fun friday =>
  rbind (same_type tp td) (fun same_zone_type =>
  rbind (is_morning hour) (fun morning =>
  rbind (is_afternoon hour) (fun afternoon =>
  rbind (is_evening hour) (fun evening =>
  rbind (is_night hour) (fun night =>
  inr ([("hour_sin", hour_sin); ("hour_cos", hour_cos);
        ("dow_sin", dow_sin); ("dow_cos", dow_cos);
        ("zone_pair_mean", pair_mean); ("zone_pair_std", pair_std);
        ("zone_pair_count", pair_count);
        ("hour_mean", fillna g (map_dict hm hour));
        ("dow_mean", fillna g (map_dict dm dow));
        ("zone_combo_mean", combo_mean);
        ("distance_rush", distance_rush); ("distance_weekend", distance_weekend);
        ("distance_squared", distance_squared)]
       ++ friday
       ++ [("same_zone_type", same_zone_type); ("is_morning", morning);
           ("is_afternoon", afternoon); ("is_evening", evening);
           ("is_night", night)])))))))))))))))))))))))))))).

(** The entries of row [i] in a list of columns. *)
Definition cells_at (i : nat) (vs : list (string * list cell)) : list (string * cell) :=
  map (fun nv => (nv.1, nth i nv.2 CNaN)) vs.

(** The values of the rows whose group key is [k], in row order; a key
    that no row has forms no group. *)
Definition rows_with (k : pykey) (keys : list (option pykey)) (vals : list (option Q))
  : list (option Q) :=
  map snd (List.filter (fun kv => bool_decide (kv.1 = Some k)) (zip keys vals)).

Definition group_of (keys : list (option pykey)) (vals : list (option Q)) (k : pykey)
  : option (list (option Q)) :=
  match rows_with k keys vals with
  | [] => None
  | l => Some l
  end.

(** ** The cells of a transformed row *)

(** [n] without the prefix [p], when it starts with [p]. *)
Fixpoint strip_prefix (p n : string) : option string :=
  match p with
  | EmptyString => Some n
  | String a p' =>
      match n with
      | String b n' => if Ascii.eqb a b then strip_prefix p' n' else None
      | EmptyString => None
      end
  end.

(** For the label of an indicator column, whether the row's category is
    the level the label names. *)
Definition indicator_of (x : row) (n : string) : option bool :=
  match strip_prefix "zone_type_pickup_" n with
  | Some level => Some (bool_decide (assoc "zone_type_pickup" x = Some (CStr level)))
  | None =>
      match strip_prefix "zone_type_dropoff_" n with
      | Some level => Some (bool_decide (assoc "zone_type_dropoff" x = Some (CStr level)))
      | None =>
          match strip_prefix "weather_" n with
          | Some level => Some (bool_decide (assoc "weather" x = Some (CStr level)))
          | None => None
          end
      end
  end.

(** The value, up to Python's equality of numbers, that an engineer with
    frozen training columns puts under the label [n] for a trip with row
    [x] and engineered features [feats]: the engineered feature of that
    label; else the indicator of the row's category; else nothing for an
    encoded column; else the row's own entry; and zero for what is
    missing. *)
Definition transform_cell (feats : list (string * cell)) (x : row) (n : string) : cell :=
  match assoc n feats with
  | Some c => c
  | None =>
      match indicator_of x n with
      | Some b => CInt (Z.b2z b)
      | None => if is_encoded categorical_cols n then CInt 0
                else default (CInt 0) (assoc n x)
      end
  end.

(** The first request of the sample batch on its own, and a world that
    holds the batch and this single request next to the fitted sample
    engineer. *)
Definition sample_single : DataFrame := DubaiDataGenerator.take_rows [0%nat] sample_batch.

Definition sample_serving_world : World :=
  mkWorld (self sample_fitted_world)
          (<[2%positive := sample_single]> {[ 1%positive := sample_batch ]}).

(* ================================================================== *)
(** * The request schema of the API                                   *)
(* ================================================================== *)

Module ETARequest.

(** The constraints [ge=0, lt=100] of both zone fields. *)
Definition in_range (v : Z) : bool := (0 <=? v) && (v <? 100).

(** Validation of the two zone fields of a request, for integer inputs:
    the fields are validated in the order of their declaration; the
    validator [zones_different] runs on [dropoff_zone] once its own
    constraints hold, and compares with [pickup_zone] only if that field
    was accepted (it is then present in [values]).  The result is the
    accepted pair, or the names of the rejected fields. *)
Definition validate (pickup_zone dropoff_zone : Z) : list string + Z * Z :=
  let pickup_errors := if in_range pickup_zone then [] else ["pickup_zone"] in
  let dropoff_errors :=
    if in_range dropoff_zone
    then (if in_range pickup_zone && (dropoff_zone =? pickup_zone)
          then ["dropoff_zone"] else [])
    else ["dropoff_zone"] in
  match pickup_errors ++ dropoff_errors with
  | [] => inr (pickup_zone, dropoff_zone)
  | errors => inl errors
  end.

End ETARequest.

(** The sample batch with observed durations, for fitting again, next
    to the fitted sample engineer. *)
Definition sample_refit : DataFrame :=
  mkFrame 3 (columns sample_batch
             ++ [("actual_duration_minutes", [CFloat 12; CFloat 14; CFloat 16])]).

Definition sample_refit_world : World :=
  mkWorld (self sample_fitted_world) {[ 1%positive := sample_refit ]}.

(* ================================================================== *)
(** * Properties                                                      *)
(* ================================================================== *)

(** ** Zone model *)

Lemma generator_predictor_distance (cfg : Config) (a b : Z) :
  ETAPredictor._calculate_dubai_distance cfg a b
  = DubaiDataGenerator.calculate_dubai_distance cfg a b.
Proof. reflexivity. Qed.

Lemma distance_symmetric (cfg : Config) (a b : Z) :
  DubaiDataGenerator.calculate_dubai_distance cfg a b
  = DubaiDataGenerator.calculate_dubai_distance cfg b a.
Proof.
  unfold DubaiDataGenerator.calculate_dubai_distance.
  destruct (grid_size cfg =? 0); [reflexivity|].
  f_equal. lia.
Qed.

Lemma zone_coordinates_in_grid (cfg : Config) (zone : Z) :
  0 < grid_size cfg -> 0 <= zone < grid_size cfg * grid_size cfg ->
  0 <= zone_row cfg zone < grid_size cfg /\ 0 <= zone_col cfg zone < grid_size cfg.
Proof.
  intros Hg Hz. unfold zone_row, zone_col. split.
  - split; [apply Z.div_pos; lia|]. apply Z.div_lt_upper_bound; lia.
  - apply Z.mod_pos_bound; lia.
Qed.

Lemma get_zone_type_from_total (entries : list (string * zone_data)) (zone : Z) :
  ETAPredictor.get_zone_type_from entries zone = "residential"
  \/ In (ETAPredictor.get_zone_type_from entries zone) (map fst entries).
Proof.
  induction entries as [|[zt zd] rest IH]; simpl; [now left|].
  destruct zd as [[cells|]|items|];
    repeat match goal with |- context [if ?b then _ else _] => destruct b end;
    intuition.
Qed.

(** ** Zone types: generator against predictor *)

Lemma assign_all_lookup (t : string) (zs : list Z) (m : gmap Z string) (z : Z) :
  DubaiDataGenerator.assign_all t zs m !! z
  = if ETAPredictor.zone_in z zs then Some t else m !! z.
Proof.
  unfold DubaiDataGenerator.assign_all, ETAPredictor.zone_in.
  revert m. induction zs as [|x zs IH]; intros m; simpl; [reflexivity|].
  rewrite IH. destruct (existsb (Z.eqb z) zs) eqn:E.
  - now rewrite orb_true_r.
  - rewrite orb_false_r. destruct (Z.eqb_spec z x) as [->|Hne].
    + apply lookup_insert_eq.
    + now apply lookup_insert_ne.
Qed.

Lemma override_lookup (m : gmap Z string) (e : string * zone_data) (z : Z) :
  DubaiDataGenerator.override m e !! z
  = if listed z e.2 then Some e.1 else m !! z.
Proof.
  destruct e as [t [[cells|]|items|]]; simpl; try reflexivity.
  - apply assign_all_lookup.
  - unfold DubaiDataGenerator.override. simpl.
    revert m. induction items as [|[l|] items IH]; intros m; simpl; try reflexivity.
    + rewrite IH, assign_all_lookup.
      destruct (existsb _ items); [now rewrite orb_true_r|].
      now rewrite orb_false_r.
    + apply IH.
Qed.

Lemma last_listing_acc_None (z : Z) (es : list (string * zone_data)) (r : option string) :
  fold_left (fun r e => if listed z e.2 then Some e.1 else r) es r = None -> r = None.
Proof.
  revert r. induction es as [|e es IH]; intros r H; simpl in H; [exact H|].
  apply IH in H. destruct (listed z e.2); [discriminate | exact H].
Qed.

Lemma fold_override_lookup (z : Z) (es : list (string * zone_data))
      (r : option string) (m : gmap Z string) :
  (forall t, r = Some t -> m !! z = Some t) ->
  fold_left DubaiDataGenerator.override es m !! z
  = match fold_left (fun r e => if listed z e.2 then Some e.1 else r) es r with
    | Some t => Some t
    | None => m !! z
    end.
Proof.
  revert r m. induction es as [|e es IH]; intros r m Hr; simpl.
  - destruct r as [t|]; [now apply Hr | reflexivity].
  - rewrite (IH (if listed z e.2 then Some e.1 else r)).
    + destruct (fold_left _ es _) eqn:F; [reflexivity|].
      apply last_listing_acc_None in F.
      rewrite override_lookup. destruct (listed z e.2); [discriminate | reflexivity].
    + intros t Ht. rewrite override_lookup.
      destruct (listed z e.2); [exact Ht | now apply Hr].
Qed.

Lemma residential_lookup (n : Z) (z : Z) :
  DubaiDataGenerator.assign_all "residential" (map Z.of_nat (seq 0 (Z.to_nat n))) ∅ !! z
  = if (0 <=? z) && (z <? n) then Some "residential" else None.
Proof.
  rewrite assign_all_lookup, lookup_empty. unfold ETAPredictor.zone_in.
  destruct (existsb (Z.eqb z) _) eqn:E.
  - apply existsb_exists in E as (x & Hin & Hx). apply Z.eqb_eq in Hx. subst x.
    apply in_map_iff in Hin as (k & <- & Hk). apply in_seq in Hk.
    replace (0 <=? Z.of_nat k) with true by (symmetry; apply Z.leb_le; lia).
    replace (Z.of_nat k <? n) with true by (symmetry; apply Z.ltb_lt; lia).
    reflexivity.
  - destruct (Z.leb_spec 0 z); [|reflexivity].
    destruct (Z.ltb_spec z n); [|reflexivity]. exfalso.
    assert (X : existsb (Z.eqb z) (map Z.of_nat (seq 0 (Z.to_nat n))) = true).
    { apply existsb_exists. exists z. split; [|apply Z.eqb_refl].
      apply in_map_iff. exists (Z.to_nat z). split; [lia|]. apply in_seq. lia. }
    congruence.
Qed.

(** The generator's table gives the LAST entry that lists the zone. *)
Lemma define_zone_types_lookup (cfg : Config) (z : Z) :
  DubaiDataGenerator._define_zone_types cfg !! z
  = match last_listing (zones cfg) z with
    | Some t => Some t
    | None => if (0 <=? z) && (z <? n_zones cfg) then Some "residential" else None
    end.
Proof.
  unfold DubaiDataGenerator._define_zone_types, last_listing.
  rewrite (fold_override_lookup z (zones cfg) None) by discriminate.
  now rewrite residential_lookup.
Qed.

(** The predictor's lookup gives the FIRST entry that lists the zone. *)
Lemma get_zone_type_lookup (cfg : Config) (z : Z) :
  ETAPredictor._get_zone_type cfg z
  = default "residential" (first_listing (zones cfg) z).
Proof.
  unfold ETAPredictor._get_zone_type, first_listing.
  induction (zones cfg) as [|[t zd] es IH]; simpl; [reflexivity|].
  destruct zd as [[cells|]|items|]; simpl; try exact IH.
  - destruct (ETAPredictor.zone_in z cells); [reflexivity | exact IH].
  - destruct (existsb _ items); [reflexivity | exact IH].
Qed.

(** Where at most one entry lists a zone of the grid, the two agree. *)
Lemma zone_types_agree_without_overlap (cfg : Config) (z : Z) :
  0 <= z < n_zones cfg ->
  (forall t, first_listing (zones cfg) z = Some t -> last_listing (zones cfg) z = Some t) ->
  DubaiDataGenerator._define_zone_types cfg !! z
  = Some (ETAPredictor._get_zone_type cfg z).
Proof.
  intros Hz Hu. rewrite define_zone_types_lookup, get_zone_type_lookup.
  destruct (first_listing (zones cfg) z) as [t|] eqn:F.
  - now rewrite (Hu t eq_refl).
  - assert (L : last_listing (zones cfg) z = None).
    { unfold first_listing, last_listing in *.
      destruct (List.find _ (zones cfg)) eqn:Ff; [discriminate|].
      clear F Hu. revert Ff. induction (zones cfg) as [|e es IH]; intros Ff;
        simpl in *; [reflexivity|].
      destruct (listed z e.2); [discriminate|]. now apply IH. }
    rewrite L. simpl.
    replace (0 <=? z) with true by (symmetry; apply Z.leb_le; lia).
    replace (z <? n_zones cfg) with true by (symmetry; apply Z.ltb_lt; lia).
    reflexivity.
Qed.

(** C8.  On a configuration whose sections overlap the two components
    disagree: cell 99 is listed under "coastal" and then under "airport";
    the generator's table, where later entries overwrite earlier ones,
    says "airport", while the predictor returns at the first match and
    says "coastal". *)
Theorem zone_type_overlap_divergence :
  DubaiDataGenerator._define_zone_types sample_config !! 99 = Some "airport"
  /\ ETAPredictor._get_zone_type sample_config 99 = "coastal".
Proof. split; vm_compute; reflexivity. Qed.

(** ** Confidence intervals *)

Lemma max1_spec (x : Q) :
  (x <= 1 /\ ETAPredictor.max1 x = 1)%Q \/ (1 < x /\ ETAPredictor.max1 x = x)%Q.
Proof.
  unfold ETAPredictor.max1. destruct (Qle_bool x 1) eqn:E.
  - left. split; [now apply Qle_bool_iff | reflexivity].
  - right. split; [|reflexivity].
    apply Qnot_le_lt. intros H. apply Qle_bool_iff in H. congruence.
Qed.

Lemma advanced_interval (trip : ETAPredictor.TripData) (p : Q) :
  ETAPredictor.confidence_interval (ETAPredictor.respond "advanced" trip p)
  = (p - (196 # 100) * (p * (15 # 100)), p + (196 # 100) * (p * (15 # 100)))%Q.
Proof. reflexivity. Qed.

Lemma baseline_interval (trip : ETAPredictor.TripData) (p : Q) :
  ETAPredictor.confidence_interval (ETAPredictor.respond "baseline" trip p)
  = (ETAPredictor.max1 (p - (196 # 100) * (p * (15 # 100))),
     p + (196 # 100) * (p * (15 # 100)))%Q.
Proof. reflexivity. Qed.

(** C4 (as amended).  The advanced interval est -/+ 1.96*0.15*est
    strictly brackets every estimate est > 0.  The baseline interval
    [max(1, est - 1.96*0.15*est), est + 1.96*0.15*est] strictly brackets
    every estimate est > 1; for 0 < est <= 1 its lower bound is the
    clamp value 1, which is not below the estimate. *)
Theorem confidence_interval_brackets (trip : ETAPredictor.TripData) (est : Q) :
  let adv := ETAPredictor.confidence_interval (ETAPredictor.respond "advanced" trip est) in
  let base := ETAPredictor.confidence_interval (ETAPredictor.respond "baseline" trip est) in
  ETAPredictor.estimated_duration_minutes (ETAPredictor.respond "advanced" trip est) = est
  /\ ETAPredictor.estimated_duration_minutes (ETAPredictor.respond "baseline" trip est) = est
  /\ (0 < est -> adv.1 < est /\ est < adv.2)%Q
  /\ (1 < est -> base.1 < est /\ est < base.2)%Q
  /\ (0 < est -> est <= 1 -> base.1 = 1 /\ est <= base.1 /\ est < base.2)%Q.
Proof.
  cbv zeta. rewrite advanced_interval, baseline_interval. simpl fst. simpl snd.
  split; [reflexivity|]. split; [reflexivity|]. repeat split.
  - lra.
  - lra.
  - destruct (max1_spec (est - (196 # 100) * (est * (15 # 100)))) as [[_ ->]|[_ ->]]; lra.
  - lra.
  - destruct (max1_spec (est - (196 # 100) * (est * (15 # 100)))) as [[_ E]|[G _]];
      [exact E | lra].
  - destruct (max1_spec (est - (196 # 100) * (est * (15 # 100)))) as [[_ ->]|[G _]]; lra.
  - lra.
Qed.

Lemma confidence_interval_brackets_witness :
  let trip := ETAPredictor.mkTrip 1 false (Some false) in
  ((ETAPredictor.confidence_interval (ETAPredictor.respond "advanced" trip 20)).1 < 20)%Q
  /\ ((ETAPredictor.confidence_interval (ETAPredictor.respond "baseline" trip 20)).1 < 20)%Q
  /\ (ETAPredictor.confidence_interval (ETAPredictor.respond "baseline" trip (1 # 2))).1 = 1%Q.
Proof.
  cbv zeta.
  pose proof (confidence_interval_brackets (ETAPredictor.mkTrip 1 false (Some false)) 20)
    as (_ & _ & A & B & _).
  pose proof (confidence_interval_brackets (ETAPredictor.mkTrip 1 false (Some false)) (1 # 2))
    as (_ & _ & _ & _ & C).
  split; [apply A; reflexivity|].
  split; [apply B; reflexivity|].
  apply C; [reflexivity | discriminate].
Defined.

(** C4, counterexample.  A baseline estimate of half a minute is positive,
    yet its interval is [1, 0.647]: the lower bound is above the
    estimate. *)
Lemma baseline_interval_above_estimate :
  let r := ETAPredictor.respond "baseline" (ETAPredictor.mkTrip 1 false (Some false)) (1 # 2) in
  (0 < ETAPredictor.estimated_duration_minutes r)%Q
  /\ ~ ((ETAPredictor.confidence_interval r).1 < ETAPredictor.estimated_duration_minutes r)%Q.
Proof.
  cbv zeta. split; [reflexivity|]. vm_compute. intros H. discriminate H.
Qed.

(** ** Factor decomposition *)










Lemma fl_comp (prec : Z) (x y : Q) : (x == y)%Q -> fl prec x = fl prec y.
Proof. intros E. unfold fl. now rewrite (Qred_complete _ _ E). Qed.

#[global] Instance fl_proper : Proper (eq ==> Qeq ==> Qeq) fl.
Proof. intros p q -> x y E. now rewrite (fl_comp q x y E). Qed.






















(** The model of the binary64 operations agrees with the kernel's
    binary64 arithmetic: on the product with 0.2, on the residual, on the
    scaling by 10 and on the division by 10, for the predictions k / 8
    with -200 <= k < 600 over distance 7. *)
Lemma binary64_model_agrees :
  forallb (fun n =>
             let k := Z.of_nat n - 200 in
             agrees (prim_traffic k) (fval (model_traffic k))
             && agrees (prim_zone k 7) (fval (model_zone k 7))
             && agrees (PrimFloat.mul (prim_zone k 7) 10)
                       (fl 53 (fval (model_zone k 7) * 10))
             && agrees (PrimFloat.div (prim_of_Z k) 10) (fl 53 (inject_Z k / 10)))
          (seq 0 800) = true.
Proof. vm_compute. reflexivity. Qed.

(** ** Chronological split *)

(** The model of the binary64 product agrees with the kernel's
    binary64 arithmetic on the literals 0.7 (0x1.6666666666666p-1) and
    0.15 (0x1.3333333333333p-3) and on every frame length below 3000. *)
Lemma float_literals :
  Prim2SF 0x1.6666666666666p-1 = S754_finite false 6305039478318694 (-53)
  /\ Prim2SF 0x1.3333333333333p-3 = S754_finite false 5404319552844595 (-55).
Proof. split; vm_compute; reflexivity. Qed.

Lemma float_model_agrees :
  forallb (fun n => bool_decide
                      (prim_int_mul (Z.of_nat n) 0x1.6666666666666p-1
                       = Some (py_int (float_mul (float_of_int (Z.of_nat n)) float_0_7)))
                    && bool_decide
                         (prim_int_mul (Z.of_nat n) 0x1.3333333333333p-3
                          = Some (py_int (float_mul (float_of_int (Z.of_nat n)) float_0_15))))
          (seq 0 3000) = true.
Proof. vm_compute. reflexivity. Qed.

Lemma round53_nonneg (m e : Z) : 0 <= m -> 0 <= (round53 m e).1.
Proof.
  intros Hm. unfold round53.
  destruct (Z.log2 m + 1 <=? 53); simpl; [exact Hm|].
  assert (0 <= Z.shiftr m (Z.log2 m + 1 - 53)) by (apply Z.shiftr_nonneg; exact Hm).
  repeat match goal with |- context [if ?b then _ else _] => destruct b end; simpl; lia.
Qed.

Lemma py_int_nonneg (n : Z) (r : binary64) :
  0 <= n -> nonneg_ratio r = true -> 0 <= py_int (float_mul (float_of_int n) r).
Proof.
  intros Hn Hr. unfold nonneg_ratio in Hr. apply andb_true_iff in Hr as [Hs Hm].
  apply negb_true_iff in Hs. apply Z.leb_le in Hm.
  unfold py_int, float_mul, float_of_int. simpl.
  replace (n <? 0) with false by (symmetry; apply Z.ltb_ge; exact Hn).
  rewrite Hs. simpl.
  set (me := round53 _ _).
  assert (0 <= me.1).
  { apply round53_nonneg. apply Z.mul_nonneg_nonneg; [|exact Hm].
    apply round53_nonneg. lia. }
  destruct (Z.leb_spec 0 me.2).
  - apply Z.mul_nonneg_nonneg; [assumption|]. apply Z.pow_nonneg. lia.
  - apply Z.div_pos; [assumption|]. apply Z.pow_pos_nonneg; lia.
Qed.

Lemma round53_upper (M E : Z) :
  0 <= M ->
  exists s, 0 <= s /\ (round53 M E).2 = E + s
            /\ (round53 M E).1 * 2 ^ s * 2 ^ 53 <= M * (2 ^ 53 + 1).
Proof.
  intros HM. unfold round53.
  destruct (Z.leb_spec (Z.log2 M + 1) 53) as [Hb|Hb]; simpl.
  - exists 0. rewrite Z.add_0_r. split; [lia|]. split; [reflexivity|]. lia.
  - set (s := Z.log2 M + 1 - 53). assert (Hs : 1 <= s) by lia.
    assert (HMpos : 0 < M).
    { destruct (Z.eq_dec M 0) as [->|]; [simpl in Hb; lia | lia]. }
    pose proof (Z.log2_spec M HMpos) as [Hlo _].
    assert (Hpow : 2 ^ (s - 1) * 2 ^ 53 <= M).
    { rewrite <- Z.pow_add_r by lia. replace (s - 1 + 53) with (Z.log2 M) by lia. exact Hlo. }
    rewrite Z.shiftr_div_pow2 by lia. rewrite Z.land_ones by lia.
    rewrite Z.shiftl_1_l.
    assert (H2s : 2 ^ s = 2 * 2 ^ (s - 1)).
    { replace s with (1 + (s - 1)) at 1 by lia. rewrite Z.pow_add_r by lia. reflexivity. }
    assert (Hp : 0 < 2 ^ (s - 1)) by (apply Z.pow_pos_nonneg; lia).
    pose proof (Z.div_mod M (2 ^ s) ltac:(lia)) as Hdm.
    pose proof (Z.mod_pos_bound M (2 ^ s) ltac:(lia)) as Hmod.
    set (q := M / 2 ^ s) in *. set (r := M mod 2 ^ s) in *.
    set (h := 2 ^ (s - 1)) in *.
    exists s. split; [lia|]. split; [reflexivity|].
    assert (G : forall q', q' * (2 * h) <= M + h -> q' * 2 ^ s * 2 ^ 53 <= M * (2 ^ 53 + 1)).
    { intros q' Hq. rewrite H2s. nia. }
    apply G.
    destruct (Z.ltb_spec r h); [nia|].
    destruct (Z.ltb_spec h r); [nia|].
    destruct (Z.even q); nia.
Qed.

Lemma py_int_mul_upper (n : Z) (r : binary64) :
  0 <= n -> nonneg_ratio r = true -> b_expo r <= 0 ->
  py_int (float_mul (float_of_int n) r) * 2 ^ (- b_expo r) * 2 ^ 106
  <= n * b_mant r * ((2 ^ 53 + 1) * (2 ^ 53 + 1)).
Proof.
  intros Hn Hr He. unfold nonneg_ratio in Hr. apply andb_true_iff in Hr as [Hs Hm].
  apply negb_true_iff in Hs. apply Z.leb_le in Hm.
  unfold py_int, float_mul, float_of_int. cbn [b_neg b_mant b_expo].
  replace (n <? 0) with false by (symmetry; apply Z.ltb_ge; exact Hn).
  rewrite Hs. cbn [xorb]. rewrite Z.abs_eq by exact Hn.
  destruct (round53_upper n 0 Hn) as (s0 & Hs0 & E0 & B0).
  pose proof (round53_nonneg n 0 Hn) as P0.
  set (m0 := (round53 n 0).1) in *. rewrite E0 in *. clear E0.
  assert (HM : 0 <= m0 * b_mant r) by (apply Z.mul_nonneg_nonneg; assumption).
  destruct (round53_upper (m0 * b_mant r) (0 + s0 + b_expo r) HM) as (s & Hs' & E1 & B1).
  pose proof (round53_nonneg (m0 * b_mant r) (0 + s0 + b_expo r) HM) as P1.
  set (m := (round53 (m0 * b_mant r) (0 + s0 + b_expo r)).1) in *.
  rewrite E1. clear E1.
  set (er := b_expo r) in *. set (mr := b_mant r) in *.
  assert (K : forall x, x * 2 ^ (- er) <= m * 2 ^ (s0 + s) ->
                        x * 2 ^ (- er) * 2 ^ 106 <= n * mr * ((2 ^ 53 + 1) * (2 ^ 53 + 1))).
  { intros x Hx.
    assert (A : m * 2 ^ (s0 + s) * 2 ^ 106 <= n * mr * ((2 ^ 53 + 1) * (2 ^ 53 + 1))).
    { rewrite Z.pow_add_r by lia.
      assert (P2 : 0 < 2 ^ s0) by (apply Z.pow_pos_nonneg; lia).
      assert (P3 : 0 < 2 ^ s) by (apply Z.pow_pos_nonneg; lia).
      change (2 ^ 106) with (2 ^ 53 * 2 ^ 53).
      transitivity (m0 * mr * (2 ^ 53 + 1) * 2 ^ s0 * 2 ^ 53); [nia|].
      transitivity (mr * (2 ^ 53 + 1) * (m0 * 2 ^ s0 * 2 ^ 53)); [lia|].
      transitivity (mr * (2 ^ 53 + 1) * (n * (2 ^ 53 + 1))); [|lia].
      apply Z.mul_le_mono_nonneg_l; [lia | exact B0]. }
    nia. }
  apply K.
  destruct (Z.leb_spec 0 (0 + s0 + er + s)) as [Hpos|Hneg].
  - rewrite <- Z.mul_assoc, <- Z.pow_add_r by lia.
    replace (0 + s0 + er + s + - er) with (s0 + s) by lia. lia.
  - replace (- er) with (- (0 + s0 + er + s) + (s0 + s)) by lia.
    rewrite Z.pow_add_r by lia. rewrite Z.mul_assoc.
    apply Z.mul_le_mono_nonneg_r; [apply Z.pow_nonneg; lia|].
    rewrite Z.mul_comm. apply Z.mul_div_le. apply Z.pow_pos_nonneg; lia.
Qed.

(** With the default ratios the two cut points fit into the frame. *)
Lemma default_sizes_fit (n : Z) :
  0 <= n ->
  py_int (float_mul (float_of_int n) float_0_7)
  + py_int (float_mul (float_of_int n) float_0_15) <= n.
Proof.
  intros Hn.
  pose proof (py_int_mul_upper n float_0_7 Hn eq_refl ltac:(simpl; lia)) as A.
  pose proof (py_int_mul_upper n float_0_15 Hn eq_refl ltac:(simpl; lia)) as B.
  cbn [b_expo b_mant float_0_7 float_0_15] in A, B.
  set (a := py_int (float_mul (float_of_int n) float_0_7)) in *.
  set (b := py_int (float_mul (float_of_int n) float_0_15)) in *.
  change (- -53) with 53 in A. change (- -55) with 55 in B.
  lia.
Qed.

Lemma key_le_total (a b : option Z) :
  DubaiDataGenerator.key_le a b = false -> DubaiDataGenerator.key_le b a = true.
Proof.
  destruct a, b; simpl; try congruence. intros H.
  apply Z.leb_gt in H. apply Z.leb_le. lia.
Qed.

Lemma key_le_trans (a b c : option Z) :
  DubaiDataGenerator.key_le a b = true -> DubaiDataGenerator.key_le b c = true ->
  DubaiDataGenerator.key_le a c = true.
Proof.
  destruct a, b, c; simpl; try congruence. intros H1 H2.
  apply Z.leb_le in H1, H2. apply Z.leb_le. lia.
Qed.

Lemma insert_row_perm (x : option Z * nat) (l : list (option Z * nat)) :
  Permutation (DubaiDataGenerator.insert_row x l) (x :: l).
Proof.
  induction l as [|y l IH]; simpl; [reflexivity|].
  destruct (DubaiDataGenerator.key_le x.1 y.1); [reflexivity|].
  rewrite IH. apply perm_swap.
Qed.

Lemma sort_rows_perm (l : list (option Z * nat)) :
  Permutation (fold_right DubaiDataGenerator.insert_row [] l) l.
Proof.
  induction l as [|x l IH]; simpl; [reflexivity|].
  rewrite insert_row_perm. now apply perm_skip.
Qed.

Lemma insert_row_sorted (x : option Z * nat) (l : list (option Z * nat)) :
  StronglySorted pair_le l -> StronglySorted pair_le (DubaiDataGenerator.insert_row x l).
Proof.
  induction 1 as [|y l Hs IH Hy]; simpl.
  - repeat constructor.
  - destruct (DubaiDataGenerator.key_le x.1 y.1) eqn:E.
    + constructor; [now constructor|].
      constructor; [exact E|].
      eapply List.Forall_impl; [|exact Hy]. intros z Hz. unfold pair_le in *.
      eapply key_le_trans; eassumption.
    + constructor; [exact IH|].
      apply (Permutation_Forall (Permutation_sym (insert_row_perm x l))).
      constructor; [|exact Hy]. now apply key_le_total.
Qed.

Lemma sort_rows_sorted (l : list (option Z * nat)) :
  StronglySorted pair_le (fold_right DubaiDataGenerator.insert_row [] l).
Proof.
  induction l as [|x l IH]; simpl; [constructor|]. now apply insert_row_sorted.
Qed.

Lemma StronglySorted_map_in {A B} (R : A -> A -> Prop) (R' : B -> B -> Prop)
      (g : A -> B) (l : list A) :
  (forall p q, In p l -> In q l -> R p q -> R' (g p) (g q)) ->
  StronglySorted R l -> StronglySorted R' (map g l).
Proof.
  intros Hg Hs. induction Hs as [|x l Hs IH Hx]; simpl; [constructor|].
  constructor.
  - apply IH. intros p q Hp Hq. apply Hg; now right.
  - apply List.Forall_forall. intros y Hy. apply in_map_iff in Hy as (q & <- & Hq).
    apply Hg; [now left | now right |].
    rewrite List.Forall_forall in Hx. now apply Hx.
Qed.

Lemma StronglySorted_app_cross {A} (R : A -> A -> Prop) (l1 l2 : list A) :
  StronglySorted R (l1 ++ l2) -> forall x y, In x l1 -> In y l2 -> R x y.
Proof.
  induction l1 as [|a l1 IH]; simpl; intros Hs x y Hx Hy; [contradiction|].
  apply StronglySorted_inv in Hs as [Hs Ha].
  destruct Hx as [<-|Hx].
  - rewrite List.Forall_forall in Ha. apply Ha. apply in_or_app. now right.
  - now apply IH.
Qed.

Lemma time_keys_ok (ts : list cell) :
  forallb is_time ts = true ->
  exists keys, mapM DubaiDataGenerator.time_key ts = inr keys
               /\ Forall2 (fun c k => DubaiDataGenerator.time_key c = inr k) ts keys.
Proof.
  induction ts as [|c ts IH]; simpl; intros H.
  - exists []. split; [reflexivity | constructor].
  - apply andb_true_iff in H as [Hc Hts]. destruct (IH Hts) as (keys & E & F).
    destruct c; try discriminate; simpl; rewrite E; simpl; eexists; split;
      try reflexivity; constructor; try reflexivity; exact F.
Qed.

Lemma assoc_map_values {V W} (g : V -> W) (name : string) (l : list (string * V)) :
  assoc name (map (fun nc => (nc.1, g nc.2)) l) = g <$> assoc name l.
Proof.
  induction l as [|[n v] l IH]; simpl; [reflexivity|].
  destruct (String.eqb n name); [reflexivity | exact IH].
Qed.

Lemma get_col_take_rows (order : list nat) (f : DataFrame) (name : string) :
  get_col (DubaiDataGenerator.take_rows order f) name
  = (fun c => map (fun i => nth i c CNaN) order) <$> get_col f name.
Proof. apply (assoc_map_values (fun c => map (fun i => nth i c CNaN) order)). Qed.

Lemma get_col_slice_rows (f : DataFrame) (start stop : Z) (name : string) :
  get_col (DubaiDataGenerator.slice_rows f start stop) name
  = (fun c => firstn (DubaiDataGenerator.slice_bound (nrows f) stop
                      - DubaiDataGenerator.slice_bound (nrows f) start)
                     (skipn (DubaiDataGenerator.slice_bound (nrows f) start) c))
      <$> get_col f name.
Proof.
  apply (assoc_map_values
           (fun c => firstn (DubaiDataGenerator.slice_bound (nrows f) stop
                             - DubaiDataGenerator.slice_bound (nrows f) start)
                            (skipn (DubaiDataGenerator.slice_bound (nrows f) start) c))).
Qed.

Lemma three_slices {A} (c : list A) (a b : nat) :
  (a <= b <= length c)%nat ->
  (firstn (a - 0) (skipn 0 c) ++ firstn (b - a) (skipn a c))
    ++ firstn (length c - b) (skipn b c) = c.
Proof.
  intros H. rewrite Nat.sub_0_r. simpl skipn.
  rewrite (firstn_all2 (skipn b c)) by (rewrite length_skipn; lia).
  rewrite <- (firstn_skipn a c) at 4.
  rewrite <- app_assoc. f_equal.
  rewrite <- (firstn_skipn (b - a) (skipn a c)) at 2. f_equal.
  rewrite skipn_skipn. f_equal. lia.
Qed.

Lemma vstack_slices (df : DataFrame) (a b : nat) :
  (a <= b <= nrows df)%nat ->
  Forall (fun nc => length nc.2 = nrows df) (columns df) ->
  vstack (vstack
            (mkFrame (a - 0) (map (fun nc => (nc.1, firstn (a - 0) (skipn 0 nc.2))) (columns df)))
            (mkFrame (b - a) (map (fun nc => (nc.1, firstn (b - a) (skipn a nc.2))) (columns df))))
         (mkFrame (nrows df - b)
                  (map (fun nc => (nc.1, firstn (nrows df - b) (skipn b nc.2))) (columns df)))
  = df.
Proof.
  intros Hab Hlen. destruct df as [n cols]. unfold vstack. simpl in *. f_equal; [lia|].
  induction cols as [|[name c] cols IH]; simpl; [reflexivity|].
  apply Forall_cons_1 in Hlen as [Hc Hrest]. simpl in Hc.
  f_equal; [|now apply IH].
  f_equal. subst n. now apply three_slices.
Qed.

Lemma zip_seq_in (keys : list (option Z)) (s : nat) (p : option Z * nat) :
  In p (zip keys (seq s (length keys))) ->
  exists i, (i < length keys)%nat /\ p = (nth i keys None, (s + i)%nat).
Proof.
  revert s. induction keys as [|k keys IH]; simpl; intros s H; [contradiction|].
  destruct H as [<-|H].
  - exists 0%nat. split; [lia|]. now rewrite Nat.add_0_r.
  - apply IH in H as (i & Hi & ->). exists (S i). split; [lia|].
    simpl. f_equal. lia.
Qed.

Lemma snd_zip_seq (keys : list (option Z)) (s : nat) :
  map snd (zip keys (seq s (length keys))) = seq s (length keys).
Proof.
  revert s. induction keys as [|k keys IH]; simpl; intros s; [reflexivity|].
  now rewrite IH.
Qed.

Lemma Forall2_nth_keys (ts : list cell) (keys : list (option Z)) (i : nat) :
  Forall2 (fun c k => DubaiDataGenerator.time_key c = inr k) ts keys ->
  (i < length keys)%nat ->
  DubaiDataGenerator.time_key (nth i ts CNaN) = inr (nth i keys None).
Proof.
  intros F. revert i. induction F as [|c k ts keys H F IH]; simpl; intros i Hi; [lia|].
  destruct i; [exact H|]. apply IH. lia.
Qed.

Lemma map_nth_seq {A} (l : list A) (d : A) :
  map (fun i => nth i l d) (seq 0 (length l)) = l.
Proof.
  apply (nth_ext _ _ d d); [now rewrite length_map, length_seq|].
  intros i Hi. rewrite length_map, length_seq in Hi.
  rewrite (nth_indep _ d (nth 0 l d)) by (now rewrite length_map, length_seq).
  rewrite (map_nth (fun i => nth i l d)), seq_nth by exact Hi. reflexivity.
Qed.

(** [sort_values] reorders the rows by a permutation that puts the
    timestamps in ascending order. *)
Lemma sort_values_spec (f : DataFrame) (ts : list cell) :
  get_col f "request_datetime" = Some ts ->
  forallb is_time ts = true ->
  exists order,
    Permutation order (seq 0 (length ts))
    /\ DubaiDataGenerator.sort_values f "request_datetime"
       = inr (DubaiDataGenerator.take_rows order f)
    /\ StronglySorted (fun x y => time_le x y = true)
                      (map (fun i => nth i ts CNaN) order).
Proof.
  intros Hc Ht. destruct (time_keys_ok ts Ht) as (keys & Hk & F).
  assert (Hlen : length ts = length keys)
    by (clear - F; induction F; simpl; congruence).
  exists (DubaiDataGenerator.argsort keys). split; [|split].
  - unfold DubaiDataGenerator.argsort. rewrite Hlen.
    rewrite <- (snd_zip_seq keys 0) at 2.
    apply Permutation_map, sort_rows_perm.
  - unfold DubaiDataGenerator.sort_values, column. rewrite Hc. simpl.
    rewrite Hk. reflexivity.
  - unfold DubaiDataGenerator.argsort. rewrite map_map.
    apply (StronglySorted_map_in pair_le); [|apply sort_rows_sorted].
    intros p q Hp Hq R.
    assert (G : forall r, In r (fold_right DubaiDataGenerator.insert_row []
                                           (zip keys (seq 0 (length keys)))) ->
                          DubaiDataGenerator.time_key (nth r.2 ts CNaN) = inr r.1).
    { intros r Hr.
      apply (Permutation_in _ (sort_rows_perm _)) in Hr.
      apply zip_seq_in in Hr as (i & Hi & ->). simpl.
      now apply Forall2_nth_keys. }
    unfold time_le. rewrite (G p Hp), (G q Hq). exact R.
Qed.

Lemma take_rows_lengths (order : list nat) (f : DataFrame) :
  Forall (fun nc => length nc.2 = nrows (DubaiDataGenerator.take_rows order f))
         (columns (DubaiDataGenerator.take_rows order f)).
Proof.
  unfold DubaiDataGenerator.take_rows. simpl.
  apply List.Forall_forall. intros nc Hin.
  apply in_map_iff in Hin as (x & <- & _). simpl. apply length_map.
Qed.

Lemma slice_bound_nonneg (n : nat) (i : Z) :
  0 <= i -> DubaiDataGenerator.slice_bound n i = Nat.min (Z.to_nat i) n.
Proof.
  intros H. unfold DubaiDataGenerator.slice_bound.
  now replace (i <? 0) with false by (symmetry; apply Z.ltb_ge; exact H).
Qed.

(** [split_data] with any non-negative ratios: the rows are sorted by
    request_datetime and cut at a = int(N * train_ratio) and a + b,
    b = int(N * val_ratio), both clipped to the frame as slices are. *)
Lemma split_data_spec (cfg : Config) (f : DataFrame) (ts : list cell) :
  nonneg_ratio (train_ratio cfg) = true ->
  nonneg_ratio (val_ratio cfg) = true ->
  get_col f "request_datetime" = Some ts ->
  forallb is_time ts = true ->
  let n := length ts in
  let a := py_int (float_mul (float_of_int (Z.of_nat n)) (train_ratio cfg)) in
  let b := py_int (float_mul (float_of_int (Z.of_nat n)) (val_ratio cfg)) in
  exists order train val test t1 t2 t3,
    DubaiDataGenerator.split_data cfg f = inr (train, val, test)
    /\ Permutation order (seq 0 n)
    /\ vstack (vstack train val) test = DubaiDataGenerator.take_rows order f
    /\ nrows train = Nat.min (Z.to_nat a) n
    /\ nrows val = (Nat.min (Z.to_nat (a + b)) n - Nat.min (Z.to_nat a) n)%nat
    /\ nrows test = (n - Nat.min (Z.to_nat (a + b)) n)%nat
    /\ get_col train "request_datetime" = Some t1
    /\ get_col val "request_datetime" = Some t2
    /\ get_col test "request_datetime" = Some t3
    /\ (forall x y, In x t1 -> In y t2 -> time_le x y = true)
    /\ (forall y z, In y t2 -> In z t3 -> time_le y z = true)
    /\ (forall x z, In x t1 -> In z t3 -> time_le x z = true)
    /\ get_col (DubaiDataGenerator.take_rows order f) "request_datetime"
       = Some ((t1 ++ t2) ++ t3)
    /\ StronglySorted (fun x y => time_le x y = true) ((t1 ++ t2) ++ t3)
    /\ Permutation ((t1 ++ t2) ++ t3) ts.
Proof.
  intros Hr1 Hr2 Hc Ht n a b.
  destruct (sort_values_spec f ts Hc Ht) as (order & Hp & Hs & Hsorted).
  pose proof (Permutation_length Hp) as Hlen. rewrite length_seq in Hlen.
  assert (Ha : 0 <= a) by (apply py_int_nonneg; [lia | exact Hr1]).
  assert (Hb : 0 <= b) by (apply py_int_nonneg; [lia | exact Hr2]).
  set (df := DubaiDataGenerator.take_rows order f).
  assert (Hn : nrows df = n) by exact Hlen.
  set (A := Nat.min (Z.to_nat a) n).
  set (B := Nat.min (Z.to_nat (a + b)) n).
  assert (HAB : (A <= B <= n)%nat) by (unfold A, B; lia).
  set (sc := map (fun i => nth i ts CNaN) order) in *.
  assert (Hsc : get_col df "request_datetime" = Some sc).
  { unfold df. rewrite get_col_take_rows, Hc. reflexivity. }
  assert (Hscl : length sc = n) by (unfold sc; now rewrite length_map).
  exists order, (DubaiDataGenerator.slice_rows df 0 a),
    (DubaiDataGenerator.slice_rows df a (a + b)),
    (DubaiDataGenerator.slice_rows df (a + b) (Z.of_nat (nrows df))),
    (firstn (A - 0) (skipn 0 sc)), (firstn (B - A) (skipn A sc)),
    (firstn (n - B) (skipn B sc)).
  assert (E0 : DubaiDataGenerator.slice_bound (nrows df) 0 = 0%nat) by reflexivity.
  assert (EA : DubaiDataGenerator.slice_bound (nrows df) a = A).
  { rewrite slice_bound_nonneg by exact Ha. now rewrite Hn. }
  assert (EB : DubaiDataGenerator.slice_bound (nrows df) (a + b) = B).
  { rewrite slice_bound_nonneg by lia. now rewrite Hn. }
  assert (EN : DubaiDataGenerator.slice_bound (nrows df) (Z.of_nat (nrows df)) = n).
  { rewrite slice_bound_nonneg by lia. rewrite Hn. lia. }
  assert (Hcat : (firstn (A - 0) (skipn 0 sc) ++ firstn (B - A) (skipn A sc))
                   ++ firstn (n - B) (skipn B sc) = sc).
  { rewrite <- Hscl at 1. apply three_slices. now rewrite Hscl. }
  split.
  { unfold DubaiDataGenerator.split_data. rewrite Hs. simpl. fold df.
    rewrite Hlen. reflexivity. }
  split; [exact Hp|]. split.
  { unfold DubaiDataGenerator.slice_rows. rewrite E0, EA, EB, EN.
    fold df. pose proof (vstack_slices df A B) as V.
    pose proof (take_rows_lengths order f) as L. fold df in L.
    rewrite Hn in V, L. apply V; [exact HAB | exact L]. }
  split.
  { change (nrows (DubaiDataGenerator.slice_rows df 0 a))
      with (DubaiDataGenerator.slice_bound (nrows df) a
            - DubaiDataGenerator.slice_bound (nrows df) 0)%nat.
    rewrite EA, E0. lia. }
  split.
  { change (nrows (DubaiDataGenerator.slice_rows df a (a + b)))
      with (DubaiDataGenerator.slice_bound (nrows df) (a + b)
            - DubaiDataGenerator.slice_bound (nrows df) a)%nat.
    now rewrite EA, EB. }
  split.
  { change (nrows (DubaiDataGenerator.slice_rows df (a + b) (Z.of_nat (nrows df))))
      with (DubaiDataGenerator.slice_bound (nrows df) (Z.of_nat (nrows df))
            - DubaiDataGenerator.slice_bound (nrows df) (a + b))%nat.
    now rewrite EB, EN. }
  split. { rewrite get_col_slice_rows, Hsc, E0, EA. reflexivity. }
  split. { rewrite get_col_slice_rows, Hsc, EA, EB. reflexivity. }
  split. { rewrite get_col_slice_rows, Hsc, EB, EN. reflexivity. }
  assert (Hperm : Permutation sc ts).
  { unfold sc. rewrite (Permutation_map (fun i => nth i ts CNaN) Hp).
    rewrite <- (map_nth_seq ts CNaN) at 2. reflexivity. }
  rewrite <- Hcat in Hsorted, Hperm, Hsc.
  pose proof Hsorted as Hsorted'. rewrite <- app_assoc in Hsorted'.
  split; [|split; [|split; [|split; [exact Hsc | split; [exact Hsorted | exact Hperm]]]]].
  - intros x y Hx Hy.
    apply (StronglySorted_app_cross _ _ _ Hsorted'); [exact Hx|].
    apply in_or_app; now left.
  - intros y z Hy Hz.
    apply (StronglySorted_app_cross _ _ _ Hsorted); [|exact Hz].
    apply in_or_app; now right.
  - intros x z Hx Hz.
    apply (StronglySorted_app_cross _ _ _ Hsorted); [|exact Hz].
    apply in_or_app; now left.
Qed.

(** C6 (as amended).  With the ratios 0.7 and 0.15 [split_data] sorts
    the N rows by request_datetime and cuts them into parts of
    a = int(N * 0.7), b = int(N * 0.15) and N - a - b rows, the products
    being binary64 products truncated to integers (a + b never exceeds
    N).  The parts stacked in this order are the sorted frame: a row
    permutation of the input whose request_datetime column, the
    timestamps of the three parts one after the other, is in ascending
    order and is a permutation of the input's timestamps.  Every
    training timestamp is <= every validation timestamp, which is <=
    every test timestamp. *)
Theorem split_data_chronological (cfg : Config) (f : DataFrame) (ts : list cell) :
  train_ratio cfg = float_0_7 ->
  val_ratio cfg = float_0_15 ->
  get_col f "request_datetime" = Some ts ->
  forallb is_time ts = true ->
  let n := length ts in
  let a := Z.to_nat (py_int (float_mul (float_of_int (Z.of_nat n)) float_0_7)) in
  let b := Z.to_nat (py_int (float_mul (float_of_int (Z.of_nat n)) float_0_15)) in
  exists order train val test t1 t2 t3,
    DubaiDataGenerator.split_data cfg f = inr (train, val, test)
    /\ Permutation order (seq 0 n)
    /\ vstack (vstack train val) test = DubaiDataGenerator.take_rows order f
    /\ nrows train = a /\ nrows val = b /\ nrows test = (n - a - b)%nat
    /\ (a + b <= n)%nat
    /\ get_col train "request_datetime" = Some t1
    /\ get_col val "request_datetime" = Some t2
    /\ get_col test "request_datetime" = Some t3
    /\ (forall x y, In x t1 -> In y t2 -> time_le x y = true)
    /\ (forall y z, In y t2 -> In z t3 -> time_le y z = true)
    /\ (forall x z, In x t1 -> In z t3 -> time_le x z = true)
    /\ get_col (vstack (vstack train val) test) "request_datetime"
       = Some ((t1 ++ t2) ++ t3)
    /\ StronglySorted (fun x y => time_le x y = true) ((t1 ++ t2) ++ t3)
    /\ Permutation ((t1 ++ t2) ++ t3) ts.
Proof.
  intros R1 R2 Hc Ht n a b.
  destruct (split_data_spec cfg f ts) as
      (order & train & val & test & t1 & t2 & t3 & E & P & V & N1 & N2 & N3 & G).
  { now rewrite R1. } { now rewrite R2. } { exact Hc. } { exact Ht. }
  rewrite R1 in N1. rewrite R1, R2 in N2, N3. fold n in N1, N2, N3.
  pose proof (default_sizes_fit (Z.of_nat n) ltac:(lia)) as Fit.
  pose proof (py_int_nonneg (Z.of_nat n) float_0_7 ltac:(lia) eq_refl) as A0.
  pose proof (py_int_nonneg (Z.of_nat n) float_0_15 ltac:(lia) eq_refl) as B0.
  exists order, train, val, test, t1, t2, t3.
  split; [exact E|]. split; [exact P|]. split; [exact V|].
  split; [unfold a; lia|]. split; [unfold a, b; lia|]. split; [unfold a, b; lia|].
  split; [unfold a, b; lia |]. rewrite V. exact G.
Qed.

Lemma split_data_chronological_witness :
  exists train val test,
    DubaiDataGenerator.split_data sample_config sample_trips = inr (train, val, test)
    /\ nrows train = 7%nat /\ nrows val = 1%nat /\ nrows test = 2%nat
    /\ get_col train "request_datetime" = Some (map CTime [1; 2; 3; 3; 4; 5; 6])
    /\ get_col val "request_datetime" = Some (map CTime [7])
    /\ get_col test "request_datetime" = Some (map CTime [8; 9]).
Proof.
  destruct (split_data_chronological
              sample_config sample_trips
              (map CTime [5; 3; 9; 1; 7; 3; 8; 2; 6; 4])
              eq_refl eq_refl eq_refl eq_refl)
    as (order & train & val & test & t1 & t2 & t3 & E & _ & _ & N1 & N2 & N3 & _).
  exists train, val, test.
  split; [exact E|]. split; [exact N1|]. split; [exact N2|]. split; [exact N3|].
  vm_compute in E. injection E as <- <- <-.
  split; [reflexivity|]. split; reflexivity.
Defined.

(** C6, counterexample.  Ten rows are cut into 7, 1 and 2 rows: the
    validation part does not have 0.15 * 10 = 1.5 rows, and the test part
    does not have 10 - 8.5 = 1.5 rows. *)
Lemma split_sizes_are_truncated :
  exists train val test,
    DubaiDataGenerator.split_data sample_config sample_trips = inr (train, val, test)
    /\ nrows train = 7%nat /\ nrows val = 1%nat /\ nrows test = 2%nat
    /\ ~ (inject_Z (Z.of_nat (nrows val)) == (15 # 100) * 10)%Q.
Proof.
  eexists _, _, _. split; [vm_compute; reflexivity|].
  repeat split. intros H. vm_compute in H. discriminate H.
Qed.

(** The cut points for some frame lengths.  For 1000 rows they are the
    exact 700 and 150; for 1300 rows the binary64 product 1300 * 0.7 is
    909.9999999999999, so 909 rows are used for training, not 910. *)
Lemma split_sizes_examples :
  py_int (float_mul (float_of_int 1000) float_0_7) = 700
  /\ py_int (float_mul (float_of_int 1000) float_0_15) = 150
  /\ py_int (float_mul (float_of_int 1300) float_0_7) = 909
  /\ prim_int_mul 1300 0x1.6666666666666p-1 = Some 909.
Proof. repeat split; vm_compute; reflexivity. Qed.

(** ** The heap during [transform] *)

Lemma fresh_not_allocated (h : gmap loc DataFrame) : h !! fresh (dom h) = None.
Proof. apply not_elem_of_dom, is_fresh. Qed.

Lemma extend_fresh (h0 h : gmap loc DataFrame) (g : DataFrame) :
  h0 ⊆ h -> h0 ⊆ <[fresh (dom h) := g]> h /\ h0 !! fresh (dom h) = None.
Proof.
  intros Hs.
  assert (N : h0 !! fresh (dom h) = None).
  { destruct (h0 !! fresh (dom h)) as [x|] eqn:E; [|reflexivity].
    eapply lookup_weaken in E; [|exact Hs]. rewrite fresh_not_allocated in E.
    discriminate. }
  split; [|exact N]. now apply insert_subseteq_r.
Qed.

Lemma extend_overwrite (h0 h : gmap loc DataFrame) (l : loc) (g : DataFrame) :
  h0 ⊆ h -> h0 !! l = None -> h0 ⊆ <[l := g]> h.
Proof. intros Hs N. now apply insert_subseteq_r. Qed.

Lemma bind_ok {S A B} (m : SE S A) (k : A -> SE S B) (s s1 : S) (a : A) :
  m s = (s1, inr a) -> bind m k s = k a s1.
Proof. intros H. unfold bind. now rewrite H. Qed.

Lemma bind_err {S A B} (m : SE S A) (k : A -> SE S B) (s s1 : S) (x : exn) :
  m s = (s1, inl x) -> bind m k s = (s1, inl x).
Proof. intros H. unfold bind. now rewrite H. Qed.

Lemma copy_run (w : World) (l : loc) (f : DataFrame) :
  heap w !! l = Some f ->
  copy l w = (mkWorld (self w) (<[fresh (dom (heap w)) := f]> (heap w)),
              inr (fresh (dom (heap w)))).
Proof. intros H. unfold copy, bind, deref, new_object. now rewrite H. Qed.

Lemma deref_run (w : World) (l : loc) (f : DataFrame) :
  heap w !! l = Some f -> deref l w = (w, inr f).
Proof. intros H. unfold deref. now rewrite H. Qed.

Lemma on_frame_run {A} (w : World) (l : loc) (f : DataFrame) (m : FrameM A) :
  heap w !! l = Some f ->
  on_frame l m w = (mkWorld (self w) (<[l := (m f).1]> (heap w)), (m f).2).
Proof. intros H. unfold on_frame. now rewrite H. Qed.

(** [transform] on a fitted engineer: it allocates fresh objects only,
    and returns (in a fresh object) or raises what [transform_outcome]
    says. *)
Lemma transform_run (w : World) (df : loc) (f : DataFrame) :
  fitted (self w) = true ->
  heap w !! df = Some f ->
  exists h',
    heap w ⊆ h'
    /\ match transform_outcome (self w) f with
       | inl x => transform df w = (mkWorld (self w) h', inl x)
       | inr out => exists l, transform df w = (mkWorld (self w) h', inr l)
                              /\ h' !! l = Some out /\ heap w !! l = None
       end.
Proof.
  intros Hfit Hdf. destruct w as [e h]. simpl in *.
  unfold transform, transform_outcome.
  rewrite (bind_ok get_self _ _ (mkWorld e h) e) by reflexivity.
  rewrite Hfit. cbn [negb].
  rewrite (bind_ok _ _ _ _ _ (copy_run (mkWorld e h) df f Hdf)). cbn [self heap].
  set (l1 := fresh (dom h)).
  destruct (extend_fresh h h f (reflexivity _)) as [S0 N0]. fold l1 in S0, N0.
  pose proof (on_frame_run (mkWorld e (<[l1 := f]> h)) l1 f (engineer_columns e)
                           (lookup_insert_eq _ _ _)) as R1.
  cbn [self heap] in R1. rewrite insert_insert_eq in R1.
  destruct (engineer_columns e f) as [f1 [x|[]]] eqn:E1; cbn [fst snd rbind] in *.
  { rewrite (bind_err _ _ _ _ _ R1). eexists. split; [|reflexivity].
    now apply extend_overwrite. }
  rewrite (bind_ok _ _ _ _ _ R1).
  set (h1 := <[l1 := f1]> h).
  assert (S1 : h ⊆ h1) by now apply extend_overwrite.
  rewrite (bind_ok _ _ _ _ _ (deref_run (mkWorld e h1) l1 f1 (lookup_insert_eq _ _ _))).
  destruct (get_dummies f1 categorical_cols) as [x|d] eqn:E2; cbn [rbind].
  { rewrite (bind_err (lift (inl x)) _ (mkWorld e h1) (mkWorld e h1) x) by reflexivity.
    eexists. split; [exact S1 | reflexivity]. }
  rewrite (bind_ok (lift (inr d)) _ (mkWorld e h1) (mkWorld e h1) d) by reflexivity.
  set (l2 := fresh (dom h1)).
  destruct (extend_fresh h h1 d S1) as [S2 N2]. fold l2 in S2, N2.
  rewrite (bind_ok (new_object d) _ (mkWorld e h1) (mkWorld e (<[l2 := d]> h1)) l2)
    by reflexivity.
  destruct (training_columns e) as [cols|].
  2:{ eexists. split; [exact S2|]. exists l2. split; [reflexivity|].
      split; [apply lookup_insert_eq | exact N2]. }
  pose proof (on_frame_run (mkWorld e (<[l2 := d]> h1)) l2 d (add_missing cols)
                           (lookup_insert_eq _ _ _)) as R3.
  cbn [self heap] in R3. rewrite insert_insert_eq in R3.
  destruct (add_missing cols d) as [f2 [x|[]]] eqn:E3; cbn [fst snd rbind] in *.
  { rewrite (bind_err _ _ _ _ _ R3). eexists. split; [|reflexivity].
    now apply extend_overwrite. }
  rewrite (bind_ok _ _ _ _ _ R3).
  set (h2 := <[l2 := f2]> h1).
  assert (S3 : h ⊆ h2) by now apply extend_overwrite.
  rewrite (bind_ok _ _ _ _ _ (deref_run (mkWorld e h2) l2 f2 (lookup_insert_eq _ _ _))).
  destruct (select f2 cols) as [x|s] eqn:E4.
  { rewrite (bind_err (lift (inl x)) _ (mkWorld e h2) (mkWorld e h2) x) by reflexivity.
    eexists. split; [exact S3 | reflexivity]. }
  rewrite (bind_ok (lift (inr s)) _ (mkWorld e h2) (mkWorld e h2) s) by reflexivity.
  destruct (extend_fresh h h2 s S3) as [S4 N4].
  eexists. split; [exact S4|]. eexists. split; [reflexivity|].
  split; [apply lookup_insert_eq | exact N4].
Qed.

Lemma transform_unfitted_run (w : World) (df : loc) :
  fitted (self w) = false ->
  transform df w
  = (w, inl (ValueError "FeatureEngineer must be fitted before transform")).
Proof.
  intros H. unfold transform, bind, get_self. simpl. rewrite H. reflexivity.
Qed.

(** Whatever the engineer and the input: the engineer is not changed and
    every frame alive before the call is alive and the same after it. *)
Lemma transform_frame_effect (w : World) (df : loc) :
  self (transform df w).1 = self w /\ heap w ⊆ heap (transform df w).1.
Proof.
  destruct (fitted (self w)) eqn:Hfit.
  2:{ rewrite (transform_unfitted_run w df Hfit). split; reflexivity. }
  destruct (heap w !! df) as [f|] eqn:Hdf.
  2:{ unfold transform.
      rewrite (bind_ok get_self _ _ w (self w)) by reflexivity.
      rewrite Hfit. cbn [negb].
      assert (C : copy df w = (w, inl (Exception "ReferenceError" "no such object"))).
      { unfold copy, bind, deref. now rewrite Hdf. }
      rewrite (bind_err _ _ _ _ _ C). split; reflexivity. }
  destruct (transform_run w df f Hfit Hdf) as (h' & Hs & Hr).
  destruct (transform_outcome (self w) f) as [x|out].
  - rewrite Hr. simpl. split; [reflexivity | exact Hs].
  - destruct Hr as (l' & -> & _). simpl. split; [reflexivity | exact Hs].
Qed.

(** C7 (as amended).  [transform] on an engineer whose [fit] has not
    completed raises the built-in ValueError with the message
    "FeatureEngineer must be fitted before transform", whatever the
    input; the call returns nothing and leaves the engineer and every
    frame as they were. *)
Theorem transform_before_fit (w : World) (df : loc) :
  fitted (self w) = false ->
  transform df w
  = (w, inl (Exception "ValueError" "FeatureEngineer must be fitted before transform")).
Proof. apply transform_unfitted_run. Qed.

Lemma transform_before_fit_witness :
  transform 1%positive (mkWorld init_engineer {[ 1%positive := sample_trips ]})
  = (mkWorld init_engineer {[ 1%positive := sample_trips ]},
     inl (Exception "ValueError" "FeatureEngineer must be fitted before transform")).
Proof.
  apply (transform_before_fit (mkWorld init_engineer {[ 1%positive := sample_trips ]})).
  reflexivity.
Defined.

(** C7, counterexample.  The exception raised by a fresh engineer is of
    class ValueError; no NotFittedError is raised. *)
Lemma unfitted_error_is_not_NotFittedError :
  exists e,
    (transform 1%positive (mkWorld init_engineer {[ 1%positive := sample_trips ]})).2
    = inl e
    /\ exn_class e = "ValueError"
    /\ exn_class e <> "NotFittedError".
Proof.
  eexists. split; [reflexivity|]. split; [reflexivity | discriminate].
Qed.

(** C10.  [transform] changes no frame that exists when it is called, in
    particular not its input, whether it returns or raises, and it does
    not change the engineer: its work is done on objects it allocates. *)
Theorem transform_leaves_input_unchanged (w : World) (df : loc) :
  self (transform df w).1 = self w
  /\ forall (l : loc) (f : DataFrame),
       heap w !! l = Some f -> heap (transform df w).1 !! l = Some f.
Proof.
  destruct (transform_frame_effect w df) as [Hself Hsub].
  split; [exact Hself|]. intros l f Hl. eapply lookup_weaken; eassumption.
Qed.

Lemma transform_leaves_input_unchanged_witness :
  heap (transform 2%positive sample_fitted_world).1 !! 2%positive = Some sample_batch.
Proof.
  apply (transform_leaves_input_unchanged sample_fitted_world 2%positive).
  vm_compute. reflexivity.
Defined.

(** ** Column assignment *)

Lemma has_col_get_col (f : DataFrame) (name : string) :
  has_col f name = match get_col f name with Some _ => true | None => false end.
Proof.
  unfold has_col, get_col, col_names.
  induction (columns f) as [|[n c] l IH]; simpl; [reflexivity|].
  rewrite String.eqb_sym. destruct (String.eqb n name); [reflexivity | exact IH].
Qed.

Lemma assoc_replace_col_ne (n m : string) (v : list cell) (l : list (string * list cell)) :
  String.eqb n m = false -> assoc m (replace_col n v l) = assoc m l.
Proof.
  intros H. induction l as [|[n0 c] l IH]; simpl; [reflexivity|].
  destruct (String.eqb n0 n) eqn:E; simpl.
  - apply String.eqb_eq in E. subst n0. rewrite H. exact IH.
  - destruct (String.eqb n0 m); [reflexivity | exact IH].
Qed.

Lemma assoc_replace_col_eq (n : string) (v : list cell) (l : list (string * list cell)) :
  assoc n l <> None -> assoc n (replace_col n v l) = Some v.
Proof.
  induction l as [|[n0 c] l IH]; simpl; [congruence|].
  destruct (String.eqb n0 n) eqn:E; simpl; rewrite E; [reflexivity | exact IH].
Qed.

Lemma assoc_app {V} (m : string) (l1 l2 : list (string * V)) :
  assoc m (l1 ++ l2) = match assoc m l1 with Some x => Some x | None => assoc m l2 end.
Proof.
  induction l1 as [|[n c] l1 IH]; simpl; [reflexivity|].
  destruct (String.eqb n m); [reflexivity | exact IH].
Qed.

Lemma get_col_set_col (f : DataFrame) (n m : string) (v : list cell) :
  get_col (set_col f n v) m = if String.eqb n m then Some v else get_col f m.
Proof.
  unfold set_col. rewrite has_col_get_col. unfold get_col.
  destruct (assoc n (columns f)) as [c|] eqn:E; simpl.
  - destruct (String.eqb n m) eqn:Enm.
    + apply String.eqb_eq in Enm. subst m. apply assoc_replace_col_eq. congruence.
    + now apply assoc_replace_col_ne.
  - rewrite assoc_app. simpl.
    destruct (String.eqb n m) eqn:Enm.
    + apply String.eqb_eq in Enm. subst m. now rewrite E.
    + now destruct (assoc m (columns f)).
Qed.

Lemma get_col_set_col_ne (f : DataFrame) (n m : string) (v : list cell) :
  String.eqb n m = false -> get_col (set_col f n v) m = get_col f m.
Proof. intros H. now rewrite get_col_set_col, H. Qed.

Lemma get_col_set_col_eq (f : DataFrame) (n : string) (v : list cell) :
  get_col (set_col f n v) n = Some v.
Proof. now rewrite get_col_set_col, String.eqb_refl. Qed.

Lemma nrows_set_col (f : DataFrame) (n : string) (v : list cell) :
  nrows (set_col f n v) = nrows f.
Proof. unfold set_col. now destruct (has_col f n). Qed.

Lemma has_col_set_col_ne (f : DataFrame) (n m : string) (v : list cell) :
  String.eqb n m = false -> has_col (set_col f n v) m = has_col f m.
Proof. intros H. now rewrite !has_col_get_col, get_col_set_col_ne. Qed.

Lemma map_fst_replace_col (n : string) (v : list cell) (l : list (string * list cell)) :
  map fst (replace_col n v l) = map fst l.
Proof.
  induction l as [|[n0 c] l IH]; simpl; [reflexivity|].
  destruct (String.eqb n0 n); simpl; now rewrite IH.
Qed.

Lemma col_names_set_col (f : DataFrame) (n : string) (v : list cell) :
  col_names (set_col f n v)
  = if has_col f n then col_names f else col_names f ++ [n].
Proof.
  unfold set_col, col_names. destruct (has_col f n); simpl.
  - apply map_fst_replace_col.
  - now rewrite map_app.
Qed.

Lemma has_col_In (f : DataFrame) (n : string) :
  has_col f n = true <-> In n (col_names f).
Proof.
  unfold has_col. rewrite existsb_exists. split.
  - intros (x & Hx & E). apply String.eqb_eq in E. now subst.
  - intros H. exists n. split; [exact H | apply String.eqb_refl].
Qed.

Lemma nrows_set_cols (f : DataFrame) (vs : list (string * list cell)) :
  nrows (set_cols f vs) = nrows f.
Proof.
  unfold set_cols. revert f. induction vs as [|[n v] vs IH]; intros f; simpl;
    [reflexivity|]. now rewrite IH, nrows_set_col.
Qed.

Lemma get_col_set_cols_other (f : DataFrame) (vs : list (string * list cell)) (m : string) :
  ~ In m (map fst vs) -> get_col (set_cols f vs) m = get_col f m.
Proof.
  unfold set_cols. revert f. induction vs as [|[n v] vs IH]; intros f H; simpl in *;
    [reflexivity|].
  rewrite IH by tauto. apply get_col_set_col_ne.
  apply String.eqb_neq. intros ->. tauto.
Qed.

Lemma get_col_set_cols_entry (f : DataFrame) (vs : list (string * list cell))
      (m : string) (v : list cell) :
  NoDup (map fst vs) -> In (m, v) vs -> get_col (set_cols f vs) m = Some v.
Proof.
  unfold set_cols. revert f. induction vs as [|[n c] vs IH]; intros f Hnd Hin; simpl in *;
    [contradiction|].
  apply NoDup_cons in Hnd as [Hn Hnd].
  destruct Hin as [E|Hin].
  - inversion E; subst. fold (set_cols (set_col f m v) vs).
    rewrite get_col_set_cols_other.
    + apply get_col_set_col_eq.
    + intros H. apply Hn. now apply list_elem_of_In.
  - now apply IH.
Qed.

Lemma col_names_set_cols (f : DataFrame) (vs : list (string * list cell)) (m : string) :
  In m (col_names (set_cols f vs)) <-> In m (col_names f) \/ In m (map fst vs).
Proof.
  unfold set_cols. revert f. induction vs as [|[n c] vs IH]; intros f; simpl;
    [tauto|].
  rewrite IH, col_names_set_col. destruct (has_col f n) eqn:E.
  - apply has_col_In in E. split; [tauto|]. intros [H|[<-|H]]; tauto.
  - rewrite in_app_iff. simpl. tauto.
Qed.

Lemma NoDup_set_col (f : DataFrame) (n : string) (v : list cell) :
  NoDup (col_names f) -> NoDup (col_names (set_col f n v)).
Proof.
  intros H. rewrite col_names_set_col. destruct (has_col f n) eqn:E; [exact H|].
  apply NoDup_app. split; [exact H|]. split; [|apply NoDup_singleton].
  intros x Hx Hn. apply list_elem_of_singleton in Hn. subst x.
  apply list_elem_of_In, has_col_In in Hx. congruence.
Qed.

Lemma NoDup_set_cols (f : DataFrame) (vs : list (string * list cell)) :
  NoDup (col_names f) -> NoDup (col_names (set_cols f vs)).
Proof.
  unfold set_cols. revert f. induction vs as [|[n c] vs IH]; intros f H; simpl;
    [exact H|]. apply IH. now apply NoDup_set_col.
Qed.

(** ** Running the statements of [engineer_columns] *)

Lemma bind_assoc {S A B C} (m : SE S A) (k1 : A -> SE S B) (k2 : B -> SE S C) (s : S) :
  bind (bind m k1) k2 s = bind m (fun x => bind (k1 x) k2) s.
Proof. unfold bind. destruct (m s) as [s1 [x|a]]; reflexivity. Qed.

Lemma getitem_run (s : DataFrame) (n : string) (v : list cell) :
  get_col s n = Some v -> getitem n s = (s, inr v).
Proof. intros H. unfold getitem. now rewrite H. Qed.

Lemma apply_rows_run (s : DataFrame) (fn : row -> exn + cell) (v : list cell) :
  (0 < nrows s)%nat -> mapM fn (rows s) = inr v -> apply_rows fn s = (s, inr v).
Proof.
  intros Hn H. unfold apply_rows. destruct (nrows s) eqn:E; [lia|]. now rewrite H.
Qed.

Lemma mapM_Forall2 {A B} (g : A -> exn + B) (l : list A) (v : list B) :
  mapM g l = inr v <-> Forall2 (fun a b => g a = inr b) l v.
Proof.
  revert v. induction l as [|a l IH]; intros v; simpl.
  - split.
    + intros H. inversion H. constructor.
    + intros H. inversion H. reflexivity.
  - split.
    + destruct (g a) as [x|b] eqn:E; simpl; [discriminate|].
      destruct (mapM g l) as [x|bs] eqn:E2; simpl; [discriminate|].
      intros H. inversion H; subst. constructor; [exact E|]. now apply IH.
    + intros H. inversion H as [|? b ? bs Hb Hbs]; subst.
      rewrite Hb. simpl. apply IH in Hbs. rewrite Hbs. reflexivity.
Qed.

Lemma mapM_ok {A B} (P : A -> bool) (g : A -> exn + B) (l : list A) :
  (forall a, P a = true -> exists b, g a = inr b) ->
  forallb P l = true -> exists v, mapM g l = inr v.
Proof.
  intros Hg. induction l as [|a l IH]; simpl; intros H; [now eexists|].
  apply andb_true_iff in H as [Ha Hl].
  destruct (Hg a Ha) as (b & ->). destruct (IH Hl) as (v & ->). now eexists.
Qed.

Lemma mapM_map_total {A B C} (g : B -> exn + C) (h : A -> B) (k : A -> C) (l : list A) :
  (forall a, g (h a) = inr (k a)) -> mapM g (map h l) = inr (map k l).
Proof.
  intros H. induction l as [|a l IH]; simpl; [reflexivity|].
  now rewrite H, IH.
Qed.

Lemma zip_with_M_ok (P : cell -> bool) (g : cell -> cell -> exn + cell) (a b : list cell) :
  (forall x y, P x = true -> P y = true -> exists c, g x y = inr c) ->
  forallb P a = true -> forallb P b = true -> exists v, zip_with_M g a b = inr v.
Proof.
  intros Hg. revert b. induction a as [|x a IH]; intros b Ha Hb; simpl; [now eexists|].
  destruct b as [|y b]; [now eexists|]. simpl in *.
  apply andb_true_iff in Ha as [Hx Ha]. apply andb_true_iff in Hb as [Hy Hb].
  destruct (Hg x y Hx Hy) as (c & ->). destruct (IH b Ha Hb) as (v & ->). now eexists.
Qed.

Lemma numeric_to_number (c : cell) :
  numeric c = true -> exists x, to_number c = inr x.
Proof. destruct c; simpl; intros H; try discriminate; now eexists. Qed.

Lemma sin_turn_ok (p : Z) (c : cell) : numeric c = true -> exists r, sin_turn p c = inr r.
Proof.
  intros H. destruct (numeric_to_number c H) as (x & E).
  unfold sin_turn, turn_fraction. rewrite E. simpl. now eexists.
Qed.

Lemma cos_turn_ok (p : Z) (c : cell) : numeric c = true -> exists r, cos_turn p c = inr r.
Proof.
  intros H. destruct (numeric_to_number c H) as (x & E).
  unfold cos_turn, turn_fraction. rewrite E. simpl. now eexists.
Qed.

Lemma cell_mul_ok (a b : cell) :
  numeric a = true -> numeric b = true -> exists r, cell_mul a b = inr r.
Proof.
  intros Ha Hb. destruct (numeric_to_number a Ha) as (x & Ex).
  destruct (numeric_to_number b Hb) as (y & Ey).
  unfold cell_mul. rewrite Ex, Ey. simpl.
  destruct x, y; simpl; try (now eexists);
    destruct (number_Q _); try destruct (number_Q _); now eexists.
Qed.

Lemma between_int_ok (lo hi : Z) (c : cell) :
  numeric c = true -> exists r, between_int lo hi c = inr r.
Proof.
  intros H. destruct (numeric_to_number c H) as (x & E).
  unfold between_int. rewrite E. simpl. now eexists.
Qed.

Lemma window_ok (c : cell) :
  numeric c = true ->
  (exists r, is_morning c = inr r) /\ (exists r, is_afternoon c = inr r)
  /\ (exists r, is_evening c = inr r) /\ (exists r, is_night c = inr r).
Proof.
  intros H. unfold is_morning, is_afternoon, is_evening, is_night.
  destruct (between_int_ok 6 10 c H) as (r1 & ->).
  destruct (between_int_ok 12 16 c H) as (r2 & ->).
  destruct (between_int_ok 17 21 c H) as (r3 & ->).
  destruct (between_int_ok 22 23 c H) as (r4 & ->).
  destruct (between_int_ok 0 5 c H) as (r5 & ->).
  simpl. repeat split; now eexists.
Qed.

Lemma row_get_row_at (s : DataFrame) (i : nat) (name : string) :
  row_get (row_at s i) name
  = match get_col s name with
    | Some c => inr (nth i c CNaN)
    | None => inl (KeyError name)
    end.
Proof.
  unfold row_get, row_at, get_col.
  rewrite (assoc_map_values (fun c => nth i c CNaN)).
  now destruct (assoc name (columns s)).
Qed.

Lemma zone_pair_rows (s : DataFrame) (e : FeatureEngineer) (field : string)
      (dflt : exn + cell) (g : cell) (p d : list cell) :
  get_col s "pickup_zone" = Some p -> get_col s "dropoff_zone" = Some d ->
  dflt = inr g ->
  mapM (zone_pair_lookup e field dflt) (rows s)
  = inr (map (zone_pair_value e field g p d) (seq 0 (nrows s))).
Proof.
  intros Hp Hd ->. unfold rows. apply mapM_map_total. intros i.
  unfold zone_pair_lookup. rewrite !row_get_row_at, Hp, Hd. reflexivity.
Qed.

Lemma zone_combo_rows (s : DataFrame) (e : FeatureEngineer)
      (t : gmap pykey cell) (g : cell) (p d : list cell) :
  get_col s "zone_type_pickup" = Some p -> get_col s "zone_type_dropoff" = Some d ->
  stat zone_combo_mean "zone_combo_mean" e = inr t ->
  stat global_mean "global_mean" e = inr g ->
  mapM (zone_combo_lookup e) (rows s)
  = inr (map (fun i => default g (t !! key2 (nth i p CNaN) (nth i d CNaN)))
             (seq 0 (nrows s))).
Proof.
  intros Hp Hd Ht Hg. unfold rows. apply mapM_map_total. intros i.
  unfold zone_combo_lookup. rewrite Ht, Hg, !row_get_row_at, Hp, Hd. reflexivity.
Qed.

Lemma zip_same_type_ok (a b : list cell) : exists v, zip_with_M same_type a b = inr v.
Proof.
  revert b. induction a as [|x a IH]; intros b; simpl; [now eexists|].
  destruct b as [|y b]; [now eexists|]. destruct (IH b) as (v & ->). now eexists.
Qed.

Lemma col_all_spec (P : cell -> bool) (f : DataFrame) (name : string) :
  col_all P f name = true -> exists v, get_col f name = Some v /\ forallb P v = true.
Proof.
  unfold col_all. destruct (get_col f name) as [v|]; [|discriminate]. now exists v.
Qed.

Lemma has_col_spec (f : DataFrame) (name : string) :
  has_col f name = true -> exists v, get_col f name = Some v.
Proof.
  rewrite has_col_get_col. destruct (get_col f name) as [v|]; [|discriminate].
  now exists v.
Qed.

Lemma well_fitted_spec (e : FeatureEngineer) :
  well_fitted e = true ->
  fitted e = true
  /\ (exists t, stat hour_mean "hour_mean" e = inr t)
  /\ (exists t, stat dow_mean "dow_mean" e = inr t)
  /\ (exists t, stat zone_combo_mean "zone_combo_mean" e = inr t)
  /\ (exists g, stat global_mean "global_mean" e = inr g)
  /\ (exists g, stat global_std "global_std" e = inr g).
Proof.
  unfold well_fitted, stat. intros H.
  repeat (apply andb_true_iff in H as [H ?]).
  repeat match goal with
         | X : bool_decide _ = true |- _ => apply bool_decide_eq_true in X; destruct X as [? X]
         end.
  split; [exact H|]. repeat split; eexists;
    match goal with X : ?fld _ = Some _ |- context [?fld _] => rewrite X end; reflexivity.
Qed.

Ltac gc := rewrite ?get_col_set_col_ne by reflexivity; eassumption.

Ltac run_step :=
  lazymatch goal with
  | |- bind (getitem ?n) ?k ?s = _ =>
      let H := fresh in
      eassert (H : getitem n s = (s, inr _)) by (apply getitem_run; gc);
      rewrite (bind_ok _ _ _ _ _ H); clear H; cbv beta
  | |- bind (setitem ?n ?v) ?k ?s = _ =>
      rewrite (bind_ok (setitem n v) k s (set_col s n v) tt eq_refl); cbv beta
  | |- bind (series_map ?g ?h) ?k ?s = _ =>
      let H := fresh in
      eassert (H : series_map g h s = (s, inr _))
        by (unfold series_map, lift; f_equal; eassumption);
      rewrite (bind_ok _ _ _ _ _ H); clear H; cbv beta
  | |- bind (lift ?r) ?k ?s = _ =>
      let H := fresh in
      eassert (H : lift r s = (s, inr _)) by (unfold lift; f_equal; eassumption);
      rewrite (bind_ok _ _ _ _ _ H); clear H; cbv beta
  | |- bind (apply_rows (zone_pair_lookup ?e ?fld ?dflt)) ?k ?s = _ =>
      let H := fresh in
      eassert (H : apply_rows (zone_pair_lookup e fld dflt) s = (s, inr _));
      [ apply apply_rows_run;
        [ rewrite ?nrows_set_col; assumption
        | apply zone_pair_rows; [gc | gc | first [eassumption | reflexivity]] ]
      | rewrite ?nrows_set_col in H; rewrite (bind_ok _ _ _ _ _ H); clear H; cbv beta ]
  | |- bind (apply_rows (zone_combo_lookup ?e)) ?k ?s = _ =>
      let H := fresh in
      eassert (H : apply_rows (zone_combo_lookup e) s = (s, inr _));
      [ apply apply_rows_run;
        [ rewrite ?nrows_set_col; assumption
        | apply zone_combo_rows; [gc | gc | eassumption | eassumption] ]
      | rewrite ?nrows_set_col in H; rewrite (bind_ok _ _ _ _ _ H); clear H; cbv beta ]
  | |- bind get_state ?k ?s = _ =>
      rewrite (bind_ok get_state k s s s eq_refl); cbv beta
  | |- bind (ret ?a) ?k ?s = _ =>
      rewrite (bind_ok (ret a) k s s a eq_refl); cbv beta
  | |- bind (bind ?m ?k1) ?k2 ?s = _ => rewrite bind_assoc
  end.

Lemma trip_frame_spec (f : DataFrame) :
  trip_frame f = true ->
  (0 < nrows f)%nat
  /\ (forall n, In n ["hour"; "day_of_week"; "dubai_distance"; "is_rush_hour"; "is_weekend"] ->
                exists v, get_col f n = Some v /\ forallb numeric v = true)
  /\ (forall n, In n ["pickup_zone"; "dropoff_zone"] -> exists v, get_col f n = Some v)
  /\ (forall n, In n categorical_cols ->
                exists v, get_col f n = Some v /\ forallb textual v = true)
  /\ (has_col f "is_friday_prayer" = true ->
      exists v, get_col f "is_friday_prayer" = Some v /\ forallb numeric v = true)
  /\ NoDup (col_names f)
  /\ (forall n, In n (col_names f) -> is_dummy_name n = false).
Proof.
  unfold trip_frame. intros H.
  apply andb_true_iff in H as [H Hdummy]. apply andb_true_iff in H as [H Hnd].
  apply andb_true_iff in H as [H Hfri]. apply andb_true_iff in H as [H Hcat].
  apply andb_true_iff in H as [H Hkey]. apply andb_true_iff in H as [H Hnum].
  rewrite forallb_forall in Hdummy, Hcat, Hkey, Hnum.
  split; [now apply Nat.ltb_lt|].
  split. { intros n Hn. apply col_all_spec. auto. }
  split. { intros n Hn. apply has_col_spec. auto. }
  split. { intros n Hn. apply col_all_spec. auto. }
  split. { intros E. rewrite E in Hfri. now apply col_all_spec. }
  split. { apply bool_decide_eq_true in Hnd. exact Hnd. }
  intros n Hn. apply negb_true_iff. auto.
Qed.

(** On a trip frame and a fitted engineer every statement of
    [engineer_columns] succeeds; the frame ends up with the engineered
    columns assigned in order. *)
Lemma engineer_columns_run (e : FeatureEngineer) (f : DataFrame) :
  well_fitted e = true -> trip_frame f = true ->
  exists vs, engineer_columns e f = (set_cols f vs, inr tt) /\ engineered e f vs.
Proof.
  intros He Hf.
  destruct (well_fitted_spec e He) as (_ & (hm & Hhm) & (dm & Hdm) & (cm & Hcm)
                                       & (g & Hg) & (gs & Hgs)).
  destruct (trip_frame_spec f Hf) as (Hn & Hnum & Hkey & Hcat & Hfri & _ & _).
  destruct (Hnum "hour") as (h & Hh & Nh); [simpl; tauto|].
  destruct (Hnum "day_of_week") as (dw & Hdw & Ndw); [simpl; tauto|].
  destruct (Hnum "dubai_distance") as (dist & Hdist & Ndist); [simpl; tauto|].
  destruct (Hnum "is_rush_hour") as (rush & Hrush & Nrush); [simpl; tauto|].
  destruct (Hnum "is_weekend") as (wk & Hwk & Nwk); [simpl; tauto|].
  destruct (Hkey "pickup_zone") as (p & Hp); [simpl; tauto|].
  destruct (Hkey "dropoff_zone") as (d & Hd); [simpl; tauto|].
  destruct (Hcat "zone_type_pickup") as (tp & Htp & _); [simpl; tauto|].
  destruct (Hcat "zone_type_dropoff") as (td & Htd & _); [simpl; tauto|].
  destruct (mapM_ok numeric (sin_turn 24) h (sin_turn_ok 24) Nh) as (v1 & V1).
  destruct (mapM_ok numeric (cos_turn 24) h (cos_turn_ok 24) Nh) as (v2 & V2).
  destruct (mapM_ok numeric (sin_turn 7) dw (sin_turn_ok 7) Ndw) as (v3 & V3).
  destruct (mapM_ok numeric (cos_turn 7) dw (cos_turn_ok 7) Ndw) as (v4 & V4).
  destruct (zip_with_M_ok numeric cell_mul dist rush cell_mul_ok Ndist Nrush) as (v11 & V11).
  destruct (zip_with_M_ok numeric cell_mul dist wk cell_mul_ok Ndist Nwk) as (v12 & V12).
  destruct (mapM_ok numeric (fun c => cell_mul c c) dist
                    (fun c H => cell_mul_ok c c H H) Ndist) as (v13 & V13).
  destruct (zip_same_type_ok tp td) as (v15 & V15).
  destruct (mapM_ok numeric is_morning h (fun c H => proj1 (window_ok c H)) Nh)
    as (v16 & V16).
  destruct (mapM_ok numeric is_afternoon h
                    (fun c H => proj1 (proj2 (window_ok c H))) Nh) as (v17 & V17).
  destruct (mapM_ok numeric is_evening h
                    (fun c H => proj1 (proj2 (proj2 (window_ok c H)))) Nh) as (v18 & V18).
  destruct (mapM_ok numeric is_night h
                    (fun c H => proj2 (proj2 (proj2 (window_ok c H)))) Nh) as (v19 & V19).
  set (n := nrows f) in *.
  set (front :=
         [("hour_sin", v1); ("hour_cos", v2); ("dow_sin", v3); ("dow_cos", v4);
          ("zone_pair_mean", map (zone_pair_value e "mean" g p d) (seq 0 n));
          ("zone_pair_std", map (zone_pair_value e "std" gs p d) (seq 0 n));
          ("zone_pair_count", map (zone_pair_value e "count" (CInt 0) p d) (seq 0 n));
          ("hour_mean", map (fun c => fillna g (map_dict hm c)) h);
          ("dow_mean", map (fun c => fillna g (map_dict dm c)) dw);
          ("zone_combo_mean",
           map (fun i => default g (cm !! key2 (nth i tp CNaN) (nth i td CNaN))) (seq 0 n));
          ("distance_rush", v11); ("distance_weekend", v12); ("distance_squared", v13)]).
  set (back :=
         [("same_zone_type", v15); ("is_morning", v16); ("is_afternoon", v17);
          ("is_evening", v18); ("is_night", v19)]).
  assert (Facts : forall mid,
             map fst mid = (if has_col f "is_friday_prayer"
                            then ["distance_friday_prayer"] else []) ->
             engineered e f (front ++ mid ++ back)).
  { intros mid Hmid. unfold engineered. split; [|split].
    - rewrite !map_app, Hmid. reflexivity.
    - intros g' gs' p' d' Hg' Hgs' Hp' Hd'.
      rewrite Hg in Hg'. rewrite Hgs in Hgs'. rewrite Hp in Hp'. rewrite Hd in Hd'.
      inversion Hg'; inversion Hgs'; inversion Hp'; inversion Hd'; subst g' gs' p' d'.
      fold n. repeat split; apply in_or_app; left; simpl; tauto.
    - intros h' Hh'. rewrite Hh in Hh'. inversion Hh'; subst h'.
      exists v16, v17, v18, v19. repeat split; try assumption;
        apply in_or_app; right; apply in_or_app; right; simpl; tauto. }
  destruct (has_col f "is_friday_prayer") eqn:Efri.
  - destruct (Hfri eq_refl) as (fp & Hfp & Nfp).
    destruct (zip_with_M_ok numeric cell_mul dist fp cell_mul_ok Ndist Nfp) as (v14 & V14).
    exists (front ++ [("distance_friday_prayer", v14)] ++ back).
    split; [|now apply Facts].
    unfold engineer_columns. repeat run_step.
    rewrite !has_col_set_col_ne by reflexivity. rewrite Efri.
    repeat run_step.
    unfold setitem, set_cols, front, back. cbn [fold_left app fst snd].
    reflexivity.
  - exists (front ++ [] ++ back).
    split; [|now apply Facts].
    unfold engineer_columns. repeat run_step.
    rewrite !has_col_set_col_ne by reflexivity. rewrite Efri.
    repeat run_step.
    unfold setitem, set_cols, front, back. cbn [fold_left app fst snd].
    reflexivity.
Qed.

(** ** One-hot encoding *)

Lemma ltb_lt (s x : string) : String.ltb s x = true <-> String_as_OT.lt s x.
Proof.
  unfold String.ltb. rewrite <- String_as_OT.cmp_lt. unfold String_as_OT.cmp.
  destruct (String.compare s x); split; congruence.
Qed.

Lemma not_ltb_gt (s x : string) :
  String.eqb s x = false -> String.ltb s x = false -> String_as_OT.lt x s.
Proof.
  intros He Hl. apply String_as_OT.cmp_lt. unfold String_as_OT.cmp.
  rewrite String.compare_antisym. unfold String.ltb in Hl.
  destruct (String.compare s x) eqn:C; simpl; try congruence.
  apply String.compare_eq_iff in C. subst. rewrite String.eqb_refl in He. discriminate.
Qed.

Lemma insert_level_spec (s : string) (l : list string) :
  StronglySorted String_as_OT.lt l ->
  StronglySorted String_as_OT.lt (insert_level s l)
  /\ (forall y, In y (insert_level s l) <-> y = s \/ In y l).
Proof.
  induction 1 as [|x l Hs IH Hx]; simpl.
  - split; [repeat constructor | intros y; intuition congruence].
  - destruct (String.eqb s x) eqn:E.
    + apply String.eqb_eq in E. subst x. split; [now constructor|].
      intros y. simpl. intuition congruence.
    + destruct (String.ltb s x) eqn:L.
      * split; [|intros y; simpl; intuition congruence].
        apply ltb_lt in L. constructor; [now constructor|].
        constructor; [exact L|].
        eapply List.Forall_impl; [|exact Hx]. intros y Hy.
        eapply String_as_OT.lt_trans; eassumption.
      * destruct IH as [IH1 IH2]. split.
        -- constructor; [exact IH1|].
           apply List.Forall_forall. intros y Hy. apply IH2 in Hy as [->|Hy].
           ++ now apply not_ltb_gt.
           ++ rewrite List.Forall_forall in Hx. now apply Hx.
        -- intros y. simpl. rewrite IH2. intuition congruence.
Qed.

Lemma levels_ok (v : list cell) :
  forallb textual v = true ->
  exists lv, levels v = inr lv /\ StronglySorted String_as_OT.lt lv.
Proof.
  induction v as [|c v IH]; simpl; intros H.
  - exists []. split; [reflexivity | constructor].
  - apply andb_true_iff in H as [Hc Hv]. destruct (IH Hv) as (lv & E & S).
    destruct c; try discriminate.
    + rewrite E. simpl. eexists. split; [reflexivity|].
      now apply insert_level_spec.
    + exists lv. now split.
Qed.

Lemma sorted_levels_NoDup (lv : list string) :
  StronglySorted String_as_OT.lt lv -> NoDup lv.
Proof.
  induction 1 as [|x l Hs IH Hx]; [constructor|].
  apply NoDup_cons. split; [|exact IH].
  intros Hin. apply list_elem_of_In in Hin.
  rewrite List.Forall_forall in Hx. apply Hx in Hin.
  apply String_as_OT.lt_not_eq in Hin. now apply Hin.
Qed.

Lemma append_inj_r (p a b : string) : p +:+ a = p +:+ b -> a = b.
Proof. induction p as [|c p IH]; simpl; intros H; [exact H|]. inversion H. auto. Qed.

Lemma dummy_names (prefix : string) (v : list cell) (lv : list string) :
  map fst (dummy_columns prefix v lv) = map (fun l => prefix +:+ "_" +:+ l) lv.
Proof. unfold dummy_columns. rewrite map_map. reflexivity. Qed.

Lemma dummy_names_NoDup (prefix : string) (lv : list string) :
  NoDup lv -> NoDup (map (fun l => prefix +:+ "_" +:+ l) lv).
Proof.
  induction 1 as [|x l Hx Hl IH]; simpl; [constructor|].
  apply NoDup_cons. split; [|exact IH].
  intros Hin. apply Hx. apply list_elem_of_In in Hin. apply list_elem_of_In.
  apply in_map_iff in Hin as (y & E & Hy).
  apply append_inj_r in E. apply append_inj_r in E. now subst.
Qed.

Lemma NoDup_filter_names (P : string * list cell -> bool) (l : list (string * list cell)) :
  NoDup (map fst l) -> NoDup (map fst (List.filter P l)).
Proof.
  induction l as [|x l IH]; simpl; intros H; [constructor|].
  apply NoDup_cons in H as [Hx Hl].
  destruct (P x); simpl; [|now apply IH].
  apply NoDup_cons. split; [|now apply IH].
  intros Hin. apply Hx. apply list_elem_of_In in Hin. apply list_elem_of_In.
  apply in_map_iff in Hin as (y & E & Hy). apply filter_In in Hy as [Hy _].
  apply in_map_iff. now exists y.
Qed.

Lemma assoc_filter (P : string -> bool) (n : string) (l : list (string * list cell)) :
  P n = true -> assoc n (List.filter (fun nc => P nc.1) l) = assoc n l.
Proof.
  intros Hn. induction l as [|[m c] l IH]; simpl; [reflexivity|].
  destruct (P m) eqn:E; simpl.
  - destruct (String.eqb m n); [reflexivity | exact IH].
  - destruct (String.eqb m n) eqn:Em; [|exact IH].
    apply String.eqb_eq in Em. subst. congruence.
Qed.

Lemma assoc_None_notin {V} (n : string) (l : list (string * V)) :
  ~ In n (map fst l) -> assoc n l = None.
Proof.
  induction l as [|[m c] l IH]; simpl; intros H; [reflexivity|].
  destruct (String.eqb m n) eqn:E.
  - apply String.eqb_eq in E. subst. tauto.
  - apply IH. tauto.
Qed.

Lemma assoc_Some_in {V} (n : string) (v : V) (l : list (string * V)) :
  assoc n l = Some v -> In n (map fst l).
Proof.
  induction l as [|[m c] l IH]; simpl; intros H; [discriminate|].
  destruct (String.eqb m n) eqn:E.
  - apply String.eqb_eq in E. now left.
  - right. now apply IH.
Qed.

(** Labels of indicator columns are recognised by [is_dummy_name]. *)
Lemma dummy_name_pickup (l : string) : is_dummy_name ("zone_type_pickup" +:+ "_" +:+ l) = true.
Proof. unfold is_dummy_name. simpl. now destruct l. Qed.

Lemma dummy_name_dropoff (l : string) : is_dummy_name ("zone_type_dropoff" +:+ "_" +:+ l) = true.
Proof. unfold is_dummy_name. simpl. now destruct l. Qed.

Lemma dummy_name_weather (l : string) : is_dummy_name ("weather" +:+ "_" +:+ l) = true.
Proof. unfold is_dummy_name. simpl. now destruct l. Qed.

Lemma get_dummies_run (s : DataFrame) :
  (forall n, In n categorical_cols ->
             exists v, get_col s n = Some v /\ forallb textual v = true) ->
  NoDup (col_names s) ->
  (forall n, In n (col_names s) -> is_dummy_name n = false) ->
  exists d,
    get_dummies s categorical_cols = inr d
    /\ nrows d = nrows s
    /\ NoDup (col_names d)
    /\ (forall n, is_encoded categorical_cols n = false -> is_dummy_name n = false ->
                  get_col d n = get_col s n).
Proof.
  intros Hcat Hnd Hraw.
  destruct (Hcat "zone_type_pickup") as (tp & Htp & Ttp); [simpl; tauto|].
  destruct (Hcat "zone_type_dropoff") as (td & Htd & Ttd); [simpl; tauto|].
  destruct (Hcat "weather") as (wt & Hwt & Twt); [simpl; tauto|].
  destruct (levels_ok tp Ttp) as (l1 & E1 & S1).
  destruct (levels_ok td Ttd) as (l2 & E2 & S2).
  destruct (levels_ok wt Twt) as (l3 & E3 & S3).
  set (D1 := dummy_columns "zone_type_pickup" tp l1).
  set (D2 := dummy_columns "zone_type_dropoff" td l2).
  set (D3 := dummy_columns "weather" wt l3).
  assert (Enc : mapM (encode s) categorical_cols = inr [D1; D2; D3]).
  { unfold categorical_cols, encode, column. simpl.
    rewrite Htp, Htd, Hwt. simpl. rewrite E1, E2, E3. reflexivity. }
  set (kept := List.filter (fun nc => negb (is_encoded categorical_cols nc.1)) (columns s)).
  exists (mkFrame (nrows s) (kept ++ concat [D1; D2; D3])).
  assert (N1 : forall x, In x (map fst D1) -> exists l, x = "zone_type_pickup" +:+ "_" +:+ l).
  { intros x Hx. unfold D1 in Hx. rewrite dummy_names in Hx.
    apply in_map_iff in Hx as (l & <- & _). now exists l. }
  assert (N2 : forall x, In x (map fst D2) -> exists l, x = "zone_type_dropoff" +:+ "_" +:+ l).
  { intros x Hx. unfold D2 in Hx. rewrite dummy_names in Hx.
    apply in_map_iff in Hx as (l & <- & _). now exists l. }
  assert (N3 : forall x, In x (map fst D3) -> exists l, x = "weather" +:+ "_" +:+ l).
  { intros x Hx. unfold D3 in Hx. rewrite dummy_names in Hx.
    apply in_map_iff in Hx as (l & <- & _). now exists l. }
  assert (Nk : forall x, In x (map fst kept) -> is_dummy_name x = false).
  { intros x Hx. apply Hraw. apply in_map_iff in Hx as (y & <- & Hy).
    apply filter_In in Hy as [Hy _]. apply in_map_iff. now exists y. }
  assert (ND : forall x, In x (map fst (concat [D1; D2; D3])) -> is_dummy_name x = true).
  { intros x Hx. simpl in Hx. rewrite !map_app, !in_app_iff in Hx. simpl in Hx.
    destruct Hx as [Hx|[Hx|[Hx|[]]]].
    - destruct (N1 x Hx) as (l & ->). apply dummy_name_pickup.
    - destruct (N2 x Hx) as (l & ->). apply dummy_name_dropoff.
    - destruct (N3 x Hx) as (l & ->). apply dummy_name_weather. }
  split; [|split; [|split]].
  - unfold get_dummies. rewrite Enc. reflexivity.
  - reflexivity.
  - unfold col_names. simpl columns. rewrite map_app.
    apply NoDup_app. split; [|split].
    + apply NoDup_filter_names. exact Hnd.
    + intros x Hx Hx'. apply list_elem_of_In in Hx, Hx'.
      apply Nk in Hx. apply ND in Hx'. congruence.
    + simpl. rewrite !map_app. simpl. rewrite app_nil_r.
      apply NoDup_app. split; [|split].
      * unfold D1. rewrite dummy_names. apply dummy_names_NoDup.
        now apply sorted_levels_NoDup.
      * intros x Hx Hx'. apply list_elem_of_In in Hx, Hx'.
        destruct (N1 x Hx) as (l & ->).
        apply in_app_iff in Hx' as [Hx'|Hx'].
        -- destruct (N2 _ Hx') as (l' & E). simpl in E. discriminate E.
        -- destruct (N3 _ Hx') as (l' & E). simpl in E. discriminate E.
      * apply NoDup_app. split; [|split].
        -- unfold D2. rewrite dummy_names. apply dummy_names_NoDup.
           now apply sorted_levels_NoDup.
        -- intros x Hx Hx'. apply list_elem_of_In in Hx, Hx'.
           destruct (N2 x Hx) as (l & ->).
           destruct (N3 _ Hx') as (l' & E). simpl in E. discriminate E.
        -- unfold D3. rewrite dummy_names. apply dummy_names_NoDup.
           now apply sorted_levels_NoDup.
  - intros n Hn Hd. unfold get_col. simpl columns. rewrite assoc_app.
    unfold kept.
    rewrite (assoc_filter (fun m => negb (is_encoded categorical_cols m)))
      by (now rewrite Hn).
    destruct (assoc n (columns s)) as [v|]; [reflexivity|].
    apply assoc_None_notin. intros Hin. apply ND in Hin. congruence.
Qed.

(** ** Alignment with the training columns *)

Lemma add_missing_run (cols : list string) (d : DataFrame) :
  exists F,
    add_missing cols d = (F, inr tt)
    /\ nrows F = nrows d
    /\ (NoDup (col_names d) -> NoDup (col_names F))
    /\ (forall n v, get_col d n = Some v -> get_col F n = Some v)
    /\ (forall n, get_col d n = None -> In n cols ->
                  get_col F n = Some (repeat (CInt 0) (nrows d)))
    /\ (forall n, get_col d n = None -> ~ In n cols -> get_col F n = None).
Proof.
  revert d. induction cols as [|col rest IH]; intros d.
  - exists d. simpl. repeat split; auto. intros n Hn [].
  - simpl add_missing.
    rewrite (bind_ok get_state _ d d d eq_refl). cbv beta.
    set (d' := if has_col d col then d else set_col d col (repeat (CInt 0) (nrows d))).
    assert (Step : (if has_col d col then ret tt else setitem_scalar col (CInt 0)) d
                   = (d', inr tt)).
    { unfold d'. now destruct (has_col d col). }
    rewrite (bind_ok _ _ _ _ _ Step).
    destruct (IH d') as (F & Hrun & Hn & Hnd & Hsome & Hzero & Hnone).
    assert (Hn' : nrows d' = nrows d).
    { unfold d'. destruct (has_col d col); [reflexivity | apply nrows_set_col]. }
    assert (Hkeep : forall n v, get_col d n = Some v -> get_col d' n = Some v).
    { intros n v H. unfold d'. destruct (has_col d col) eqn:E; [exact H|].
      rewrite get_col_set_col. destruct (String.eqb col n) eqn:En; [|exact H].
      apply String.eqb_eq in En. subst n. rewrite has_col_get_col, H in E. discriminate. }
    exists F. split; [exact Hrun|]. split; [congruence|]. split; [|split; [|split]].
    + intros H. apply Hnd. unfold d'. destruct (has_col d col); [exact H|].
      now apply NoDup_set_col.
    + intros n v H. apply Hsome. now apply Hkeep.
    + intros n H Hin.
      destruct (String.eqb col n) eqn:En.
      * apply String.eqb_eq in En. subst n. apply Hsome.
        assert (X : d' = set_col d col (repeat (CInt 0) (nrows d))).
        { unfold d'. now rewrite has_col_get_col, H. }
        rewrite X. apply get_col_set_col_eq.
      * rewrite <- Hn'. apply Hzero.
        -- unfold d'. destruct (has_col d col); [exact H|].
           now rewrite get_col_set_col_ne.
        -- destruct Hin as [->|Hin]; [|exact Hin].
           rewrite String.eqb_refl in En. discriminate.
    + intros n H Hin. apply Hnone.
      * unfold d'. destruct (has_col d col); [exact H|].
        rewrite get_col_set_col_ne; [exact H|].
        apply String.eqb_neq. intros ->. apply Hin. now left.
      * intros Hr. apply Hin. now right.
Qed.

Lemma filter_by_name (n : string) (l : list (string * list cell)) :
  NoDup (map fst l) ->
  List.filter (fun nc => String.eqb nc.1 n) l
  = match assoc n l with Some v => [(n, v)] | None => [] end.
Proof.
  induction l as [|[m c] l IH]; simpl; intros H; [reflexivity|].
  apply NoDup_cons in H as [Hm Hl].
  destruct (String.eqb m n) eqn:E.
  - apply String.eqb_eq in E. subst m. f_equal.
    rewrite (IH Hl). rewrite assoc_None_notin; [reflexivity|].
    intros Hin. apply Hm. now apply list_elem_of_In.
  - now apply IH.
Qed.

Lemma select_run (F : DataFrame) (cols : list string) :
  NoDup (col_names F) ->
  (forall c, In c cols -> get_col F c <> None) ->
  exists out,
    select F cols = inr out
    /\ nrows out = nrows F
    /\ col_names out = cols
    /\ (forall n, In n cols -> get_col out n = get_col F n).
Proof.
  intros Hnd Hall.
  assert (G : exists picked,
             mapM (fun n => match List.filter (fun nc => String.eqb nc.1 n) (columns F) with
                            | [] => inl (KeyError n)
                            | l => inr l
                            end) cols = inr picked
             /\ map fst (concat picked) = cols
             /\ (forall n, In n cols -> assoc n (concat picked) = assoc n (columns F))).
  { induction cols as [|c cols IH].
    - exists []. simpl. repeat split. intros n [].
    - destruct IH as (picked & E & Hnames & Hget).
      { intros x Hx. apply Hall. now right. }
      simpl. rewrite (filter_by_name c (columns F) Hnd).
      pose proof (Hall c (or_introl eq_refl)) as Hc. unfold get_col in Hc.
      destruct (assoc c (columns F)) as [v|] eqn:Ec; [|congruence].
      simpl. rewrite E. simpl. exists ([(c, v)] :: picked).
      split; [reflexivity|]. split; [simpl; now rewrite Hnames|].
      intros n [->|Hn]; simpl.
      + now rewrite String.eqb_refl.
      + destruct (String.eqb c n) eqn:En.
        * apply String.eqb_eq in En. now subst.
        * now apply Hget. }
  destruct G as (picked & E & Hnames & Hget).
  exists (mkFrame (nrows F) (concat picked)).
  unfold select. rewrite E. simpl. repeat split; assumption.
Qed.

(** ** [fit] *)

Lemma bind_inr_inv {S A B} (m : SE S A) (k : A -> SE S B) (s s' : S) (b : B) :
  bind m k s = (s', inr b) -> exists s1 a, m s = (s1, inr a) /\ k a s1 = (s', inr b).
Proof.
  unfold bind. destruct (m s) as [s1 [x|a]]; intros H; [discriminate|]. now exists s1, a.
Qed.

Lemma lift_inv {S A} (r : exn + A) (s s1 : S) (a : A) :
  lift r s = (s1, inr a) -> s1 = s /\ r = inr a.
Proof. unfold lift. intros H. inversion H. now split. Qed.

Lemma deref_inv (l : loc) (w w1 : World) (f : DataFrame) :
  deref l w = (w1, inr f) -> w1 = w /\ heap w !! l = Some f.
Proof.
  unfold deref. destruct (heap w !! l); intros H; inversion H. now split.
Qed.

Lemma agg_to_dict_no_tuple (g : gmap pykey (list (option Q))) (a b : cell) :
  agg_to_dict g !! KTuple a b = None.
Proof.
  unfold agg_to_dict, kstr.
  rewrite !lookup_insert_ne by discriminate. apply lookup_empty.
Qed.

(** A completed [fit] leaves the frames alone, sets the five statistics
    and the flag, keeps the training columns, and stores the zone-pair
    aggregates under the three labels 'mean', 'std' and 'count'. *)
Lemma fit_run (w w' : World) (df : loc) :
  fit df w = (w', inr tt) ->
  heap w' = heap w
  /\ well_fitted (self w') = true
  /\ training_columns (self w') = training_columns (self w)
  /\ exists f g v,
       heap w !! df = Some f
       /\ groupby2 f "pickup_zone" "dropoff_zone" "actual_duration_minutes" = inr g
       /\ zone_pair_stats (self w') = agg_to_dict g
       /\ rbind (column f "actual_duration_minutes") numeric_column = inr v
       /\ global_mean (feature_stats (self w')) = Some (agg_mean v)
       /\ global_std (feature_stats (self w')) = Some (agg_std v).
Proof.
  unfold fit. intros H.
  apply bind_inr_inv in H as (w1 & f & H1 & H). apply deref_inv in H1 as [-> Hf].
  apply bind_inr_inv in H as (w1 & g & H1 & H). apply lift_inv in H1 as [-> Hg].
  apply bind_inr_inv in H as (w1 & [] & H1 & H). inversion H1; subst w1; clear H1.
  apply bind_inr_inv in H as (w1 & g1 & H1 & H). apply lift_inv in H1 as [-> Hg1].
  apply bind_inr_inv in H as (w1 & [] & H1 & H). inversion H1; subst w1; clear H1.
  apply bind_inr_inv in H as (w1 & g2 & H1 & H). apply lift_inv in H1 as [-> Hg2].
  apply bind_inr_inv in H as (w1 & [] & H1 & H). inversion H1; subst w1; clear H1.
  apply bind_inr_inv in H as (w1 & g3 & H1 & H). apply lift_inv in H1 as [-> Hg3].
  apply bind_inr_inv in H as (w1 & [] & H1 & H). inversion H1; subst w1; clear H1.
  apply bind_inr_inv in H as (w1 & v & H1 & H). apply lift_inv in H1 as [-> Hv].
  apply bind_inr_inv in H as (w1 & [] & H1 & H). inversion H1; subst w1; clear H1.
  apply bind_inr_inv in H as (w1 & v' & H1 & H). apply lift_inv in H1 as [-> Hv'].
  apply bind_inr_inv in H as (w1 & [] & H1 & H). inversion H1; subst w1; clear H1.
  inversion H; subst w'; clear H.
  rewrite Hv in Hv'. inversion Hv'; subst v'.
  simpl. split; [reflexivity|]. split; [reflexivity|]. split; [reflexivity|].
  exists f, g, v. repeat split; assumption.
Qed.

(** ** [transform] on trip frames *)

Lemma engineered_names_spec (b : bool) :
  NoDup (engineered_names b)
  /\ (forall n, In n (engineered_names b) ->
                is_encoded categorical_cols n = false /\ is_dummy_name n = false).
Proof.
  split.
  - destruct b; apply (bool_decide_unpack _); vm_compute; exact I.
  - intros n H. destruct b; simpl in H;
      repeat (destruct H as [<-|H]; [split; reflexivity|]); destruct H.
Qed.

Lemma categorical_not_engineered (b : bool) (n : string) :
  In n categorical_cols -> ~ In n (engineered_names b).
Proof.
  intros H Hin. apply engineered_names_spec in Hin as [E _].
  simpl in H. destruct H as [<-|[<-|[<-|[]]]]; discriminate E.
Qed.

Lemma well_fitted_training_columns (c : option (list string)) (e : FeatureEngineer) :
  well_fitted (with_training_columns c e) = well_fitted e.
Proof. reflexivity. Qed.

Lemma engineer_columns_training_columns (c : option (list string)) (e : FeatureEngineer) :
  engineer_columns (with_training_columns c e) = engineer_columns e.
Proof. reflexivity. Qed.

(** Without frozen training columns [transform] returns the encoded
    frame. *)
Lemma transform_outcome_unaligned (e : FeatureEngineer) (f : DataFrame)
      (vs : list (string * list cell)) (d : DataFrame) :
  engineer_columns e f = (set_cols f vs, inr tt) ->
  get_dummies (set_cols f vs) categorical_cols = inr d ->
  transform_outcome (with_training_columns None e) f = inr d.
Proof.
  intros Hrun Hd. unfold transform_outcome.
  rewrite engineer_columns_training_columns, Hrun. cbn [fst snd rbind].
  rewrite Hd. reflexivity.
Qed.

(** The outcome of [transform] on a trip frame, stage by stage: the
    engineered columns [vs], the encoded frame [d] and the aligned
    result. *)
Lemma transform_trip (e : FeatureEngineer) (f : DataFrame) :
  well_fitted e = true -> trip_frame f = true ->
  exists vs d out,
    engineered e f vs
    /\ get_dummies (set_cols f vs) categorical_cols = inr d
    /\ transform_outcome e f = inr out
    /\ transform_outcome (with_training_columns None e) f = inr d
    /\ nrows d = nrows f /\ nrows out = nrows f
    /\ (forall n v, In (n, v) vs -> get_col d n = Some v)
    /\ (forall n, is_encoded categorical_cols n = false -> is_dummy_name n = false ->
                  ~ In n (map fst vs) -> get_col d n = get_col f n)
    /\ match training_columns e with
       | None => out = d
       | Some cols =>
           col_names out = cols
           /\ (forall n, In n cols ->
                         get_col out n = match get_col d n with
                                         | Some v => Some v
                                         | None => Some (repeat (CInt 0) (nrows f))
                                         end)
       end.
Proof.
  intros He Hf.
  destruct (engineer_columns_run e f He Hf) as (vs & Hrun & Heng).
  destruct (trip_frame_spec f Hf) as (Hn & _ & _ & Hcat & _ & Hnd & Hraw).
  pose proof Heng as (Hnames & _).
  destruct (engineered_names_spec (has_col f "is_friday_prayer")) as [NDn Hplain].
  rewrite <- Hnames in NDn, Hplain.
  destruct (get_dummies_run (set_cols f vs)) as (d & Hd & Hdn & Hdnd & Hdget).
  { intros n Hin. rewrite get_col_set_cols_other; [now apply Hcat|].
    rewrite Hnames. now apply categorical_not_engineered. }
  { now apply NoDup_set_cols. }
  { intros n Hin. apply col_names_set_cols in Hin as [Hin|Hin].
    - now apply Hraw.
    - now apply Hplain. }
  rewrite nrows_set_cols in Hdn.
  assert (Hvs : forall n v, In (n, v) vs -> get_col d n = Some v).
  { intros n v Hin.
    assert (Hin' : In n (map fst vs)) by (apply in_map_iff; now exists (n, v)).
    destruct (Hplain n Hin') as [P1 P2].
    rewrite (Hdget n P1 P2). now apply get_col_set_cols_entry. }
  assert (Hother : forall n, is_encoded categorical_cols n = false ->
                             is_dummy_name n = false -> ~ In n (map fst vs) ->
                             get_col d n = get_col f n).
  { intros n P1 P2 Hnot. rewrite (Hdget n P1 P2). now apply get_col_set_cols_other. }
  assert (Hout : transform_outcome e f
                 = match training_columns e with
                   | Some cols => rbind (add_missing cols d).2
                                        (fun _ => select (add_missing cols d).1 cols)
                   | None => inr d
                   end).
  { unfold transform_outcome. rewrite Hrun. cbn [fst snd rbind]. rewrite Hd.
    reflexivity. }
  rewrite Hout. clear Hout.
  destruct (training_columns e) as [cols|].
  - destruct (add_missing_run cols d) as (F & HF & HFn & HFnd & HFsome & HFzero & _).
    rewrite HF. cbn [fst snd rbind].
    destruct (select_run F cols (HFnd Hdnd)) as (out & Hsel & Hon & Hoc & Hog).
    { intros c Hc. destruct (get_col d c) as [v|] eqn:E.
      - rewrite (HFsome c v E). discriminate.
      - rewrite (HFzero c E Hc). discriminate. }
    exists vs, d, out.
    split; [exact Heng|]. split; [exact Hd|]. split; [exact Hsel|].
    split; [now apply (transform_outcome_unaligned e f vs d)|].
    split; [exact Hdn|]. split; [congruence|]. split; [exact Hvs|].
    split; [exact Hother|]. split; [exact Hoc|].
    intros n Hin. rewrite (Hog n Hin).
    destruct (get_col d n) as [v|] eqn:E.
    + now apply HFsome.
    + rewrite (HFzero n E Hin). now rewrite Hdn.
  - exists vs, d, d.
    split; [exact Heng|]. split; [exact Hd|]. split; [reflexivity|].
    split; [now apply (transform_outcome_unaligned e f vs d)|].
    split; [exact Hdn|]. split; [exact Hdn|]. split; [exact Hvs|].
    split; [exact Hother | reflexivity].
Qed.

Lemma fit_transform_inv (w w1 : World) (df l : loc) :
  fit_transform df w = (w1, inr l) ->
  exists wa wb out,
    fit df w = (wa, inr tt)
    /\ transform df wa = (wb, inr l)
    /\ heap wb !! l = Some out
    /\ w1 = mkWorld (with_training_columns (Some (col_names out)) (self wb)) (heap wb).
Proof.
  unfold fit_transform. intros H.
  apply bind_inr_inv in H as (wa & [] & Hfit & H).
  apply bind_inr_inv in H as (wb & l' & Htr & H).
  apply bind_inr_inv in H as (wc & out & Hde & H). apply deref_inv in Hde as [-> Hout].
  apply bind_inr_inv in H as (wd & [] & Hmod & H).
  inversion Hmod; subst wd; clear Hmod. inversion H; subst; clear H.
  exists wa, wb, out. repeat split; assumption.
Qed.

(** [transform] of a trip frame by a fitted engineer returns normally,
    in a fresh object, what [transform_outcome] says. *)
Lemma transform_returns (w : World) (df : loc) (f out : DataFrame) :
  well_fitted (self w) = true -> heap w !! df = Some f ->
  transform_outcome (self w) f = inr out ->
  exists w' l, transform df w = (w', inr l) /\ heap w' !! l = Some out
               /\ self w' = self w.
Proof.
  intros He Hdf Hout.
  destruct (well_fitted_spec _ He) as (Hfit & _).
  destruct (transform_run w df f Hfit Hdf) as (h' & _ & Hr).
  rewrite Hout in Hr. destruct Hr as (l & Hr & Hl & _).
  eexists _, l. split; [exact Hr|]. split; [exact Hl | reflexivity].
Qed.

(** C3.  After a [fit_transform] the engineer holds the column list of
    the frame it returned, and every later [transform] of a trip frame,
    whatever categorical levels it contains, returns a frame with exactly
    that column list, in that order.  With [d] the engineered and encoded
    frame before alignment (what [transform] would return were no
    training columns frozen), each training column present in [d] is
    taken from [d], each one absent from [d] is filled with zeros, and
    the columns of [d] outside the list are dropped. *)
Theorem frozen_training_columns (w w1 : World) (train l_out : loc) :
  fit_transform train w = (w1, inr l_out) ->
  exists cols out0,
    training_columns (self w1) = Some cols
    /\ heap w1 !! l_out = Some out0
    /\ col_names out0 = cols
    /\ forall (w2 : World) (df : loc) (f : DataFrame),
         self w2 = self w1 -> heap w2 !! df = Some f -> trip_frame f = true ->
         exists w3 l out d,
           transform df w2 = (w3, inr l)
           /\ heap w3 !! l = Some out
           /\ col_names out = cols
           /\ transform_outcome (with_training_columns None (self w1)) f = inr d
           /\ forall n, In n cols ->
                        get_col out n = match get_col d n with
                                        | Some v => Some v
                                        | None => Some (repeat (CInt 0) (nrows f))
                                        end.
Proof.
  intros H.
  destruct (fit_transform_inv w w1 train l_out H) as (wa & wb & out0 & Hfit & Htr & Hout0 & ->).
  destruct (fit_run w wa train Hfit) as (_ & Hwf & _).
  destruct (transform_frame_effect wa train) as [Hself _].
  rewrite Htr in Hself. simpl in Hself.
  exists (col_names out0), out0. cbn [self heap training_columns with_training_columns].
  split; [reflexivity|]. split; [exact Hout0|]. split; [reflexivity|].
  intros w2 df f Hw2 Hdf Htrip.
  assert (He : well_fitted (self w2) = true).
  { rewrite Hw2, well_fitted_training_columns, Hself. exact Hwf. }
  destruct (transform_trip (self w2) f He Htrip)
    as (vs & d & out & _ & _ & Hout & Hd & _ & _ & _ & _ & Hal).
  destruct (transform_returns w2 df f out He Hdf Hout) as (w3 & l & Hr & Hl & _).
  exists w3, l, out, d. split; [exact Hr|]. split; [exact Hl|].
  rewrite Hw2 in Hal, Hd. cbn [training_columns with_training_columns] in Hal.
  destruct Hal as [Hnames Hcols].
  split; [exact Hnames|]. split; [exact Hd | exact Hcols].
Qed.

Lemma sample_fit_transform_run :
  fit_transform 1%positive sample_world = (sample_fitted_world, inr 4%positive).
Proof.
  pose proof (surjective_pairing (fit_transform 1%positive sample_world)) as F.
  assert (E : (fit_transform 1%positive sample_world).2 = inr 4%positive)
    by (vm_compute; reflexivity).
  rewrite E in F. exact F.
Qed.

Lemma frozen_training_columns_witness :
  exists w3 l out,
    transform 2%positive sample_fitted_world = (w3, inr l)
    /\ heap w3 !! l = Some out
    /\ Some (col_names out) = training_columns (self sample_fitted_world)
    /\ get_col out "weather_fog" = None
    /\ get_col out "weather_rain" = Some [CInt 0; CInt 0; CInt 0].
Proof.
  destruct (frozen_training_columns sample_world sample_fitted_world 1%positive 4%positive
                                    sample_fit_transform_run)
    as (cols & out0 & Hc & _ & _ & Hlater).
  destruct (Hlater sample_fitted_world 2%positive sample_batch eq_refl)
    as (w3 & l & out & d & Hr & Hl & Hn & Hd & Hz).
  { vm_compute. reflexivity. }
  { vm_compute. reflexivity. }
  exists w3, l, out.
  split; [exact Hr|]. split; [exact Hl|].
  split; [now rewrite Hn, Hc|].
  vm_compute in Hc. injection Hc as <-.
  vm_compute in Hd. injection Hd as <-.
  split.
  - apply assoc_None_notin. fold (col_names out). rewrite Hn.
    intros Hin. simpl in Hin.
    repeat (destruct Hin as [Hin|Hin]; [discriminate Hin|]). exact Hin.
  - rewrite (Hz "weather_rain"); [reflexivity|].
    simpl. repeat (first [left; reflexivity | right]).
Defined.

(** ** Time windows *)

Lemma Qle_bool_inject_Z (a b : Z) : Qle_bool (inject_Z a) (inject_Z b) = (a <=? b).
Proof. unfold Qle_bool. simpl. now rewrite !Z.mul_1_r. Qed.

Lemma between_int_CInt (lo hi k : Z) :
  between_int lo hi (CInt k) = inr (Z.b2z ((lo <=? k) && (k <=? hi))).
Proof. unfold between_int. simpl. now rewrite !Qle_bool_inject_Z. Qed.

Lemma windows_of_hour (k : Z) :
  is_morning (CInt k) = inr (window_row k).1.1.1
  /\ is_afternoon (CInt k) = inr (window_row k).1.1.2
  /\ is_evening (CInt k) = inr (window_row k).1.2
  /\ is_night (CInt k) = inr (window_row k).2.
Proof.
  unfold is_morning, is_afternoon, is_evening, is_night.
  rewrite !between_int_CInt. repeat split.
Qed.

Lemma window_row_count (k : Z) :
  0 <= k <= 23 -> windows_set (window_row k) = if k =? 11 then 0 else 1.
Proof.
  intros H.
  assert (C : k = 0 \/ k = 1 \/ k = 2 \/ k = 3 \/ k = 4 \/ k = 5 \/ k = 6 \/ k = 7
              \/ k = 8 \/ k = 9 \/ k = 10 \/ k = 11 \/ k = 12 \/ k = 13 \/ k = 14
              \/ k = 15 \/ k = 16 \/ k = 17 \/ k = 18 \/ k = 19 \/ k = 20 \/ k = 21
              \/ k = 22 \/ k = 23) by lia.
  repeat (destruct C as [->|C]; [reflexivity|]). subst k. reflexivity.
Qed.

Lemma Forall2_nth_rel {A B} (R : A -> B -> Prop) (l1 : list A) (l2 : list B)
      (d1 : A) (d2 : B) (i : nat) :
  Forall2 R l1 l2 -> (i < length l1)%nat -> R (nth i l1 d1) (nth i l2 d2).
Proof.
  intros F. revert i. induction F as [|a b l1 l2 H F IH]; simpl; intros i Hi; [lia|].
  destruct i; [exact H|]. apply IH. lia.
Qed.

(** A column of the encoded frame that [transform] keeps is in the
    result unchanged. *)
Lemma kept_column (e : FeatureEngineer) (d out : DataFrame) (n : string) (v : list cell)
      (z : list cell) :
  match training_columns e with
  | None => out = d
  | Some cols =>
      col_names out = cols
      /\ (forall n, In n cols ->
                    get_col out n = match get_col d n with
                                    | Some v => Some v
                                    | None => Some z
                                    end)
  end ->
  keeps e n = true -> get_col d n = Some v -> get_col out n = Some v.
Proof.
  unfold keeps. destruct (training_columns e) as [cols|].
  - intros [_ H] Hk Hd. rewrite H, Hd; [reflexivity|].
    apply existsb_exists in Hk as (x & Hx & E). apply String.eqb_eq in E. now subst.
  - intros -> _ Hd. exact Hd.
Qed.

(** C5 (as amended).  In the frame [transform] returns, the four
    time-window indicators of a trip at the integer hour k are the
    inclusive-bound tests 6 <= k <= 10, 12 <= k <= 16, 17 <= k <= 21 and
    (22 <= k <= 23 or 0 <= k <= 5).  Hence at hour 11 all four are 0; at
    hour 16 is_afternoon is 1 and at hour 21 is_evening is 1 (the others
    0); and among the hours 0..23 hour 11 is the only one that no
    indicator covers. *)
Theorem time_window_coverage (w : World) (df : loc) (f : DataFrame) (hours : list cell) :
  well_fitted (self w) = true ->
  heap w !! df = Some f ->
  trip_frame f = true ->
  forallb (keeps (self w)) window_names = true ->
  get_col f "hour" = Some hours ->
  exists w' l out m a e n,
    transform df w = (w', inr l)
    /\ heap w' !! l = Some out
    /\ get_col out "is_morning" = Some m
    /\ get_col out "is_afternoon" = Some a
    /\ get_col out "is_evening" = Some e
    /\ get_col out "is_night" = Some n
    /\ (forall i k, (i < length hours)%nat -> nth i hours CNaN = CInt k ->
                    (nth i m CNaN, nth i a CNaN, nth i e CNaN, nth i n CNaN)
                    = window_row k)
    /\ window_row 11 = (CInt 0, CInt 0, CInt 0, CInt 0)
    /\ window_row 16 = (CInt 0, CInt 1, CInt 0, CInt 0)
    /\ window_row 21 = (CInt 0, CInt 0, CInt 1, CInt 0)
    /\ (forall k, 0 <= k <= 23 -> k <> 11 -> windows_set (window_row k) = 1).
Proof.
  intros He Hdf Hf Hk Hh.
  destruct (transform_trip (self w) f He Hf)
    as (vs & d & out & Heng & _ & Hout & _ & _ & _ & Hvs & _ & Hal).
  destruct (transform_returns w df f out He Hdf Hout) as (w' & l & Hr & Hl & _).
  destruct Heng as (_ & _ & Hwin).
  destruct (Hwin hours Hh) as (m & a & e & n & Mm & Ma & Me & Mn & Im & Ia & Ie & In_).
  simpl in Hk. repeat (apply andb_true_iff in Hk as [? Hk]).
  exists w', l, out, m, a, e, n.
  split; [exact Hr|]. split; [exact Hl|].
  split; [eapply kept_column; eauto|]. split; [eapply kept_column; eauto|].
  split; [eapply kept_column; eauto|]. split; [eapply kept_column; eauto|].
  split.
  { intros i k Hi Hcell.
    apply mapM_Forall2 in Mm, Ma, Me, Mn.
    pose proof (Forall2_nth_rel _ _ _ CNaN CNaN i Mm Hi) as Rm.
    pose proof (Forall2_nth_rel _ _ _ CNaN CNaN i Ma Hi) as Ra.
    pose proof (Forall2_nth_rel _ _ _ CNaN CNaN i Me Hi) as Re.
    pose proof (Forall2_nth_rel _ _ _ CNaN CNaN i Mn Hi) as Rn.
    simpl in Rm, Ra, Re, Rn. rewrite Hcell in Rm, Ra, Re, Rn.
    destruct (windows_of_hour k) as (Wm & Wa & We & Wn).
    rewrite Wm in Rm. rewrite Wa in Ra. rewrite We in Re. rewrite Wn in Rn.
    inversion Rm as [Em]. inversion Ra as [Ea]. inversion Re as [Ee]. inversion Rn as [En].
    reflexivity. }
  split; [reflexivity|]. split; [reflexivity|]. split; [reflexivity|].
  intros k Hk' Hne. rewrite window_row_count by exact Hk'.
  destruct (Z.eqb_spec k 11); [contradiction | reflexivity].
Qed.

Lemma time_window_coverage_witness :
  exists w' l out m a e n,
    transform 2%positive sample_fitted_world = (w', inr l)
    /\ heap w' !! l = Some out
    /\ get_col out "is_morning" = Some m /\ get_col out "is_afternoon" = Some a
    /\ get_col out "is_evening" = Some e /\ get_col out "is_night" = Some n
    /\ (nth 0 m CNaN, nth 0 a CNaN, nth 0 e CNaN, nth 0 n CNaN)
       = (CInt 0, CInt 0, CInt 0, CInt 0)
    /\ (nth 1 m CNaN, nth 1 a CNaN, nth 1 e CNaN, nth 1 n CNaN)
       = (CInt 0, CInt 1, CInt 0, CInt 0)
    /\ (nth 2 m CNaN, nth 2 a CNaN, nth 2 e CNaN, nth 2 n CNaN)
       = (CInt 0, CInt 0, CInt 1, CInt 0).
Proof.
  destruct (time_window_coverage sample_fitted_world 2%positive sample_batch
                                 [CInt 11; CInt 16; CInt 21])
    as (w' & l & out & m & a & e & n & Hr & Hl & Hm & Ha & He & Hn & Hrow & _).
  { vm_compute. reflexivity. }
  { vm_compute. reflexivity. }
  { vm_compute. reflexivity. }
  { vm_compute. reflexivity. }
  { reflexivity. }
  exists w', l, out, m, a, e, n.
  split; [exact Hr|]. split; [exact Hl|]. split; [exact Hm|]. split; [exact Ha|].
  split; [exact He|]. split; [exact Hn|].
  split; [|split].
  - apply (Hrow 0%nat 11); [simpl; lia | reflexivity].
  - apply (Hrow 1%nat 16); [simpl; lia | reflexivity].
  - apply (Hrow 2%nat 21); [simpl; lia | reflexivity].
Defined.

(** C5, counterexample.  In the batch with trips at the hours 11, 16 and
    21 the trip at hour 16 has is_afternoon = 1 and the trip at hour 21
    has is_evening = 1: these two hours are covered. *)
Lemma hours_16_and_21_are_covered :
  exists l out,
    (transform 2%positive sample_fitted_world).2 = inr l
    /\ heap (transform 2%positive sample_fitted_world).1 !! l = Some out
    /\ get_col out "hour" = Some [CInt 11; CInt 16; CInt 21]
    /\ get_col out "is_afternoon" = Some [CInt 0; CInt 1; CInt 0]
    /\ get_col out "is_evening" = Some [CInt 0; CInt 0; CInt 1].
Proof.
  eexists _, _. split; [vm_compute; reflexivity|].
  split; [vm_compute; reflexivity|]. repeat split.
Qed.

(** ** Zone-pair features *)

(** After [fit] no key of [zone_pair_stats] is a zone pair, so every
    lookup of a pair misses and the feature takes its default. *)
Lemma zone_pair_value_default (e : FeatureEngineer) (field : string) (g : cell)
      (p d : list cell) (i : nat) :
  (forall a b, zone_pair_stats e !! KTuple a b = None) ->
  zone_pair_value e field g p d i = g.
Proof.
  intros H. unfold zone_pair_value, key2. rewrite H. simpl.
  now rewrite lookup_empty.
Qed.

(** For every engineer whose zone-pair statistics were stored by [fit]
    and every trip frame, seen pairs or not: the three zone-pair columns
    of the result hold the global mean, the global standard deviation
    and 0 in every row. *)
Lemma zone_pair_columns_after_fit (w0 w1 w : World) (train df : loc) (f : DataFrame)
      (g gs : cell) :
  fit train w0 = (w1, inr tt) ->
  zone_pair_stats (self w) = zone_pair_stats (self w1) ->
  well_fitted (self w) = true ->
  global_mean (feature_stats (self w)) = Some g ->
  global_std (feature_stats (self w)) = Some gs ->
  heap w !! df = Some f ->
  trip_frame f = true ->
  forallb (keeps (self w)) ["zone_pair_mean"; "zone_pair_std"; "zone_pair_count"] = true ->
  exists w' l out,
    transform df w = (w', inr l)
    /\ heap w' !! l = Some out
    /\ get_col out "zone_pair_mean" = Some (map (fun _ => g) (seq 0 (nrows f)))
    /\ get_col out "zone_pair_std" = Some (map (fun _ => gs) (seq 0 (nrows f)))
    /\ get_col out "zone_pair_count" = Some (map (fun _ => CInt 0) (seq 0 (nrows f))).
Proof.
  intros Hfit Hz He Hg Hgs Hdf Hf Hk.
  destruct (fit_run w0 w1 train Hfit) as (_ & _ & _ & f0 & g0 & v0 & _ & _ & Hzp & _).
  assert (Hnt : forall a b, zone_pair_stats (self w) !! KTuple a b = None).
  { intros a b. rewrite Hz, Hzp. apply agg_to_dict_no_tuple. }
  destruct (transform_trip (self w) f He Hf)
    as (vs & d & out & Heng & _ & Hout & _ & _ & _ & Hvs & _ & Hal).
  destruct (transform_returns w df f out He Hdf Hout) as (w' & l & Hr & Hl & _).
  destruct Heng as (_ & Hzone & _).
  destruct (trip_frame_spec f Hf) as (_ & _ & Hkey & _).
  destruct (Hkey "pickup_zone") as (p & Hp); [simpl; tauto|].
  destruct (Hkey "dropoff_zone") as (q & Hq); [simpl; tauto|].
  destruct (Hzone g gs p q) as (Im & Is & Ic); try assumption.
  { unfold stat. now rewrite Hg. }
  { unfold stat. now rewrite Hgs. }
  simpl in Hk. repeat (apply andb_true_iff in Hk as [? Hk]).
  assert (X : forall fld c, map (zone_pair_value (self w) fld c p q) (seq 0 (nrows f))
                            = map (fun _ => c) (seq 0 (nrows f))).
  { intros fld c. apply map_ext. intros i. now apply zone_pair_value_default. }
  rewrite X in Im, Is, Ic.
  exists w', l, out. split; [exact Hr|]. split; [exact Hl|].
  split; [eapply kept_column; eauto|]. split; eapply kept_column; eauto.
Qed.

(** C1.  The training frame holds one trip for the pair (0, 1), lasting
    10 minutes, and one for (2, 3), lasting 20.  At fit time the per-pair
    mean of (0, 1) is 10 and its count is 1, and the global mean is 15.
    The frame returned for the same two trips nevertheless has
    zone_pair_mean = 15 (the global mean) and zone_pair_count = 0 in both
    rows: the fallbacks are used for pairs that were seen. *)
Theorem seen_pairs_get_the_fallbacks :
  exists g l out,
    groupby2 sample_training "pickup_zone" "dropoff_zone" "actual_duration_minutes" = inr g
    /\ agg_mean <$> (g !! key2 (CInt 0) (CInt 1)) = Some (CFloat 10)
    /\ agg_count <$> (g !! key2 (CInt 0) (CInt 1)) = Some (CInt 1)
    /\ global_mean (feature_stats (self sample_fitted_world)) = Some (CFloat 15)
    /\ (fit_transform 1%positive sample_world).2 = inr l
    /\ heap sample_fitted_world !! l = Some out
    /\ get_col out "pickup_zone" = Some [CInt 0; CInt 2]
    /\ get_col out "dropoff_zone" = Some [CInt 1; CInt 3]
    /\ get_col out "zone_pair_mean" = Some [CFloat 15; CFloat 15]
    /\ get_col out "zone_pair_count" = Some [CInt 0; CInt 0].
Proof.
  eexists _, _, _.
  split; [reflexivity|].
  split; [vm_compute; reflexivity|]. split; [vm_compute; reflexivity|].
  split; [vm_compute; reflexivity|]. split; [vm_compute; reflexivity|].
  split; [vm_compute; reflexivity|]. repeat split.
Qed.

(** ** The request row of [predict] *)

(** The frame [predict] builds for a request is a trip frame, so
    [transform] accepts it, and the decomposition reads from it the
    distance and the two flags of [trip_of]. *)
Lemma input_data_is_trip_frame (cfg : Config) (pickup dropoff request_time : Z) :
  grid_size cfg <> 0 ->
  exists f trip,
    ETAPredictor.input_data cfg pickup dropoff request_time = inr f
    /\ trip_frame f = true
    /\ ETAPredictor.trip_of cfg pickup dropoff request_time = inr trip
    /\ row_get (row_at f 0) "dubai_distance" = inr (CInt (ETAPredictor.dubai_distance trip))
    /\ row_get (row_at f 0) "is_rush_hour" = inr (CBool (ETAPredictor.is_rush_hour trip))
    /\ (CBool <$> ETAPredictor.is_friday_prayer trip)
       = assoc "is_friday_prayer" (row_at f 0)
    /\ row_get (row_at f 0) "weather" = inr (CStr "clear").
Proof.
  intros Hg. apply Z.eqb_neq in Hg.
  unfold ETAPredictor.input_data, ETAPredictor.trip_of,
    ETAPredictor._calculate_dubai_distance.
  rewrite Hg. cbn [rbind]. eexists _, _. repeat split.
Qed.

(* ================================================================== *)
(** * Further properties of the configuration look-up                 *)
(* ================================================================== *)

Lemma split_nonempty (sep : ascii) (s : string) : split sep s <> [].
Proof.
  destruct s as [|c s]; simpl; [discriminate|].
  destruct (Ascii.eqb c sep); [discriminate|].
  destruct (split sep s); discriminate.
Qed.

Lemma split_app (sep : ascii) (p q : string) :
  split sep (p +:+ String sep q) = split sep p ++ split sep q.
Proof.
  induction p as [|c p IH]; simpl.
  - now rewrite Ascii.eqb_refl.
  - destruct (Ascii.eqb c sep); [now rewrite IH|].
    rewrite IH. pose proof (split_nonempty sep p) as Hp.
    destruct (split sep p); [congruence | reflexivity].
Qed.

Lemma split_no_dot (s : string) : no_dot s = true -> split "."%char s = [s].
Proof.
  induction s as [|c s IH]; simpl; [reflexivity|].
  intros H. apply andb_true_iff in H as [Hc Hs].
  apply negb_true_iff in Hc. rewrite Hc, (IH Hs). reflexivity.
Qed.

Lemma split_head_no_dot (s : string) :
  exists w ws, split "."%char s = w :: ws /\ no_dot w = true
               /\ (no_dot s = false -> w <> s).
Proof.
  induction s as [|c s (w & ws & E & Hw & Hne)]; simpl.
  - exists EmptyString, []. repeat split. discriminate.
  - destruct (Ascii.eqb c ".") eqn:Ec.
    + exists EmptyString, (split "."%char s). repeat split. discriminate.
    + rewrite E. exists (String c w), ws. simpl. rewrite Ec, Hw.
      repeat split. intros H X. injection X as X. now apply Hne.
Qed.

Lemma lookup_path_app (k1 k2 : list string) (v : yaml) :
  Config.lookup_path (k1 ++ k2) v
  = match Config.lookup_path k1 v with
    | Some u => Config.lookup_path k2 u
    | None => None
    end.
Proof.
  revert v. induction k1 as [|k k1 IH]; intros v; simpl; [reflexivity|].
  destruct v; try reflexivity.
  destruct (assoc k items); [apply IH | reflexivity].
Qed.

(** X1.  [get] follows a dotted path section by section: looking up
    ["p.q"] gives the default when [p] does not lead to a value, and
    otherwise is the look-up of [q] in the value that [p] leads to. *)
Theorem get_dotted_path (config : yaml) (p q : string) (default : yaml) :
  Config.get config (p +:+ "." +:+ q) default
  = match Config.lookup_path (split "."%char p) config with
    | Some section => Config.get section q default
    | None => default
    end.
Proof.
  unfold Config.get. cbn zeta.
  change ("." +:+ q) with (String "."%char q).
  rewrite split_app, lookup_path_app.
  now destruct (Config.lookup_path (split "."%char p) config).
Qed.

(** X2.  An item stored at the top level under the key [k] is read back
    by [get] when [k] contains no dot; when [k] contains a dot the item
    is invisible to [get], which answers as if it were not there. *)
Theorem get_top_level_item (k : string) (v : yaml) (items : list (string * yaml))
        (default : yaml) :
  Config.get (YDict ((k, v) :: items)) k default
  = if no_dot k then v else Config.get (YDict items) k default.
Proof.
  unfold Config.get. cbn zeta. destruct (no_dot k) eqn:E.
  - rewrite (split_no_dot k E). simpl. now rewrite String.eqb_refl.
  - destruct (split_head_no_dot k) as (w & ws & -> & _ & Hne).
    simpl. specialize (Hne E).
    assert (X : String.eqb k w = false) by (apply String.eqb_neq; congruence).
    now rewrite X.
Qed.

(** X3.  Each of the four section properties agrees with [get] where it
    returns: it yields the value that [get] yields for the section name.
    Where [get] falls back to the default the property raises, a
    KeyError naming the section when the document is a mapping and a
    TypeError (for the document's type) when it is not. *)
Theorem section_properties_and_get (config : yaml) (default : yaml) :
  Forall (fun an : (yaml -> Config.subscript_error + yaml) * string =>
            match an.1 config with
            | inr v => Config.lookup_path [an.2] config = Some v
                       /\ Config.get config an.2 default = v
            | inl e => Config.lookup_path [an.2] config = None
                       /\ Config.get config an.2 default = default
                       /\ e = match config with
                              | YDict _ => Config.SubscriptKeyError an.2
                              | _ => Config.SubscriptTypeError (type_name config)
                              end
            end)
         [(Config.data_config, "data"); (Config.zones_config, "zones");
          (Config.traffic_config, "traffic"); (Config.model_config, "model")].
Proof.
  repeat constructor; cbn [fst snd];
    unfold Config.data_config, Config.zones_config, Config.traffic_config,
      Config.model_config, Config.section, Config.get; cbn [split Ascii.eqb Bool.eqb];
    destruct config; cbn [Config.lookup_path]; try (repeat split; reflexivity);
    match goal with |- context [assoc ?n ?l] => destruct (assoc n l) end;
    repeat split; reflexivity.
Qed.

(** X4.  [_init_params] reads the six tunable parameters from the
    [model.xgboost] section.  Without such a section all six take their
    defaults; when the section is a mapping each parameter is the
    section's item or its default, while [objective] and [n_jobs] are
    fixed; when the path leads to anything else (an empty [xgboost:]
    entry loads as [None]) the call raises an AttributeError, because
    [get] returns the stored value rather than the default. *)
Theorem init_params_from_config (config : yaml) :
  match Config.lookup_path ["model"; "xgboost"] config with
  | None =>
      AdvancedModelParams._init_params config
      = inr [("objective", YStr "reg:squarederror"); ("n_estimators", YInt 200);
             ("max_depth", YInt 8); ("learning_rate", YFloat float_0_1);
             ("subsample", YFloat float_0_8); ("colsample_bytree", YFloat float_0_8);
             ("random_state", YInt 42); ("n_jobs", YInt (-1))]
  | Some (YDict items) =>
      exists params,
        AdvancedModelParams._init_params config = inr params
        /\ map fst params
           = ["objective"; "n_estimators"; "max_depth"; "learning_rate"; "subsample";
              "colsample_bytree"; "random_state"; "n_jobs"]
        /\ assoc "objective" params = Some (YStr "reg:squarederror")
        /\ assoc "n_jobs" params = Some (YInt (-1))
        /\ Forall (fun nd : string * yaml =>
                     assoc nd.1 params = Some (default nd.2 (assoc nd.1 items)))
                  [("n_estimators", YInt 200); ("max_depth", YInt 8);
                   ("learning_rate", YFloat float_0_1); ("subsample", YFloat float_0_8);
                   ("colsample_bytree", YFloat float_0_8); ("random_state", YInt 42)]
  | Some v =>
      AdvancedModelParams._init_params config
      = inl (AttributeError ("'" +:+ type_name v +:+ "' object has no attribute 'get'"))
  end.
Proof.
  unfold AdvancedModelParams._init_params, Config.get.
  change (split "."%char "model.xgboost") with ["model"; "xgboost"].
  cbn zeta.
  destruct (Config.lookup_path ["model"; "xgboost"] config) as [v|]; [|reflexivity].
  destruct v; try reflexivity.
  eexists. split; [reflexivity|]. cbn [dict_get rbind].
  split; [reflexivity|]. split; [reflexivity|]. split; [reflexivity|].
  repeat constructor; cbn [fst snd assoc String.eqb Ascii.eqb Bool.eqb];
    match goal with |- context [assoc ?n ?l] => destruct (assoc n l) end; reflexivity.
Qed.

(* ================================================================== *)
(** * Further properties of the zone model                            *)
(* ================================================================== *)

Lemma distance_value (cfg : Config) (a b : Z) :
  grid_size cfg <> 0 ->
  DubaiDataGenerator.calculate_dubai_distance cfg a b
  = inr (Z.abs (a / grid_size cfg - b / grid_size cfg)
         + Z.abs (a mod grid_size cfg - b mod grid_size cfg)).
Proof.
  intros Hg. unfold DubaiDataGenerator.calculate_dubai_distance.
  apply Z.eqb_neq in Hg. now rewrite Hg.
Qed.

(** X5.  For every non-zero grid size the distance of the generator
    (and of the predictor, which computes the same) is a metric on the
    integers: it is never negative, it is zero exactly between a zone
    and itself, it is symmetric, and it satisfies the triangle
    inequality. *)
Theorem dubai_distance_is_a_metric (cfg : Config) (a b c : Z) :
  grid_size cfg <> 0 ->
  exists dab dba dbc dac,
    DubaiDataGenerator.calculate_dubai_distance cfg a b = inr dab
    /\ DubaiDataGenerator.calculate_dubai_distance cfg b a = inr dba
    /\ DubaiDataGenerator.calculate_dubai_distance cfg b c = inr dbc
    /\ DubaiDataGenerator.calculate_dubai_distance cfg a c = inr dac
    /\ ETAPredictor._calculate_dubai_distance cfg a b = inr dab
    /\ 0 <= dab
    /\ (dab = 0 <-> a = b)
    /\ dba = dab
    /\ dac <= dab + dbc.
Proof.
  intros Hg.
  eexists _, _, _, _.
  split; [now apply distance_value|]. split; [now apply distance_value|].
  split; [now apply distance_value|]. split; [now apply distance_value|].
  split; [now apply (distance_value cfg a b)|].
  pose proof (Z.div_mod a (grid_size cfg) Hg) as Ha.
  pose proof (Z.div_mod b (grid_size cfg) Hg) as Hb.
  set (g := grid_size cfg) in *.
  set (ra := a / g) in *. set (rb := b / g) in *. set (rc := c / g).
  set (ca := a mod g) in *. set (cb := b mod g) in *. set (cc := c mod g).
  split; [lia|]. split; [|split; lia].
  split.
  - intros H. assert (ra = rb) by lia. assert (ca = cb) by lia. congruence.
  - intros ->. subst ra rb ca cb. lia.
Qed.

Lemma dubai_distance_is_a_metric_witness :
  DubaiDataGenerator.calculate_dubai_distance sample_config 0 55 = inr 10
  /\ DubaiDataGenerator.calculate_dubai_distance sample_config 55 99 = inr 8
  /\ DubaiDataGenerator.calculate_dubai_distance sample_config 0 99 = inr 18.
Proof.
  destruct (dubai_distance_is_a_metric sample_config 0 55 99)
    as (dab & dba & dbc & dac & H1 & _ & H3 & H4 & _); [discriminate|].
  vm_compute in H1, H3, H4.
  injection H1 as <-. injection H3 as <-. injection H4 as <-.
  repeat split; reflexivity.
Defined.

(** X6.  On a grid of side [g] the zones [0 .. g*g - 1] have coordinates
    inside the grid from which the zone number is recovered, two of them
    are never further apart than [2 * (g - 1)], and the two opposite
    corners are exactly that far apart. *)
Theorem dubai_distance_within_grid (cfg : Config) (a b : Z) :
  0 < grid_size cfg ->
  0 <= a < grid_size cfg * grid_size cfg ->
  0 <= b < grid_size cfg * grid_size cfg ->
  0 <= zone_row cfg a < grid_size cfg
  /\ 0 <= zone_col cfg a < grid_size cfg
  /\ a = zone_row cfg a * grid_size cfg + zone_col cfg a
  /\ (exists d, DubaiDataGenerator.calculate_dubai_distance cfg a b = inr d
                /\ 0 <= d <= 2 * (grid_size cfg - 1))
  /\ DubaiDataGenerator.calculate_dubai_distance cfg 0 (grid_size cfg * grid_size cfg - 1)
     = inr (2 * (grid_size cfg - 1)).
Proof.
  intros Hg Ha Hb. unfold zone_row, zone_col.
  assert (Hg' : grid_size cfg <> 0) by lia.
  set (g := grid_size cfg) in *.
  pose proof (Z.div_mod a g Hg') as Da. pose proof (Z.mod_pos_bound a g Hg) as Ma.
  pose proof (Z.div_mod b g Hg') as Db. pose proof (Z.mod_pos_bound b g Hg) as Mb.
  assert (Ra : 0 <= a / g < g).
  { split; [apply Z.div_pos; lia | apply Z.div_lt_upper_bound; lia]. }
  assert (Rb : 0 <= b / g < g).
  { split; [apply Z.div_pos; lia | apply Z.div_lt_upper_bound; lia]. }
  split; [exact Ra|]. split; [exact Ma|]. split; [lia|]. split.
  - eexists. split; [now apply distance_value|]. fold g. lia.
  - rewrite distance_value by exact Hg'. fold g.
    assert (Q1 : (g * g - 1) / g = g - 1).
    { symmetry. apply (Z.div_unique_pos _ _ _ (g - 1)); lia. }
    assert (Q2 : (g * g - 1) mod g = g - 1).
    { symmetry. apply (Z.mod_unique_pos _ _ (g - 1)); lia. }
    rewrite Q1, Q2, Z.div_0_l, Z.mod_0_l by exact Hg'.
    f_equal. lia.
Qed.

Lemma dubai_distance_within_grid_witness :
  exists d, DubaiDataGenerator.calculate_dubai_distance sample_config 37 82 = inr d
            /\ 0 <= d <= 18.
Proof.
  destruct (dubai_distance_within_grid sample_config 37 82)
    as (_ & _ & _ & H & _); [reflexivity | split; reflexivity || discriminate
                             | split; reflexivity || discriminate |].
  exact H.
Defined.

Lemma last_listing_fold (z : Z) (es : list (string * zone_data)) (r : option string) :
  fold_left (fun r e => if listed z e.2 then Some e.1 else r) es r
  = match last (listings es z) with
    | Some e => Some e.1
    | None => r
    end.
Proof.
  revert r. induction es as [|e es IH]; intros r; simpl; [reflexivity|].
  rewrite IH. unfold listings. simpl. destruct (listed z e.2) eqn:E; [|reflexivity].
  fold (listings es z). destruct (listings es z) as [|x l] eqn:L; [reflexivity|].
  change (last (e :: x :: l)) with (last (x :: l)).
  destruct (last (x :: l)) eqn:La; [reflexivity|].
  apply last_None in La. discriminate.
Qed.

Lemma first_listing_head (z : Z) (es : list (string * zone_data)) :
  first_listing es z = fst <$> head (listings es z).
Proof.
  unfold first_listing, listings.
  induction es as [|e es IH]; simpl; [reflexivity|].
  destruct (listed z e.2); [reflexivity | exact IH].
Qed.

(** C9 (as amended).  No zone operation raises an InvalidZoneError, and
    the distance and the predictor's zone-type lookup have no failure
    mode for zone ids at all.  With a non-zero grid size the distance of
    ANY two integers, inside the configured range or not, is returned and
    equals the Manhattan distance of the derived coordinates
    (row = id // grid_size, col = id % grid_size), in the generator and
    in the predictor alike; [_get_zone_type] answers for every integer
    with the residential default or a configured type, and with
    ['residential'] for an id that no section lists.  The one operation
    that fails on a zone id is the generator's table lookup
    [self.zone_types[zone]]: it raises [KeyError(zone)] exactly for an id
    outside [range(n_zones)] that no section lists. *)
Theorem zone_operations_total (cfg : Config) (a b : Z) :
  grid_size cfg <> 0 ->
  DubaiDataGenerator.calculate_dubai_distance cfg a b
  = inr (Z.abs (zone_row cfg a - zone_row cfg b)
         + Z.abs (zone_col cfg a - zone_col cfg b))
  /\ ETAPredictor._calculate_dubai_distance cfg a b
     = inr (Z.abs (zone_row cfg a - zone_row cfg b)
            + Z.abs (zone_col cfg a - zone_col cfg b))
  /\ (ETAPredictor._get_zone_type cfg a = "residential"
      \/ In (ETAPredictor._get_zone_type cfg a) (map fst (zones cfg)))
  /\ (listings (zones cfg) a = [] -> ETAPredictor._get_zone_type cfg a = "residential")
  /\ match DubaiDataGenerator.zone_types_getitem cfg a with
     | inr zone_type =>
         listings (zones cfg) a <> [] \/ 0 <= a < n_zones cfg
     | inl e =>
         e = KeyError (pretty a)
         /\ listings (zones cfg) a = [] /\ ~ 0 <= a < n_zones cfg
     end.
Proof.
  intros Hg. apply Z.eqb_neq in Hg.
  unfold DubaiDataGenerator.calculate_dubai_distance,
    ETAPredictor._calculate_dubai_distance, zone_row, zone_col.
  rewrite Hg. split; [reflexivity|]. split; [reflexivity|].
  split; [apply get_zone_type_from_total|]. split.
  - intros L. rewrite get_zone_type_lookup, first_listing_head, L. reflexivity.
  - unfold DubaiDataGenerator.zone_types_getitem.
    rewrite define_zone_types_lookup. unfold last_listing.
    rewrite last_listing_fold.
    destruct (listings (zones cfg) a) as [|x l] eqn:L.
    + simpl. destruct (Z.leb_spec 0 a); destruct (Z.ltb_spec a (n_zones cfg)); simpl;
        first [right; lia | split; [reflexivity|]; split; [reflexivity|]; lia].
    + destruct (last (x :: l)) eqn:La; [left; discriminate|].
      apply last_None in La. discriminate.
Qed.

Lemma zone_operations_total_witness :
  DubaiDataGenerator.calculate_dubai_distance sample_config 0 99 = inr 18
  /\ ETAPredictor._calculate_dubai_distance sample_config 0 250 = inr 25.
Proof.
  assert (Hg : grid_size sample_config <> 0) by discriminate.
  split.
  - exact (proj1 (zone_operations_total sample_config 0 99 Hg)).
  - exact (proj1 (proj2 (zone_operations_total sample_config 0 250 Hg))).
Defined.

(** C9, counterexample.  Zones 250 and -1 lie outside the 100 configured
    zones; neither the distance nor the predictor's lookup fails on
    them, and the generator's table lookup fails with a KeyError: no
    InvalidZoneError is raised. *)
Lemma out_of_range_zone_accepted :
  DubaiDataGenerator.calculate_dubai_distance sample_config 0 250 = inr 25
  /\ ETAPredictor._calculate_dubai_distance sample_config (-1) 0 = inr 10
  /\ ETAPredictor._get_zone_type sample_config 250 = "residential"
  /\ DubaiDataGenerator.zone_types_getitem sample_config 250 = inl (KeyError "250").
Proof.
  split; [reflexivity|]. split; [reflexivity|]. split; [reflexivity|].
  vm_compute. reflexivity.
Qed.

(** X7.  Both components resolve a zone through the sections of [zones]
    that list it.  The generator's table holds, for a listed zone, the
    type of the last such section, and for an unlisted zone
    ['residential'] when the zone is one of [range(n_zones)] and nothing
    otherwise; in particular every zone of [range(n_zones)] has an
    entry.  The predictor answers the type of the first such section,
    and ['residential'] for an unlisted zone whatever its number. *)
Theorem zone_type_by_listings (cfg : Config) (z : Z) :
  DubaiDataGenerator._define_zone_types cfg !! z
  = match last (listings (zones cfg) z) with
    | Some e => Some e.1
    | None => if (0 <=? z) && (z <? n_zones cfg) then Some "residential" else None
    end
  /\ ETAPredictor._get_zone_type cfg z
     = match head (listings (zones cfg) z) with
       | Some e => e.1
       | None => "residential"
       end
  /\ ((0 <=? z) && (z <? n_zones cfg) = true ->
      is_Some (DubaiDataGenerator._define_zone_types cfg !! z)).
Proof.
  assert (G : DubaiDataGenerator._define_zone_types cfg !! z
              = match last (listings (zones cfg) z) with
                | Some e => Some e.1
                | None => if (0 <=? z) && (z <? n_zones cfg)
                          then Some "residential" else None
                end).
  { rewrite define_zone_types_lookup. unfold last_listing.
    rewrite last_listing_fold. now destruct (last (listings (zones cfg) z)). }
  split; [exact G|]. split.
  - rewrite get_zone_type_lookup, first_listing_head.
    now destruct (head (listings (zones cfg) z)).
  - intros H. rewrite G, H. now destruct (last (listings (zones cfg) z)).
Qed.

(** X8.  For a zone that at most one section of [zones] lists, the
    generator and the predictor agree on the type: the generator's
    look-up with the ['residential'] default (as
    [calculate_base_duration] performs it) equals the predictor's
    answer, and for a zone of [range(n_zones)] the table entry itself
    (as [generate_dataset] reads it) is that type. *)
Theorem zone_types_agree_when_listed_once (cfg : Config) (z : Z) :
  (length (listings (zones cfg) z) <= 1)%nat ->
  zone_type_or_residential cfg z = ETAPredictor._get_zone_type cfg z
  /\ ((0 <=? z) && (z <? n_zones cfg) = true ->
      DubaiDataGenerator._define_zone_types cfg !! z
      = Some (ETAPredictor._get_zone_type cfg z)).
Proof.
  intros H. unfold zone_type_or_residential.
  rewrite define_zone_types_lookup, get_zone_type_lookup, first_listing_head.
  unfold last_listing. rewrite last_listing_fold.
  destruct (listings (zones cfg) z) as [|e [|e' l]]; simpl in *; [| |lia].
  - split; [now destruct ((0 <=? z) && (z <? n_zones cfg))|]. now intros ->.
  - split; reflexivity.
Qed.

Lemma zone_types_agree_when_listed_once_witness :
  zone_type_or_residential sample_config 89 = "coastal"
  /\ zone_type_or_residential sample_config 250 = "residential".
Proof.
  split.
  - rewrite (proj1 (zone_types_agree_when_listed_once sample_config 89
                      ltac:(vm_compute; lia))).
    reflexivity.
  - rewrite (proj1 (zone_types_agree_when_listed_once sample_config 250
                      ltac:(vm_compute; lia))).
    reflexivity.
Defined.

(* ================================================================== *)
(** * Further properties of the chronological split                   *)
(* ================================================================== *)




(* ================================================================== *)
(** * Further properties of the feature engineer                      *)
(* ================================================================== *)

(** ** [fit] and its failures *)

(** X10.  [fit] never touches a frame and never changes the frozen
    training columns.  When it returns, the engineer is marked fitted;
    when it raises, the flag is what it was before the call, so an
    engineer that was fitted stays usable and one that was not stays
    unusable. *)
Theorem fit_frame_and_flag (w : World) (df : loc) :
  heap (fit df w).1 = heap w
  /\ training_columns (self (fit df w).1) = training_columns (self w)
  /\ match (fit df w).2 with
     | inr _ => fitted (self (fit df w).1) = true
     | inl _ => fitted (self (fit df w).1) = fitted (self w)
     end.
Proof.
  unfold fit, bind, deref, lift, modify_self.
  destruct (heap w !! df) as [f|]; [|repeat split].
  destruct (groupby2 f "pickup_zone" "dropoff_zone" "actual_duration_minutes");
    [repeat split|].
  destruct (groupby1 f "hour" "actual_duration_minutes"); [repeat split|].
  destruct (groupby1 f "day_of_week" "actual_duration_minutes"); [repeat split|].
  destruct (groupby2 f "zone_type_pickup" "zone_type_dropoff" "actual_duration_minutes");
    [repeat split|].
  destruct (rbind (column f "actual_duration_minutes") numeric_column); repeat split.
Qed.

(** X11.  [fit] is not atomic.  On a frame from which the zone-pair
    statistics can be computed but which has no [hour] column the call
    raises [KeyError('hour')] after it has replaced the zone-pair
    statistics: the engineer is left with the new zone-pair statistics
    next to the old feature statistics, flag and training columns. *)
Theorem fit_partial_update (w : World) (df : loc) (f : DataFrame)
        (g : gmap pykey (list (option Q))) :
  heap w !! df = Some f ->
  groupby2 f "pickup_zone" "dropoff_zone" "actual_duration_minutes" = inr g ->
  get_col f "hour" = None ->
  fit df w
  = (mkWorld (mkEngineer (feature_stats (self w)) (agg_to_dict g)
                         (training_columns (self w)) (fitted (self w)))
             (heap w),
     inl (KeyError "hour")).
Proof.
  intros Hf Hg Hh. unfold fit, bind, deref, lift, modify_self.
  rewrite Hf, Hg. cbn [self heap]. unfold groupby1, column. rewrite Hh. reflexivity.
Qed.

Lemma fit_partial_update_witness :
  let w := mkWorld init_engineer {[ 1%positive := frame_without_hour ]} in
  (fit 1%positive w).2 = inl (KeyError "hour")
  /\ zone_pair_stats (self (fit 1%positive w).1) <> zone_pair_stats (self w)
  /\ fitted (self (fit 1%positive w).1) = false.
Proof.
  cbn zeta.
  assert (G : exists g, groupby2 frame_without_hour "pickup_zone" "dropoff_zone"
                                 "actual_duration_minutes" = inr g)
    by (eexists; reflexivity).
  destruct G as (g & Hg).
  assert (Hf : heap (mkWorld init_engineer {[ 1%positive := frame_without_hour ]})
               !! 1%positive = Some frame_without_hour) by (vm_compute; reflexivity).
  rewrite (fit_partial_update (mkWorld init_engineer {[ 1%positive := frame_without_hour ]})
             1%positive frame_without_hour g Hf Hg eq_refl).
  cbn [fst snd self zone_pair_stats fitted init_engineer].
  split; [reflexivity|]. split; [|reflexivity].
  intros X.
  assert (Y : agg_to_dict g !! kstr "mean" = (∅ : gmap pykey (gmap pykey cell)) !! kstr "mean")
    by (now rewrite X).
  unfold agg_to_dict in Y.
  rewrite lookup_insert_ne, lookup_insert_ne, lookup_insert_eq, lookup_empty in Y
    by discriminate.
  discriminate Y.
Defined.

(** ** [transform] after [fit_transform] *)

Lemma add_missing_present (cols : list string) (d : DataFrame) :
  (forall c, In c cols -> has_col d c = true) -> add_missing cols d = (d, inr tt).
Proof.
  induction cols as [|c cols IH]; intros H; simpl; [reflexivity|].
  rewrite (bind_ok get_state _ d d d eq_refl). cbv beta.
  rewrite (H c (or_introl eq_refl)).
  rewrite (bind_ok (ret tt) _ d d tt eq_refl).
  apply IH. intros x Hx. apply H. now right.
Qed.

Lemma assoc_In_NoDup {V} (n : string) (v : V) (l : list (string * V)) :
  NoDup (map fst l) -> In (n, v) l -> assoc n l = Some v.
Proof.
  induction l as [|[m c] l IH]; simpl; intros Hnd Hin; [contradiction|].
  apply NoDup_cons in Hnd as [Hm Hnd].
  destruct Hin as [Hin|Hin].
  - injection Hin as -> ->. now rewrite String.eqb_refl.
  - destruct (String.eqb m n) eqn:Emn.
    + apply String.eqb_eq in Emn. subst m. exfalso. apply Hm.
      apply list_elem_of_In. apply in_map_iff. now exists (n, v).
    + now apply IH.
Qed.

Lemma select_all (F : DataFrame) :
  NoDup (col_names F) -> select F (col_names F) = inr F.
Proof.
  intros Hnd. unfold select.
  assert (G : forall l,
             NoDup (map fst l) -> (forall nc, In nc l -> In nc (columns F)) ->
             mapM (fun n => match List.filter (fun nc => String.eqb nc.1 n) (columns F) with
                            | [] => inl (KeyError n)
                            | x => inr x
                            end) (map fst l)
             = inr (map (fun nc => [nc]) l)).
  { induction l as [|[n v] l IH]; intros Hl Hin; simpl; [reflexivity|].
    apply NoDup_cons in Hl as [Hn Hl].
    rewrite (filter_by_name n (columns F) Hnd).
    assert (E : assoc n (columns F) = Some v).
    { apply assoc_In_NoDup; [exact Hnd|]. apply Hin. now left. }
    rewrite E. simpl. rewrite IH; [reflexivity | exact Hl |].
    intros nc Hnc. apply Hin. now right. }
  unfold col_names. rewrite (G (columns F) Hnd (fun _ H => H)). simpl.
  assert (C : forall l : list (string * list cell), concat (map (fun nc => [nc]) l) = l).
  { induction l as [|x l IH]; simpl; [reflexivity | now rewrite IH]. }
  rewrite C. now destruct F.
Qed.

Lemma encoded_frame_NoDup (f : DataFrame) (vs : list (string * list cell)) (d : DataFrame) :
  trip_frame f = true ->
  map fst vs = engineered_names (has_col f "is_friday_prayer") ->
  get_dummies (set_cols f vs) categorical_cols = inr d ->
  NoDup (col_names d).
Proof.
  intros Hf Hnames Hd.
  destruct (trip_frame_spec f Hf) as (_ & _ & _ & Hcat & _ & Hnd & Hraw).
  destruct (engineered_names_spec (has_col f "is_friday_prayer")) as [_ Hplain].
  rewrite <- Hnames in Hplain.
  destruct (get_dummies_run (set_cols f vs)) as (d' & Hd' & _ & Hdnd & _).
  { intros n Hin. rewrite get_col_set_cols_other; [now apply Hcat|].
    rewrite Hnames. now apply categorical_not_engineered. }
  { now apply NoDup_set_cols. }
  { intros n Hin. apply col_names_set_cols in Hin as [Hin|Hin].
    - now apply Hraw.
    - now apply Hplain. }
  congruence.
Qed.

Lemma with_training_columns_same (e : FeatureEngineer) (cols : list string) :
  training_columns e = Some cols -> with_training_columns (Some cols) e = e.
Proof. destruct e. simpl. now intros ->. Qed.

(** Freezing the columns of what [transform] produced does not change
    what [transform] produces for the same frame. *)
Lemma transform_outcome_frozen (e : FeatureEngineer) (f out : DataFrame) :
  well_fitted e = true -> trip_frame f = true ->
  transform_outcome e f = inr out ->
  transform_outcome (with_training_columns (Some (col_names out)) e) f = inr out.
Proof.
  intros He Hf Hout.
  destruct (transform_trip e f He Hf)
    as (vs & d & out' & Heng & Hd & Hout' & _ & _ & _ & _ & _ & Hal).
  rewrite Hout in Hout'. injection Hout' as <-.
  destruct (training_columns e) as [cols|] eqn:Tc.
  - destruct Hal as [Hn _]. rewrite Hn, with_training_columns_same by exact Tc.
    exact Hout.
  - subst out.
    destruct (engineer_columns_run e f He Hf) as (vs' & Hrun & _).
    pose proof (encoded_frame_NoDup f vs d Hf (proj1 Heng) Hd) as Hnd.
    unfold transform_outcome. rewrite engineer_columns_training_columns.
    unfold transform_outcome in Hout. rewrite Tc in Hout.
    destruct (engineer_columns e f) as [s [x|[]]]; cbn [fst snd rbind] in *;
      [discriminate|].
    destruct (get_dummies s categorical_cols) as [x|d0]; cbn [rbind] in *;
      [discriminate|].
    injection Hout as ->. cbn [training_columns with_training_columns].
    rewrite add_missing_present.
    + cbn [fst snd rbind]. now apply select_all.
    + intros c Hc. now apply has_col_In.
Qed.

(** X12.  Transforming the training frame again after [fit_transform]
    reproduces the training matrix: with the statistics and column list
    that [fit_transform] left behind, [transform] of the same trips
    returns a frame equal to the one [fit_transform] returned. *)
Theorem transform_reproduces_training_frame (w w1 : World) (train l0 : loc)
        (f : DataFrame) :
  heap w !! train = Some f ->
  trip_frame f = true ->
  fit_transform train w = (w1, inr l0) ->
  exists out0,
    heap w1 !! l0 = Some out0
    /\ forall (w2 : World) (df : loc),
         self w2 = self w1 -> heap w2 !! df = Some f ->
         exists w3 l, transform df w2 = (w3, inr l) /\ heap w3 !! l = Some out0.
Proof.
  intros Hf Htrip H.
  destruct (fit_transform_inv w w1 train l0 H) as (wa & wb & out0 & Hfit & Htr & Hout0 & ->).
  destruct (fit_run w wa train Hfit) as (Hheap & Hwf & _).
  destruct (well_fitted_spec _ Hwf) as (Hfitted & _).
  assert (Hfa : heap wa !! train = Some f) by (now rewrite Hheap).
  destruct (transform_run wa train f Hfitted Hfa) as (h' & _ & Hr).
  destruct (transform_trip (self wa) f Hwf Htrip) as (vs & d & out & _ & _ & Hout & _).
  rewrite Hout in Hr. destruct Hr as (l & Hr & Hl & _).
  rewrite Hr in Htr. injection Htr as <- <-. cbn [heap self] in *.
  rewrite Hl in Hout0. injection Hout0 as <-.
  exists out. split; [exact Hl|].
  intros w2 df Hw2 Hdf. cbn [self] in Hw2.
  pose proof (transform_outcome_frozen (self wa) f out Hwf Htrip Hout) as Hfz.
  rewrite <- Hw2 in Hfz.
  assert (He : well_fitted (self w2) = true).
  { rewrite Hw2, well_fitted_training_columns. exact Hwf. }
  destruct (transform_returns w2 df f out He Hdf Hfz) as (w3 & l' & Hr3 & Hl3 & _).
  now exists w3, l'.
Qed.

Lemma transform_reproduces_training_frame_witness :
  exists out0 w3 l,
    heap sample_fitted_world !! 4%positive = Some out0
    /\ transform 1%positive sample_fitted_world = (w3, inr l)
    /\ heap w3 !! l = Some out0.
Proof.
  assert (Hf : heap sample_world !! 1%positive = Some sample_training)
    by (vm_compute; reflexivity).
  assert (Ht : trip_frame sample_training = true) by (vm_compute; reflexivity).
  destruct (transform_reproduces_training_frame sample_world sample_fitted_world
              1%positive 4%positive sample_training Hf Ht
              sample_fit_transform_run)
    as (out0 & H0 & Hlater).
  assert (Hf2 : heap sample_fitted_world !! 1%positive = Some sample_training)
    by (vm_compute; reflexivity).
  destruct (Hlater sample_fitted_world 1%positive eq_refl Hf2) as (w3 & l & Hr & Hl).
  exists out0, w3, l. split; [exact H0|]. split; [exact Hr | exact Hl].
Defined.

(** ** The columns handed to the models *)

Lemma feature_columns_run (w : World) (df : loc) (f : DataFrame)
        (cols : list string) :
  well_fitted (self w) = true ->
  training_columns (self w) = Some cols ->
  NoDup cols ->
  heap w !! df = Some f ->
  trip_frame f = true ->
  exists w' l out X,
    transform df w = (w', inr l)
    /\ heap w' !! l = Some out
    /\ get_feature_columns out
       = List.filter (fun col => negb (existsb (String.eqb col) exclude_cols)) cols
    /\ select out (get_feature_columns out) = inr X
    /\ col_names X = get_feature_columns out
    /\ nrows X = nrows f
    /\ (forall n, In n (col_names X) ->
                  ~ In n exclude_cols /\ In n cols /\ get_col X n = get_col out n).
Proof.
  intros He Hc Hnd Hdf Hf.
  destruct (transform_trip (self w) f He Hf)
    as (vs & d & out & _ & _ & Hout & _ & _ & Hn & _ & _ & Hal).
  rewrite Hc in Hal. destruct Hal as [Hnames Hget].
  destruct (transform_returns w df f out He Hdf Hout) as (w' & l & Hr & Hl & _).
  assert (Hfc : get_feature_columns out
                = List.filter (fun col => negb (existsb (String.eqb col) exclude_cols)) cols).
  { unfold get_feature_columns. now rewrite Hnames. }
  destruct (select_run out (get_feature_columns out)) as (X & Hsel & Hxn & Hxc & Hxg).
  { now rewrite Hnames. }
  { intros c Hin. rewrite Hfc in Hin. apply filter_In in Hin as [Hin _].
    rewrite (Hget c Hin). now destruct (get_col d c). }
  exists w', l, out, X.
  split; [exact Hr|]. split; [exact Hl|]. split; [exact Hfc|]. split; [exact Hsel|].
  split; [exact Hxc|]. split; [congruence|].
  intros n Hin. rewrite Hxc in Hin. pose proof Hin as Hin'.
  rewrite Hfc in Hin'. apply filter_In in Hin' as [Hcols Hex].
  split; [|split; [exact Hcols | now apply Hxg]].
  intros Hbad. apply negb_true_iff in Hex.
  assert (Y : existsb (String.eqb n) exclude_cols = true).
  { apply existsb_exists. exists n. split; [exact Hbad | apply String.eqb_refl]. }
  congruence.
Qed.

(** X13.  For an engineer with frozen, distinct training columns the
    list that [get_feature_columns] extracts from a transformed frame is
    the training columns without the five excluded labels, in their
    order: it is the same for every batch of trips.  Selecting these
    columns from the transformed frame ([X[feature_cols]], as [train],
    [predict] and [evaluate_all] do) never raises, and yields exactly
    these columns with one row for each trip. *)
Theorem feature_columns_after_transform (w : World) (df : loc) (f : DataFrame)
        (cols : list string) :
  well_fitted (self w) = true ->
  training_columns (self w) = Some cols ->
  NoDup cols ->
  heap w !! df = Some f ->
  trip_frame f = true ->
  exists w' l out X,
    transform df w = (w', inr l)
    /\ heap w' !! l = Some out
    /\ get_feature_columns out
       = List.filter (fun col => negb (existsb (String.eqb col) exclude_cols)) cols
    /\ select out (get_feature_columns out) = inr X
    /\ col_names X = get_feature_columns out
    /\ nrows X = nrows f
    /\ (forall n, In n (col_names X) ->
                  ~ In n exclude_cols /\ In n cols /\ get_col X n = get_col out n).
Proof. exact (feature_columns_run w df f cols). Qed.

Lemma feature_columns_after_transform_witness :
  exists w' l out X,
    transform 2%positive sample_fitted_world = (w', inr l)
    /\ heap w' !! l = Some out
    /\ select out (get_feature_columns out) = inr X
    /\ nrows X = 3%nat
    /\ ~ In "request_datetime" (col_names X).
Proof.
  assert (He : well_fitted (self sample_fitted_world) = true) by (vm_compute; reflexivity).
  assert (Hc : exists cols, training_columns (self sample_fitted_world) = Some cols
                            /\ NoDup cols).
  { eexists. split; [vm_compute; reflexivity|].
    apply (bool_decide_unpack _). vm_compute. exact I. }
  destruct Hc as (cols & Hc & Hnd).
  assert (Hdf : heap sample_fitted_world !! 2%positive = Some sample_batch)
    by (vm_compute; reflexivity).
  assert (Hf : trip_frame sample_batch = true) by (vm_compute; reflexivity).
  destruct (feature_columns_after_transform sample_fitted_world 2%positive sample_batch
              cols He Hc Hnd Hdf Hf)
    as (w' & l & out & X & Hr & Hl & _ & Hsel & _ & Hn & Hall).
  exists w', l, out, X.
  split; [exact Hr|]. split; [exact Hl|]. split; [exact Hsel|]. split; [exact Hn|].
  intros Hin. destruct (Hall _ Hin) as (Hex & _). apply Hex. simpl. tauto.
Defined.

Lemma raw_columns_run (w : World) (df : loc) (f : DataFrame) :
  well_fitted (self w) = true ->
  heap w !! df = Some f ->
  trip_frame f = true ->
  exists w' l out,
    transform df w = (w', inr l)
    /\ heap w' !! l = Some out
    /\ nrows out = nrows f
    /\ forall n v,
         get_col f n = Some v ->
         is_encoded categorical_cols n = false ->
         ~ In n (engineered_names (has_col f "is_friday_prayer")) ->
         keeps (self w) n = true ->
         get_col out n = Some v.
Proof.
  intros He Hdf Hf.
  destruct (transform_trip (self w) f He Hf)
    as (vs & d & out & Heng & _ & Hout & _ & _ & Hn & _ & Hother & Hal).
  destruct (transform_returns w df f out He Hdf Hout) as (w' & l & Hr & Hl & _).
  destruct (trip_frame_spec f Hf) as (_ & _ & _ & _ & _ & _ & Hraw).
  exists w', l, out. split; [exact Hr|]. split; [exact Hl|]. split; [exact Hn|].
  intros n v Hv Henc Hne Hk.
  apply (kept_column (self w) d out n v (repeat (CInt 0) (nrows f)) Hal Hk).
  rewrite Hother; [exact Hv | exact Henc | | now rewrite (proj1 Heng)].
  apply Hraw. unfold get_col in Hv. now apply assoc_Some_in in Hv.
Qed.

(** X14.  [transform] returns one row for each input row, and it carries
    over unchanged every input column that it keeps: a column other than
    the three encoded ones, not bearing the label of an engineered
    feature, and (once training columns are frozen) listed among
    them. *)
Theorem transform_keeps_rows_and_raw_columns (w : World) (df : loc) (f : DataFrame) :
  well_fitted (self w) = true ->
  heap w !! df = Some f ->
  trip_frame f = true ->
  exists w' l out,
    transform df w = (w', inr l)
    /\ heap w' !! l = Some out
    /\ nrows out = nrows f
    /\ forall n v,
         get_col f n = Some v ->
         is_encoded categorical_cols n = false ->
         ~ In n (engineered_names (has_col f "is_friday_prayer")) ->
         keeps (self w) n = true ->
         get_col out n = Some v.
Proof. exact (raw_columns_run w df f). Qed.

Lemma transform_keeps_rows_and_raw_columns_witness :
  exists w' l out,
    transform 2%positive sample_fitted_world = (w', inr l)
    /\ heap w' !! l = Some out
    /\ nrows out = 3%nat
    /\ get_col out "dubai_distance" = Some [CInt 1; CInt 1; CInt 1].
Proof.
  assert (He : well_fitted (self sample_fitted_world) = true) by (vm_compute; reflexivity).
  assert (Hdf : heap sample_fitted_world !! 2%positive = Some sample_batch)
    by (vm_compute; reflexivity).
  assert (Hf : trip_frame sample_batch = true) by (vm_compute; reflexivity).
  destruct (transform_keeps_rows_and_raw_columns sample_fitted_world 2%positive
              sample_batch He Hdf Hf)
    as (w' & l & out & Hr & Hl & Hn & Hall).
  exists w', l, out. split; [exact Hr|]. split; [exact Hl|]. split; [exact Hn|].
  apply Hall; [reflexivity | reflexivity | | vm_compute; reflexivity].
  intros Hin. simpl in Hin.
  repeat (destruct Hin as [Hin|Hin]; [discriminate Hin|]). exact Hin.
Defined.

(* ================================================================== *)
(** * Properties of the prediction pipeline                           *)
(* ================================================================== *)

Lemma NoDup_List_filter {A} (P : A -> bool) (l : list A) :
  NoDup l -> NoDup (List.filter P l).
Proof.
  induction l as [|x l IH]; simpl; intros H; [constructor|].
  apply NoDup_cons in H as [Hx Hl].
  destruct (P x); [|now apply IH].
  apply NoDup_cons. split; [|now apply IH].
  intros Hin. apply Hx. apply list_elem_of_In in Hin. apply list_elem_of_In.
  now apply filter_In in Hin as [Hin _].
Qed.

Lemma trip_of_input_row (cfg : Config) (pickup dropoff request_time : Z)
      (f : DataFrame) :
  ETAPredictor.input_data cfg pickup dropoff request_time = inr f ->
  trip_of_row (row_at f 0) = ETAPredictor.trip_of cfg pickup dropoff request_time.
Proof.
  unfold ETAPredictor.input_data, ETAPredictor.trip_of.
  destruct (ETAPredictor._calculate_dubai_distance cfg pickup dropoff) as [e|dist];
    cbn [rbind]; [discriminate|].
  intros H. injection H as <-. reflexivity.
Qed.


Section PipelineProperties.

Context {LR XGB : Type}.
Variable lr_fit : LR -> DataFrame -> list cell -> LR * (exn + unit).
Variable lr_predict : LR -> DataFrame -> exn + list Q.
Variable xgb_fit : DataFrame -> list cell -> option (DataFrame * list cell)
                   -> XGB * (exn + unit).
Variable xgb_predict : XGB -> DataFrame -> exn + list Q.

Lemma liftW_run {A} (m : M A) (p : Pipeline.Predictor LR XGB) (w' : World)
      (r : exn + A) :
  m (Pipeline.world p) = (w', r) ->
  Pipeline.liftW m p
  = (Pipeline.mkPredictor w' (Pipeline.baseline_model p) (Pipeline.advanced_model p)
                          (Pipeline.metadata p) (Pipeline.p_fitted p), r).
Proof. intros H. unfold Pipeline.liftW. now rewrite H. Qed.

Lemma lift_run {S A} (r : exn + A) (s : S) : lift r s = (s, r).
Proof. reflexivity. Qed.



End PipelineProperties.


(** ** What a prediction changes *)

Section PipelineEffects.

Context {LR XGB : Type}.
Variable lr_predict : LR -> DataFrame -> exn + list Q.
Variable xgb_predict : XGB -> DataFrame -> exn + list Q.

Lemma only_allocates_refl (p : Pipeline.Predictor LR XGB) : only_allocates p p.
Proof. unfold only_allocates. repeat split; reflexivity. Qed.

Lemma only_allocates_trans (p q r : Pipeline.Predictor LR XGB) :
  only_allocates p q -> only_allocates q r -> only_allocates p r.
Proof.
  unfold only_allocates.
  intros (A1 & A2 & A3 & A4 & A5 & A6) (B1 & B2 & B3 & B4 & B5 & B6).
  repeat split; try congruence. now transitivity (heap (Pipeline.world q)).
Qed.

Lemma allocates_bind {A B} (m : Pipeline.P LR XGB A) (k : A -> Pipeline.P LR XGB B)
      (p : Pipeline.Predictor LR XGB) :
  (forall s, only_allocates s (m s).1) ->
  (forall a s, only_allocates s (k a s).1) ->
  only_allocates p (bind m k p).1.
Proof.
  intros Hm Hk. unfold bind. specialize (Hm p).
  destruct (m p) as [s [e|a]]; cbn [fst] in *; [exact Hm|].
  eapply only_allocates_trans; [exact Hm | apply Hk].
Qed.

Lemma allocates_liftW {A} (m : M A) (p : Pipeline.Predictor LR XGB) :
  (forall w, self (m w).1 = self w /\ heap w ⊆ heap (m w).1) ->
  only_allocates p (Pipeline.liftW m p).1.
Proof.
  intros H. destruct (H (Pipeline.world p)) as [H1 H2].
  unfold only_allocates, Pipeline.liftW. cbn. repeat split; assumption.
Qed.

Lemma new_object_effect (f : DataFrame) (w : World) :
  self (new_object f w).1 = self w /\ heap w ⊆ heap (new_object f w).1.
Proof.
  unfold new_object. cbn. split; [reflexivity|].
  apply insert_subseteq. apply fresh_not_allocated.
Qed.

Lemma deref_effect (l : loc) (w : World) :
  self (deref l w).1 = self w /\ heap w ⊆ heap (deref l w).1.
Proof. unfold deref. destruct (heap w !! l); cbn; split; reflexivity. Qed.

(** X16.  [predict] changes nothing that exists: after the call, whether
    it returned or raised, the predictor has the same feature engineer,
    models, metadata and flag, and every frame that was alive is still
    in place unchanged; the call only allocates frames.  On a predictor
    that is not trained it raises a ValueError before doing anything. *)
Theorem predict_only_allocates (p : Pipeline.Predictor LR XGB) (cfg : Config)
        (pickup dropoff request_time : Z) (model_type : string) :
  only_allocates
    p (Pipeline.predict lr_predict xgb_predict cfg pickup dropoff request_time
                        model_type p).1
  /\ (Pipeline.p_fitted p = false ->
      Pipeline.predict lr_predict xgb_predict cfg pickup dropoff request_time model_type p
      = (p, inl (ValueError "Models must be trained before prediction"))).
Proof.
  split.
  - unfold Pipeline.predict.
    apply allocates_bind; [intros s; apply only_allocates_refl | intros me s].
    destruct (negb (Pipeline.p_fitted me)); [apply only_allocates_refl|].
    apply allocates_bind; [intros s0; apply only_allocates_refl | intros f s0].
    apply allocates_bind;
      [intros s1; apply allocates_liftW, new_object_effect | intros l s1].
    apply allocates_bind;
      [intros s2; apply allocates_liftW; intros w0; apply transform_frame_effect
      | intros lx s2].
    apply allocates_bind;
      [intros s3; apply allocates_liftW, deref_effect | intros x s3].
    apply allocates_bind; [intros s4; apply only_allocates_refl | intros X s4].
    apply allocates_bind.
    + intros s5. destruct (String.eqb model_type "baseline").
      * apply allocates_bind; [intros s6; apply only_allocates_refl | intros b s6].
        apply allocates_bind; [intros s7; apply only_allocates_refl | intros ps s7].
        apply allocates_bind; [intros s8; apply only_allocates_refl | intros y s8].
        apply only_allocates_refl.
      * apply allocates_bind; [intros s6; apply only_allocates_refl | intros a s6].
        apply allocates_bind; [intros s7; apply only_allocates_refl | intros r s7].
        apply allocates_bind; [intros s8; apply only_allocates_refl | intros y s8].
        apply allocates_bind; [intros s9; apply only_allocates_refl | intros i s9].
        apply only_allocates_refl.
    + intros pc s5.
      apply allocates_bind;
        [intros s6; apply allocates_liftW, deref_effect | intros row0 s6].
      apply allocates_bind; [intros s7; apply only_allocates_refl | intros t s7].
      apply only_allocates_refl.
  - intros H. unfold Pipeline.predict, bind, get_state. now rewrite H.
Qed.

End PipelineEffects.

Lemma predict_only_allocates_witness :
  Pipeline.predict constant_model constant_model sample_config 0 99 1704711600
                   "advanced" fresh_predictor
  = (fresh_predictor, inl (ValueError "Models must be trained before prediction")).
Proof.
  apply (predict_only_allocates constant_model constant_model fresh_predictor).
  reflexivity.
Defined.

(** ** Training, then predicting *)


Section Training.

Context {LR XGB : Type}.
Variable lr_fit : LR -> DataFrame -> list cell -> LR * (exn + unit).
Variable lr_predict : LR -> DataFrame -> exn + list Q.
Variable xgb_fit : DataFrame -> list cell -> option (DataFrame * list cell)
                   -> XGB * (exn + unit).
Variable xgb_predict : XGB -> DataFrame -> exn + list Q.






End Training.

Section TrainedPredictor.

Context {LR XGB : Type}.
Variable lr_fit : LR -> DataFrame -> list cell -> LR * (exn + unit).
Variable lr_predict : LR -> DataFrame -> exn + list Q.
Variable xgb_fit : DataFrame -> list cell -> option (DataFrame * list cell)
                   -> XGB * (exn + unit).
Variable xgb_predict : XGB -> DataFrame -> exn + list Q.


Lemma predict_baseline_run (p : Pipeline.Predictor LR XGB) (cfg : Config)
      (pickup dropoff request_time : Z) (cols : list string) :
  Pipeline.p_fitted p = true ->
  well_fitted (self (Pipeline.world p)) = true ->
  training_columns (self (Pipeline.world p)) = Some cols ->
  NoDup cols ->
  Pipeline.b_fitted (Pipeline.baseline_model p) = true ->
  (forall c, In c Pipeline.baseline_columns -> In c cols) ->
  grid_size cfg <> 0 ->
  exists Xb trip,
    ETAPredictor.trip_of cfg pickup dropoff request_time = inr trip
    /\ Xb = mkFrame 1 [("dubai_distance", [CInt (ETAPredictor.dubai_distance trip)]);
                       ("hour", [CInt (ETAPredictor.hour_of request_time)]);
                       ("day_of_week", [CInt (ETAPredictor.weekday_of request_time)]);
                       ("is_rush_hour", [CBool (ETAPredictor.is_rush_hour trip)])]
    /\ (Pipeline.predict lr_predict xgb_predict cfg pickup dropoff request_time
                         "baseline" p).2
       = rbind (lr_predict (Pipeline.b_objects (Pipeline.baseline_model p)) Xb)
               (fun predictions =>
         rbind (first_item predictions) (fun prediction =>
         inr (ETAPredictor.respond "baseline" trip prediction))).
Proof.
  clear lr_fit xgb_fit.
  intros Hpf He Hc Hnd Hb Hbase Hg.
  destruct (input_data_is_trip_frame cfg pickup dropoff request_time Hg)
    as (f & trip & Hin & Hf & Htrip & _).
  assert (Hrow : get_col f "dubai_distance" = Some [CInt (ETAPredictor.dubai_distance trip)]
                 /\ get_col f "hour" = Some [CInt (ETAPredictor.hour_of request_time)]
                 /\ get_col f "day_of_week"
                    = Some [CInt (ETAPredictor.weekday_of request_time)]
                 /\ get_col f "is_rush_hour" = Some [CBool (ETAPredictor.is_rush_hour trip)]
                 /\ nrows f = 1%nat).
  { revert Hin Htrip. unfold ETAPredictor.input_data, ETAPredictor.trip_of.
    destruct (ETAPredictor._calculate_dubai_distance cfg pickup dropoff);
      cbn [rbind]; [discriminate|].
    intros H1 H2. injection H1 as <-. injection H2 as <-. repeat split. }
  destruct Hrow as (V1 & V2 & V3 & V4 & Hn1).
  set (w := Pipeline.world p) in *.
  set (l := fresh (dom (heap w))).
  set (w1 := mkWorld (self w) (<[l := f]> (heap w))).
  assert (Hl : heap w1 !! l = Some f) by apply lookup_insert_eq.
  destruct (feature_columns_run w1 l f cols He Hc Hnd Hl Hf)
    as (w2 & lx & out & X & Hr & Hlx & Hfc & Hsel & Hxc & Hxn & Hxg).
  destruct (raw_columns_run w1 l f He Hl Hf) as (w2' & lx' & out' & Hr' & Hlx' & _ & Hraw).
  rewrite Hr in Hr'. injection Hr' as <- <-. rewrite Hlx in Hlx'. injection Hlx' as <-.
  assert (Hl2 : heap w2 !! l = Some f).
  { pose proof (transform_frame_effect w1 l) as [_ Hsub]. rewrite Hr in Hsub.
    cbn [fst] in Hsub. eapply lookup_weaken; [exact Hl | exact Hsub]. }
  assert (HndX : NoDup (col_names X)).
  { rewrite Hxc, Hfc. now apply NoDup_List_filter. }
  assert (HinX : forall c, In c Pipeline.baseline_columns -> In c (col_names X)).
  { intros c Hc'. rewrite Hxc, Hfc. apply filter_In. split; [now apply Hbase|].
    simpl in Hc'. destruct Hc' as [<-|[<-|[<-|[<-|[]]]]]; reflexivity. }
  destruct (select_run X Pipeline.baseline_columns HndX) as (Xb & HXb & Hbn & Hbc & Hbg).
  { intros c Hc'. apply HinX, has_col_In in Hc'. rewrite has_col_get_col in Hc'.
    now destruct (get_col X c). }
  assert (Hval : forall c v, In c Pipeline.baseline_columns -> get_col f c = Some v ->
                             get_col Xb c = Some v).
  { intros c v Hc' Hv. rewrite (Hbg c Hc').
    destruct (Hxg c (HinX c Hc')) as (_ & _ & ->).
    apply (Hraw c v Hv).
    - simpl in Hc'. destruct Hc' as [<-|[<-|[<-|[<-|[]]]]]; reflexivity.
    - simpl in Hc'.
      destruct Hc' as [<-|[<-|[<-|[<-|[]]]]];
        destruct (has_col f "is_friday_prayer"); simpl; intros Hbad;
        repeat (destruct Hbad as [Hbad|Hbad]; [discriminate Hbad|]); exact Hbad.
    - unfold keeps, w1. cbn [self]. rewrite Hc. apply existsb_exists. exists c.
      split; [now apply Hbase | apply String.eqb_refl]. }
  assert (EXb : Xb = mkFrame 1 [("dubai_distance", [CInt (ETAPredictor.dubai_distance trip)]);
                                ("hour", [CInt (ETAPredictor.hour_of request_time)]);
                                ("day_of_week", [CInt (ETAPredictor.weekday_of request_time)]);
                                ("is_rush_hour", [CBool (ETAPredictor.is_rush_hour trip)])]).
  { pose proof (Hval "dubai_distance" _ ltac:(simpl; tauto) V1) as G1.
    pose proof (Hval "hour" _ ltac:(simpl; tauto) V2) as G2.
    pose proof (Hval "day_of_week" _ ltac:(simpl; tauto) V3) as G3.
    pose proof (Hval "is_rush_hour" _ ltac:(simpl; tauto) V4) as G4.
    destruct Xb as [n cs]. unfold col_names, get_col in *. cbn [nrows columns] in *.
    assert (En : n = 1%nat) by congruence.
    destruct cs as [|[n1 c1] [|[n2 c2] [|[n3 c3] [|[n4 c4] [|? ?]]]]]; try discriminate Hbc.
    injection Hbc as -> -> -> ->.
    cbn in G1, G2, G3, G4.
    injection G1 as ->. injection G2 as ->. injection G3 as ->. injection G4 as ->.
    f_equal. congruence. }
  exists Xb, trip. split; [exact Htrip|]. split; [exact EXb|].
  set (p1 := Pipeline.mkPredictor w1 (Pipeline.baseline_model p) (Pipeline.advanced_model p)
                                  (Pipeline.metadata p) (Pipeline.p_fitted p)).
  set (p2 := Pipeline.mkPredictor w2 (Pipeline.baseline_model p) (Pipeline.advanced_model p)
                                  (Pipeline.metadata p) (Pipeline.p_fitted p)).
  unfold Pipeline.predict.
  rewrite (bind_ok get_state _ p p p eq_refl). cbv beta. rewrite Hpf. cbn [negb].
  rewrite (bind_ok _ _ p p f (f_equal (pair p) Hin)). cbv beta.
  rewrite (bind_ok _ _ p p1 l (liftW_run (new_object f) p w1 (inr l) eq_refl)). cbv beta.
  rewrite (bind_ok _ _ p1 p2 lx (liftW_run (transform l) p1 w2 (inr lx) Hr)). cbv beta.
  rewrite (bind_ok _ _ p2 p2 out
             (liftW_run (deref lx) p2 w2 (inr out) (deref_run w2 lx out Hlx))). cbv beta.
  rewrite (bind_ok _ _ p2 p2 X (f_equal (pair p2) Hsel)). cbv beta.
  cbn [String.eqb Ascii.eqb Bool.eqb].
  rewrite bind_assoc.
  rewrite (bind_ok (Pipeline.get_baseline LR XGB) _ p2 p2 (Pipeline.baseline_model p) eq_refl).
  cbv beta. unfold Pipeline.baseline_predict. rewrite Hb. cbn [negb].
  rewrite HXb. cbn [rbind].
  destruct (lr_predict (Pipeline.b_objects (Pipeline.baseline_model p)) Xb)
    as [e|predictions]; cbn [rbind].
  { rewrite bind_assoc. now rewrite (bind_err _ _ p2 p2 e eq_refl). }
  rewrite bind_assoc.
  rewrite (bind_ok _ _ p2 p2 _ (lift_run _ p2)). cbv beta.
  destruct predictions as [|y rest]; cbn [first_item rbind].
  { rewrite bind_assoc. now rewrite (bind_err _ _ p2 p2 _ (lift_run _ p2)). }
  rewrite bind_assoc.
  rewrite (bind_ok _ _ p2 p2 _ (lift_run _ p2)). cbv beta.
  rewrite (bind_ok _ _ p2 p2 _ eq_refl). cbv beta.
  rewrite (bind_ok _ _ p2 p2 f
             (liftW_run (deref l) p2 w2 (inr f) (deref_run w2 l f Hl2))). cbv beta.
  rewrite (trip_of_input_row cfg pickup dropoff request_time f Hin), Htrip.
  rewrite (bind_ok _ _ p2 p2 trip (lift_run _ p2)). cbv beta.
  reflexivity.
Qed.

(** X18.  A prediction with the baseline model.  For a trained
    predictor whose frozen training columns include the four baseline
    columns, [predict] with [model_type = 'baseline'] asks the linear
    model about a single row holding exactly the request's distance,
    hour, weekday and rush-hour flag, in this order; the call raises what
    the model raises, and otherwise answers with the model's first value
    as the estimate, with the clamped simple interval and the factors of
    the request's trip. *)
Theorem predict_with_baseline_model (p : Pipeline.Predictor LR XGB) (cfg : Config)
        (pickup dropoff request_time : Z) (cols : list string) :
  Pipeline.p_fitted p = true ->
  well_fitted (self (Pipeline.world p)) = true ->
  training_columns (self (Pipeline.world p)) = Some cols ->
  NoDup cols ->
  Pipeline.b_fitted (Pipeline.baseline_model p) = true ->
  (forall c, In c Pipeline.baseline_columns -> In c cols) ->
  grid_size cfg <> 0 ->
  exists Xb trip,
    ETAPredictor.trip_of cfg pickup dropoff request_time = inr trip
    /\ Xb = mkFrame 1 [("dubai_distance", [CInt (ETAPredictor.dubai_distance trip)]);
                       ("hour", [CInt (ETAPredictor.hour_of request_time)]);
                       ("day_of_week", [CInt (ETAPredictor.weekday_of request_time)]);
                       ("is_rush_hour", [CBool (ETAPredictor.is_rush_hour trip)])]
    /\ (Pipeline.predict lr_predict xgb_predict cfg pickup dropoff request_time
                         "baseline" p).2
       = rbind (lr_predict (Pipeline.b_objects (Pipeline.baseline_model p)) Xb)
               (fun predictions =>
         rbind (first_item predictions) (fun prediction =>
         inr (ETAPredictor.respond "baseline" trip prediction))).
Proof. exact (predict_baseline_run p cfg pickup dropoff request_time cols). Qed.

End TrainedPredictor.



Lemma predict_with_baseline_model_witness :
  exists trip,
    ETAPredictor.trip_of sample_config 0 99 1704711600 = inr trip
    /\ (Pipeline.predict constant_model constant_model sample_config 0 99 1704711600
                         "baseline" sample_predictor).2
       = inr (ETAPredictor.respond "baseline" trip 20).
Proof.
  assert (He : well_fitted (self sample_fitted_world) = true) by (vm_compute; reflexivity).
  assert (Hc : exists cols, training_columns (self sample_fitted_world) = Some cols
                            /\ NoDup cols
                            /\ forallb (fun c => existsb (String.eqb c) cols)
                                       Pipeline.baseline_columns = true).
  { eexists. split; [vm_compute; reflexivity|]. split.
    - apply (bool_decide_unpack _). vm_compute. exact I.
    - vm_compute. reflexivity. }
  destruct Hc as (cols & Hc & Hnd & Hb).
  assert (Hb' : forall c, In c Pipeline.baseline_columns -> In c cols).
  { intros c Hin. rewrite forallb_forall in Hb. specialize (Hb c Hin).
    apply existsb_exists in Hb as (x & Hx & E). apply String.eqb_eq in E. now subst. }
  destruct (predict_with_baseline_model constant_model constant_model sample_predictor
              sample_config 0 99 1704711600 cols
              eq_refl He Hc Hnd eq_refl Hb' ltac:(discriminate))
    as (Xb & trip & Htrip & HXb & Hres).
  exists trip. split; [exact Htrip|].
  rewrite Hres, HXb. reflexivity.
Defined.

(* ================================================================== *)
(** * Feature engineering is row-wise                                 *)
(* ================================================================== *)

Lemma mapM_length {A B} (g : A -> exn + B) (l : list A) (v : list B) :
  mapM g l = inr v -> length v = length l.
Proof.
  intros H. apply mapM_Forall2 in H. induction H; simpl; congruence.
Qed.

Lemma mapM_nth (g : cell -> exn + cell) (l v : list cell) (i : nat) :
  mapM g l = inr v -> (i < length l)%nat -> g (nth i l CNaN) = inr (nth i v CNaN).
Proof.
  intros H. apply mapM_Forall2 in H. revert i.
  induction H as [|a b l v Hab _ IH]; intros i Hi; simpl in Hi; [lia|].
  destruct i as [|i]; simpl; [exact Hab | apply IH; lia].
Qed.

Lemma zip_with_M_length (g : cell -> cell -> exn + cell) (a b v : list cell) :
  zip_with_M g a b = inr v -> length v = Nat.min (length a) (length b).
Proof.
  revert b v. induction a as [|x a IH]; intros b v; simpl.
  - intros H. now injection H as <-.
  - destruct b as [|y b]; [intros H; now injection H as <-|].
    destruct (g x y) as [e|c]; cbn [rbind]; [discriminate|].
    destruct (zip_with_M g a b) as [e|cs] eqn:E; cbn [rbind]; [discriminate|].
    intros H. injection H as <-. simpl. f_equal. now apply IH.
Qed.

Lemma zip_with_M_nth (g : cell -> cell -> exn + cell) (a b v : list cell) (i : nat) :
  zip_with_M g a b = inr v -> (i < length a)%nat -> (i < length b)%nat ->
  g (nth i a CNaN) (nth i b CNaN) = inr (nth i v CNaN).
Proof.
  revert b v i. induction a as [|x a IH]; intros b v i; simpl; [lia|].
  destruct b as [|y b]; simpl; [lia|].
  destruct (g x y) as [e|c] eqn:Exy; cbn [rbind]; [discriminate|].
  destruct (zip_with_M g a b) as [e|cs] eqn:E; cbn [rbind]; [discriminate|].
  intros H Ha Hb. injection H as <-.
  destruct i as [|i]; simpl; [exact Exy | apply (IH b cs i E); lia].
Qed.

Lemma nth_map_seq {A} (F : nat -> A) (n i : nat) (d : A) :
  (i < n)%nat -> nth i (map F (seq 0 n)) d = F i.
Proof.
  intros H. rewrite (nth_indep _ d (F 0%nat)) by (now rewrite length_map, length_seq).
  rewrite map_nth, seq_nth by exact H. reflexivity.
Qed.

Lemma nth_map_cells (F : cell -> cell) (l : list cell) (i : nat) :
  (i < length l)%nat -> nth i (map F l) CNaN = F (nth i l CNaN).
Proof.
  intros H. rewrite (nth_indep _ CNaN (F CNaN)) by (now rewrite length_map).
  apply map_nth.
Qed.

Lemma assoc_Some_pair {V} (n : string) (v : V) (l : list (string * V)) :
  assoc n l = Some v -> In (n, v) l.
Proof.
  induction l as [|[m c] l IH]; simpl; [discriminate|].
  destruct (String.eqb m n) eqn:E; [|intros X; right; now apply IH].
  apply String.eqb_eq in E. intros X. injection X as ->. subst. now left.
Qed.

Lemma frame_ok_length (f : DataFrame) (n : string) (v : list cell) :
  frame_ok f = true -> get_col f n = Some v -> length v = nrows f.
Proof.
  unfold frame_ok, get_col. intros H Hv. rewrite forallb_forall in H.
  specialize (H _ (assoc_Some_pair n v _ Hv)). now apply Nat.eqb_eq in H.
Qed.

Lemma assoc_row_at (f : DataFrame) (i : nat) (name : string) :
  assoc name (row_at f i) = (fun c => nth i c CNaN) <$> get_col f name.
Proof. unfold row_at, get_col. apply (assoc_map_values (fun c => nth i c CNaN)). Qed.

Lemma zone_pair_row (e : FeatureEngineer) (f : DataFrame) (field : string)
      (dflt : exn + cell) (g : cell) (p d : list cell) (i : nat) :
  get_col f "pickup_zone" = Some p -> get_col f "dropoff_zone" = Some d ->
  dflt = inr g ->
  zone_pair_lookup e field dflt (row_at f i) = inr (zone_pair_value e field g p d i).
Proof.
  intros Hp Hd ->. unfold zone_pair_lookup. now rewrite !row_get_row_at, Hp, Hd.
Qed.

Lemma zone_combo_row (e : FeatureEngineer) (f : DataFrame) (t : gmap pykey cell)
      (g : cell) (p d : list cell) (i : nat) :
  get_col f "zone_type_pickup" = Some p -> get_col f "zone_type_dropoff" = Some d ->
  stat zone_combo_mean "zone_combo_mean" e = inr t ->
  stat global_mean "global_mean" e = inr g ->
  zone_combo_lookup e (row_at f i)
  = inr (default g (t !! key2 (nth i p CNaN) (nth i d CNaN))).
Proof.
  intros Hp Hd Ht Hg. unfold zone_combo_lookup.
  now rewrite Ht, Hg, !row_get_row_at, Hp, Hd.
Qed.

(** On a well-formed trip frame the vectorised statements of
    [transform] compute, row by row, what [row_features] computes from
    the row alone. *)
Lemma engineer_columns_rowwise (e : FeatureEngineer) (f : DataFrame) :
  well_fitted e = true -> trip_frame f = true -> frame_ok f = true ->
  exists vs,
    engineer_columns e f = (set_cols f vs, inr tt)
    /\ map fst vs = engineered_names (has_col f "is_friday_prayer")
    /\ Forall (fun nv => length nv.2 = nrows f) vs
    /\ forall i, (i < nrows f)%nat -> row_features e (row_at f i) = inr (cells_at i vs).
Proof.
  intros He Hf Hok.
  destruct (well_fitted_spec e He) as (_ & (hm & Hhm) & (dm & Hdm) & (cm & Hcm)
                                       & (g & Hg) & (gs & Hgs)).
  destruct (trip_frame_spec f Hf) as (Hn & Hnum & Hkey & Hcat & Hfri & _ & _).
  destruct (Hnum "hour") as (h & Hh & Nh); [simpl; tauto|].
  destruct (Hnum "day_of_week") as (dw & Hdw & Ndw); [simpl; tauto|].
  destruct (Hnum "dubai_distance") as (dist & Hdist & Ndist); [simpl; tauto|].
  destruct (Hnum "is_rush_hour") as (rush & Hrush & Nrush); [simpl; tauto|].
  destruct (Hnum "is_weekend") as (wk & Hwk & Nwk); [simpl; tauto|].
  destruct (Hkey "pickup_zone") as (p & Hp); [simpl; tauto|].
  destruct (Hkey "dropoff_zone") as (d & Hd); [simpl; tauto|].
  destruct (Hcat "zone_type_pickup") as (tp & Htp & _); [simpl; tauto|].
  destruct (Hcat "zone_type_dropoff") as (td & Htd & _); [simpl; tauto|].
  destruct (mapM_ok numeric (sin_turn 24) h (sin_turn_ok 24) Nh) as (v1 & V1).
  destruct (mapM_ok numeric (cos_turn 24) h (cos_turn_ok 24) Nh) as (v2 & V2).
  destruct (mapM_ok numeric (sin_turn 7) dw (sin_turn_ok 7) Ndw) as (v3 & V3).
  destruct (mapM_ok numeric (cos_turn 7) dw (cos_turn_ok 7) Ndw) as (v4 & V4).
  destruct (zip_with_M_ok numeric cell_mul dist rush cell_mul_ok Ndist Nrush) as (v11 & V11).
  destruct (zip_with_M_ok numeric cell_mul dist wk cell_mul_ok Ndist Nwk) as (v12 & V12).
  destruct (mapM_ok numeric (fun c => cell_mul c c) dist
                    (fun c H => cell_mul_ok c c H H) Ndist) as (v13 & V13).
  destruct (zip_same_type_ok tp td) as (v15 & V15).
  destruct (mapM_ok numeric is_morning h (fun c H => proj1 (window_ok c H)) Nh)
    as (v16 & V16).
  destruct (mapM_ok numeric is_afternoon h
                    (fun c H => proj1 (proj2 (window_ok c H))) Nh) as (v17 & V17).
  destruct (mapM_ok numeric is_evening h
                    (fun c H => proj1 (proj2 (proj2 (window_ok c H)))) Nh) as (v18 & V18).
  destruct (mapM_ok numeric is_night h
                    (fun c H => proj2 (proj2 (proj2 (window_ok c H)))) Nh) as (v19 & V19).
  pose proof (frame_ok_length f _ _ Hok Hh) as Lh.
  pose proof (frame_ok_length f _ _ Hok Hdw) as Ldw.
  pose proof (frame_ok_length f _ _ Hok Hdist) as Ldist.
  pose proof (frame_ok_length f _ _ Hok Hrush) as Lrush.
  pose proof (frame_ok_length f _ _ Hok Hwk) as Lwk.
  pose proof (frame_ok_length f _ _ Hok Htp) as Ltp.
  pose proof (frame_ok_length f _ _ Hok Htd) as Ltd.
  set (n := nrows f) in *.
  set (front :=
         [("hour_sin", v1); ("hour_cos", v2); ("dow_sin", v3); ("dow_cos", v4);
          ("zone_pair_mean", map (zone_pair_value e "mean" g p d) (seq 0 n));
          ("zone_pair_std", map (zone_pair_value e "std" gs p d) (seq 0 n));
          ("zone_pair_count", map (zone_pair_value e "count" (CInt 0) p d) (seq 0 n));
          ("hour_mean", map (fun c => fillna g (map_dict hm c)) h);
          ("dow_mean", map (fun c => fillna g (map_dict dm c)) dw);
          ("zone_combo_mean",
           map (fun i => default g (cm !! key2 (nth i tp CNaN) (nth i td CNaN))) (seq 0 n));
          ("distance_rush", v11); ("distance_weekend", v12); ("distance_squared", v13)]).
  set (back :=
         [("same_zone_type", v15); ("is_morning", v16); ("is_afternoon", v17);
          ("is_evening", v18); ("is_night", v19)]).
  assert (Lfront : Forall (fun nv : string * list cell => length nv.2 = n) front).
  { unfold front. repeat constructor; cbn [snd];
      rewrite ?length_map, ?length_seq, ?(mapM_length _ _ _ V1), ?(mapM_length _ _ _ V2),
        ?(mapM_length _ _ _ V3), ?(mapM_length _ _ _ V4), ?(mapM_length _ _ _ V13),
        ?(zip_with_M_length _ _ _ _ V11), ?(zip_with_M_length _ _ _ _ V12); lia. }
  assert (Lback : Forall (fun nv : string * list cell => length nv.2 = n) back).
  { unfold back. repeat constructor; cbn [snd];
      rewrite ?(mapM_length _ _ _ V16), ?(mapM_length _ _ _ V17),
        ?(mapM_length _ _ _ V18), ?(mapM_length _ _ _ V19),
        ?(zip_with_M_length _ _ _ _ V15); lia. }
  assert (Rows : forall i friday mid,
             (i < n)%nat ->
             match assoc "is_friday_prayer" (row_at f i) with
             | Some prayer => rbind (cell_mul (nth i dist CNaN) prayer) (fun v =>
                              inr [("distance_friday_prayer", v)])
             | None => inr []
             end = inr friday ->
             cells_at i mid = friday ->
             row_features e (row_at f i) = inr (cells_at i (front ++ mid ++ back))).
  { intros i friday mid Hi Hfr Hmid. unfold row_features.
    rewrite !row_get_row_at, Hh, Hdw, Hdist, Hrush, Hwk, Htp, Htd. cbn [rbind].
    rewrite Hhm, Hdm, Hg. cbn [rbind].
    rewrite (mapM_nth _ _ _ i V1), (mapM_nth _ _ _ i V2) by lia.
    rewrite (mapM_nth _ _ _ i V3), (mapM_nth _ _ _ i V4) by lia. cbn [rbind].
    rewrite (zone_pair_row e f "mean" (inr g) g p d i Hp Hd eq_refl).
    rewrite (zone_pair_row e f "std" _ gs p d i Hp Hd Hgs).
    rewrite (zone_pair_row e f "count" _ (CInt 0) p d i Hp Hd eq_refl).
    rewrite (zone_combo_row e f cm g tp td i Htp Htd Hcm Hg). cbn [rbind].
    rewrite (zip_with_M_nth _ _ _ _ i V11), (zip_with_M_nth _ _ _ _ i V12) by lia.
    rewrite (mapM_nth (fun c => cell_mul c c) _ _ i V13) by lia. cbn [rbind].
    rewrite Hfr. cbn [rbind].
    rewrite (zip_with_M_nth _ _ _ _ i V15) by lia.
    rewrite (mapM_nth _ _ _ i V16), (mapM_nth _ _ _ i V17) by lia.
    rewrite (mapM_nth _ _ _ i V18), (mapM_nth _ _ _ i V19) by lia. cbn [rbind].
    unfold cells_at. rewrite !map_app. fold (cells_at i mid). rewrite Hmid.
    unfold front, back. cbn [map fst snd].
    rewrite !nth_map_seq by exact Hi. rewrite !nth_map_cells by lia.
    reflexivity. }
  destruct (has_col f "is_friday_prayer") eqn:Efri.
  - destruct (Hfri eq_refl) as (fp & Hfp & Nfp).
    destruct (zip_with_M_ok numeric cell_mul dist fp cell_mul_ok Ndist Nfp) as (v14 & V14).
    pose proof (frame_ok_length f _ _ Hok Hfp) as Lfp.
    exists (front ++ [("distance_friday_prayer", v14)] ++ back).
    split; [|split; [|split]].
    + unfold engineer_columns. repeat run_step.
      rewrite !has_col_set_col_ne by reflexivity. rewrite Efri.
      repeat run_step.
      unfold setitem, set_cols, front, back. cbn [fold_left app fst snd].
      reflexivity.
    + rewrite !map_app. reflexivity.
    + apply Forall_app. split; [exact Lfront|]. apply Forall_app. split; [|exact Lback].
      repeat constructor. cbn [snd]. rewrite (zip_with_M_length _ _ _ _ V14). fold n. lia.
    + intros i Hi. apply (Rows i [("distance_friday_prayer", nth i v14 CNaN)]);
        [exact Hi | | reflexivity].
      rewrite assoc_row_at, Hfp. cbn [fmap option_fmap option_map].
      rewrite (zip_with_M_nth _ _ _ _ i V14) by (fold n in Lfp; lia). reflexivity.
  - exists (front ++ [] ++ back).
    split; [|split; [|split]].
    + unfold engineer_columns. repeat run_step.
      rewrite !has_col_set_col_ne by reflexivity. rewrite Efri.
      repeat run_step.
      unfold setitem, set_cols, front, back. cbn [fold_left app fst snd].
      reflexivity.
    + rewrite !map_app. reflexivity.
    + apply Forall_app. split; [exact Lfront|]. exact Lback.
    + intros i Hi. apply (Rows i [] []); [exact Hi | | reflexivity].
      rewrite assoc_row_at. rewrite has_col_get_col in Efri.
      now destruct (get_col f "is_friday_prayer").
Qed.

Lemma encoded_frame_features (f : DataFrame) (vs : list (string * list cell)) (d : DataFrame) :
  trip_frame f = true ->
  map fst vs = engineered_names (has_col f "is_friday_prayer") ->
  get_dummies (set_cols f vs) categorical_cols = inr d ->
  nrows d = nrows f
  /\ (forall n v, In (n, v) vs -> get_col d n = Some v)
  /\ (forall n, is_encoded categorical_cols n = false -> is_dummy_name n = false ->
                ~ In n (map fst vs) -> get_col d n = get_col f n).
Proof.
  intros Hf Hnames Hd.
  destruct (trip_frame_spec f Hf) as (_ & _ & _ & Hcat & _ & Hnd & Hraw).
  destruct (engineered_names_spec (has_col f "is_friday_prayer")) as [NDn Hplain].
  rewrite <- Hnames in NDn, Hplain.
  destruct (get_dummies_run (set_cols f vs)) as (d' & Hd' & Hdn & _ & Hdget).
  { intros n Hin. rewrite get_col_set_cols_other; [now apply Hcat|].
    rewrite Hnames. now apply categorical_not_engineered. }
  { now apply NoDup_set_cols. }
  { intros n Hin. apply col_names_set_cols in Hin as [Hin|Hin].
    - now apply Hraw.
    - now apply Hplain. }
  rewrite Hd in Hd'. injection Hd' as <-.
  split; [now rewrite Hdn, nrows_set_cols|]. split.
  - intros n v Hin.
    assert (Hin' : In n (map fst vs)) by (apply in_map_iff; now exists (n, v)).
    destruct (Hplain n Hin') as [P1 P2].
    rewrite (Hdget n P1 P2). now apply get_col_set_cols_entry.
  - intros n P1 P2 Hnot. rewrite (Hdget n P1 P2). now apply get_col_set_cols_other.
Qed.

(** The stages of [transform] on a well-formed trip frame, with the
    engineered columns described row by row. *)
Lemma transform_rowwise (e : FeatureEngineer) (f : DataFrame) :
  well_fitted e = true -> trip_frame f = true -> frame_ok f = true ->
  exists vs d out,
    map fst vs = engineered_names (has_col f "is_friday_prayer")
    /\ Forall (fun nv => length nv.2 = nrows f) vs
    /\ (forall i, (i < nrows f)%nat ->
                  row_features e (row_at f i) = inr (cells_at i vs))
    /\ get_dummies (set_cols f vs) categorical_cols = inr d
    /\ transform_outcome e f = inr out
    /\ (forall n v, In (n, v) vs -> get_col d n = Some v)
    /\ (forall n, is_encoded categorical_cols n = false -> is_dummy_name n = false ->
                  ~ In n (map fst vs) -> get_col d n = get_col f n)
    /\ match training_columns e with
       | None => out = d
       | Some cols =>
           col_names out = cols
           /\ (forall n, In n cols ->
                         get_col out n = match get_col d n with
                                         | Some v => Some v
                                         | None => Some (repeat (CInt 0) (nrows f))
                                         end)
       end.
Proof.
  intros He Hf Hok.
  destruct (engineer_columns_rowwise e f He Hf Hok) as (vs & Hrun & Hnames & Hlen & Hrows).
  destruct (transform_trip e f He Hf)
    as (vs0 & d & out & _ & _ & Hout & Hd0 & _ & _ & _ & _ & Hal).
  assert (Hd : get_dummies (set_cols f vs) categorical_cols = inr d).
  { unfold transform_outcome in Hd0. rewrite engineer_columns_training_columns, Hrun in Hd0.
    cbn [fst snd rbind training_columns with_training_columns] in Hd0.
    destruct (get_dummies (set_cols f vs) categorical_cols); cbn [rbind] in Hd0;
      [discriminate | exact Hd0]. }
  destruct (encoded_frame_features f vs d Hf Hnames Hd) as (_ & Hvs & Hother).
  exists vs, d, out. repeat split; assumption.
Qed.

Lemma cells_at_In (i : nat) (vs : list (string * list cell)) (n : string) (c : cell) :
  In (n, c) (cells_at i vs) -> exists v, In (n, v) vs /\ c = nth i v CNaN.
Proof.
  unfold cells_at. intros H. apply in_map_iff in H as ([m v] & E & Hin).
  injection E as <- <-. now exists v.
Qed.

Lemma rowwise_features_run (w : World) (df : loc) (f : DataFrame) :
  well_fitted (self w) = true ->
  heap w !! df = Some f ->
  trip_frame f = true ->
  frame_ok f = true ->
  exists w' l out,
    transform df w = (w', inr l)
    /\ heap w' !! l = Some out
    /\ forall i, (i < nrows f)%nat ->
         exists feats,
           row_features (self w) (row_at f i) = inr feats
           /\ map fst feats = engineered_names (has_col f "is_friday_prayer")
           /\ forall n c, In (n, c) feats -> keeps (self w) n = true ->
                          row_get (row_at out i) n = inr c.
Proof.
  intros He Hdf Hf Hok.
  destruct (transform_rowwise (self w) f He Hf Hok)
    as (vs & d & out & Hnames & _ & Hrows & _ & Hout & Hvs & _ & Hal).
  destruct (transform_returns w df f out He Hdf Hout) as (w' & l & Hr & Hl & _).
  exists w', l, out. split; [exact Hr|]. split; [exact Hl|].
  intros i Hi. exists (cells_at i vs). split; [now apply Hrows|]. split.
  - unfold cells_at. rewrite map_map. exact Hnames.
  - intros n c Hin Hk. apply cells_at_In in Hin as (v & Hin & ->).
    rewrite row_get_row_at.
    rewrite (kept_column (self w) d out n v (repeat (CInt 0) (nrows f)) Hal Hk (Hvs n v Hin)).
    reflexivity.
Qed.

(** X19.  Feature engineering is row-wise.  On a well-formed frame of
    trips every engineered feature in row [i] of what [transform]
    returns is the value that the scalar formulas ([row_features])
    compute from row [i] of the input and the fitted statistics alone:
    no engineered feature of a trip depends on the other trips of the
    batch. *)
Theorem transform_features_are_rowwise (w : World) (df : loc) (f : DataFrame) :
  well_fitted (self w) = true ->
  heap w !! df = Some f ->
  trip_frame f = true ->
  frame_ok f = true ->
  exists w' l out,
    transform df w = (w', inr l)
    /\ heap w' !! l = Some out
    /\ forall i, (i < nrows f)%nat ->
         exists feats,
           row_features (self w) (row_at f i) = inr feats
           /\ map fst feats = engineered_names (has_col f "is_friday_prayer")
           /\ forall n c, In (n, c) feats -> keeps (self w) n = true ->
                          row_get (row_at out i) n = inr c.
Proof. exact (rowwise_features_run w df f). Qed.

Lemma transform_features_are_rowwise_witness :
  exists w' l out,
    transform 2%positive sample_fitted_world = (w', inr l)
    /\ heap w' !! l = Some out
    /\ row_get (row_at out 1) "is_afternoon" = inr (CInt 1)
    /\ row_get (row_at out 1) "distance_squared" = inr (CInt 1).
Proof.
  assert (He : well_fitted (self sample_fitted_world) = true) by (vm_compute; reflexivity).
  assert (Hdf : heap sample_fitted_world !! 2%positive = Some sample_batch)
    by (vm_compute; reflexivity).
  assert (Hf : trip_frame sample_batch = true) by (vm_compute; reflexivity).
  assert (Hok : frame_ok sample_batch = true) by (vm_compute; reflexivity).
  destruct (transform_features_are_rowwise sample_fitted_world 2%positive sample_batch
              He Hdf Hf Hok)
    as (w' & l & out & Hr & Hl & Hrows).
  destruct (Hrows 1%nat ltac:(simpl; lia)) as (feats & Hfe & _ & Hget).
  assert (E : exists x, row_features (self sample_fitted_world) (row_at sample_batch 1)
                        = inr x
                        /\ In ("is_afternoon", CInt 1) x
                        /\ In ("distance_squared", CInt 1) x).
  { eexists. split; [vm_compute; reflexivity|].
    split; simpl; repeat (first [left; reflexivity | right]). }
  destruct E as (x & Ex & I1 & I2). rewrite Ex in Hfe. injection Hfe as <-.
  exists w', l, out. split; [exact Hr|]. split; [exact Hl|]. split.
  - apply (Hget _ _ I1). vm_compute. reflexivity.
  - apply (Hget _ _ I2). vm_compute. reflexivity.
Defined.

(* ================================================================== *)
(** * The fitted means                                                *)
(* ================================================================== *)

Lemma group_rows_fold (k : pykey) (kvs : list (option pykey * option Q))
      (g : gmap pykey (list (option Q))) :
  g !! k <> Some [] ->
  fold_left (fun g kv => match kv.1 with
                         | Some k => <[k := default [] (g !! k) ++ [kv.2]]> g
                         | None => g
                         end) kvs g !! k
  = match default [] (g !! k)
          ++ map snd (List.filter (fun kv => bool_decide (kv.1 = Some k)) kvs) with
    | [] => None
    | l => Some l
    end.
Proof.
  revert g. induction kvs as [|[k' v] kvs IH]; intros g Hg; simpl.
  - rewrite app_nil_r. destruct (g !! k) as [[|x l]|]; [congruence | reflexivity..].
  - destruct k' as [k'|]; cbn [fst snd].
    + destruct (decide (k' = k)) as [->|Hne].
      * rewrite IH by (rewrite lookup_insert_eq; intros X; injection X as X;
                       now destruct (default [] (g !! k))).
        rewrite lookup_insert_eq. rewrite bool_decide_eq_true_2 by reflexivity.
        simpl. now rewrite <- app_assoc.
      * rewrite IH by (now rewrite lookup_insert_ne).
        rewrite lookup_insert_ne by exact Hne.
        rewrite bool_decide_eq_false_2 by congruence. reflexivity.
    + rewrite IH by exact Hg. rewrite bool_decide_eq_false_2 by discriminate. reflexivity.
Qed.

Lemma group_rows_lookup (keys : list (option pykey)) (vals : list (option Q)) (k : pykey) :
  group_rows keys vals !! k = group_of keys vals k.
Proof.
  unfold group_rows, group_of, rows_with.
  rewrite group_rows_fold by (rewrite lookup_empty; discriminate).
  now rewrite lookup_empty.
Qed.

Lemma fit_stats (w w' : World) (df : loc) :
  fit df w = (w', inr tt) ->
  exists f g1 g2 g3 v,
    heap w !! df = Some f
    /\ groupby1 f "hour" "actual_duration_minutes" = inr g1
    /\ groupby1 f "day_of_week" "actual_duration_minutes" = inr g2
    /\ groupby2 f "zone_type_pickup" "zone_type_dropoff" "actual_duration_minutes" = inr g3
    /\ rbind (column f "actual_duration_minutes") numeric_column = inr v
    /\ hour_mean (feature_stats (self w')) = Some (mean_to_dict g1)
    /\ dow_mean (feature_stats (self w')) = Some (mean_to_dict g2)
    /\ zone_combo_mean (feature_stats (self w')) = Some (mean_to_dict g3)
    /\ global_mean (feature_stats (self w')) = Some (agg_mean v)
    /\ global_std (feature_stats (self w')) = Some (agg_std v).
Proof.
  unfold fit. intros H.
  apply bind_inr_inv in H as (w1 & f & H1 & H). apply deref_inv in H1 as [-> Hf].
  apply bind_inr_inv in H as (w1 & g & H1 & H). apply lift_inv in H1 as [-> Hg].
  apply bind_inr_inv in H as (w1 & [] & H1 & H). inversion H1; subst w1; clear H1.
  apply bind_inr_inv in H as (w1 & g1 & H1 & H). apply lift_inv in H1 as [-> Hg1].
  apply bind_inr_inv in H as (w1 & [] & H1 & H). inversion H1; subst w1; clear H1.
  apply bind_inr_inv in H as (w1 & g2 & H1 & H). apply lift_inv in H1 as [-> Hg2].
  apply bind_inr_inv in H as (w1 & [] & H1 & H). inversion H1; subst w1; clear H1.
  apply bind_inr_inv in H as (w1 & g3 & H1 & H). apply lift_inv in H1 as [-> Hg3].
  apply bind_inr_inv in H as (w1 & [] & H1 & H). inversion H1; subst w1; clear H1.
  apply bind_inr_inv in H as (w1 & v & H1 & H). apply lift_inv in H1 as [-> Hv].
  apply bind_inr_inv in H as (w1 & [] & H1 & H). inversion H1; subst w1; clear H1.
  apply bind_inr_inv in H as (w1 & v' & H1 & H). apply lift_inv in H1 as [-> Hv'].
  apply bind_inr_inv in H as (w1 & [] & H1 & H). inversion H1; subst w1; clear H1.
  inversion H; subst w'; clear H.
  rewrite Hv in Hv'. inversion Hv'; subst v'.
  exists f, g1, g2, g3, v. cbn. repeat split; assumption.
Qed.

Lemma groupby1_inv (f : DataFrame) (k value : string) (g : gmap pykey (list (option Q))) :
  groupby1 f k value = inr g ->
  exists ks vs qs,
    get_col f k = Some ks /\ get_col f value = Some vs /\ numeric_column vs = inr qs
    /\ g = group_rows (map scalar_key ks) qs.
Proof.
  unfold groupby1, column.
  destruct (get_col f k) as [ks|]; cbn [rbind]; [|discriminate].
  destruct (get_col f value) as [vs|]; cbn [rbind]; [|discriminate].
  destruct (numeric_column vs) as [e|qs] eqn:E; cbn [rbind]; [discriminate|].
  intros H. injection H as <-. exists ks, vs, qs. repeat split. exact E.
Qed.

Lemma groupby2_inv (f : DataFrame) (k1 k2 value : string)
      (g : gmap pykey (list (option Q))) :
  groupby2 f k1 k2 value = inr g ->
  exists a b vs qs,
    get_col f k1 = Some a /\ get_col f k2 = Some b /\ get_col f value = Some vs
    /\ numeric_column vs = inr qs
    /\ g = group_rows (zip_with tuple_key a b) qs.
Proof.
  unfold groupby2, column.
  destruct (get_col f k1) as [a|]; cbn [rbind]; [|discriminate].
  destruct (get_col f k2) as [b|]; cbn [rbind]; [|discriminate].
  destruct (get_col f value) as [vs|]; cbn [rbind]; [|discriminate].
  destruct (numeric_column vs) as [e|qs] eqn:E; cbn [rbind]; [discriminate|].
  intros H. injection H as <-. exists a, b, vs, qs. repeat split. exact E.
Qed.

Lemma row_features_means (e : FeatureEngineer) (x : row) (feats : list (string * cell)) :
  row_features e x = inr feats ->
  exists hour dow tp td hm dm cm g,
    row_get x "hour" = inr hour /\ row_get x "day_of_week" = inr dow
    /\ row_get x "zone_type_pickup" = inr tp /\ row_get x "zone_type_dropoff" = inr td
    /\ hour_mean (feature_stats e) = Some hm /\ dow_mean (feature_stats e) = Some dm
    /\ zone_combo_mean (feature_stats e) = Some cm
    /\ global_mean (feature_stats e) = Some g
    /\ In ("hour_mean", fillna g (map_dict hm hour)) feats
    /\ In ("dow_mean", fillna g (map_dict dm dow)) feats
    /\ In ("zone_combo_mean", default g (cm !! key2 tp td)) feats.
Proof.
  unfold row_features.
  destruct (row_get x "hour") as [?|hour]; cbn [rbind]; [discriminate|].
  destruct (row_get x "day_of_week") as [?|dow]; cbn [rbind]; [discriminate|].
  destruct (row_get x "dubai_distance") as [?|dist]; cbn [rbind]; [discriminate|].
  destruct (row_get x "is_rush_hour") as [?|rush]; cbn [rbind]; [discriminate|].
  destruct (row_get x "is_weekend") as [?|wk]; cbn [rbind]; [discriminate|].
  destruct (row_get x "zone_type_pickup") as [?|tp] eqn:Etp; cbn [rbind]; [discriminate|].
  destruct (row_get x "zone_type_dropoff") as [?|td] eqn:Etd; cbn [rbind]; [discriminate|].
  unfold stat at 1 2 3.
  destruct (hour_mean (feature_stats e)) as [hm|] eqn:Ehm; cbn [rbind]; [|discriminate].
  destruct (dow_mean (feature_stats e)) as [dm|] eqn:Edm; cbn [rbind]; [|discriminate].
  destruct (global_mean (feature_stats e)) as [g|] eqn:Eg; cbn [rbind]; [|discriminate].
  destruct (sin_turn 24 hour); cbn [rbind]; [discriminate|].
  destruct (cos_turn 24 hour); cbn [rbind]; [discriminate|].
  destruct (sin_turn 7 dow); cbn [rbind]; [discriminate|].
  destruct (cos_turn 7 dow); cbn [rbind]; [discriminate|].
  destruct (zone_pair_lookup e "mean" _ x); cbn [rbind]; [discriminate|].
  destruct (zone_pair_lookup e "std" _ x); cbn [rbind]; [discriminate|].
  destruct (zone_pair_lookup e "count" _ x); cbn [rbind]; [discriminate|].
  destruct (zone_combo_lookup e x) as [?|combo] eqn:Ecombo; cbn [rbind]; [discriminate|].
  destruct (cell_mul dist rush); cbn [rbind]; [discriminate|].
  destruct (cell_mul dist wk); cbn [rbind]; [discriminate|].
  destruct (cell_mul dist dist); cbn [rbind]; [discriminate|].
  destruct (match assoc "is_friday_prayer" x with Some _ => _ | None => _ end) as [?|fr];
    cbn [rbind]; [discriminate|].
  destruct (same_type tp td); cbn [rbind]; [discriminate|].
  destruct (is_morning hour); cbn [rbind]; [discriminate|].
  destruct (is_afternoon hour); cbn [rbind]; [discriminate|].
  destruct (is_evening hour); cbn [rbind]; [discriminate|].
  destruct (is_night hour); cbn [rbind]; [discriminate|].
  intros H. injection H as <-.
  unfold zone_combo_lookup, stat in Ecombo. rewrite Etp, Etd, Eg in Ecombo.
  destruct (zone_combo_mean (feature_stats e)) as [cm|] eqn:Ecm; cbn [rbind] in Ecombo;
    [|discriminate].
  injection Ecombo as <-.
  exists hour, dow, tp, td, hm, dm, cm, g.
  repeat (split; [reflexivity|]).
  repeat split; simpl; repeat (first [left; reflexivity | right]).
Qed.

(** X20.  The fitted means are group means.  After [fit] on a training
    frame, the features [hour_mean], [dow_mean] and [zone_combo_mean] of
    any trip are target encodings of the training durations: [hour_mean]
    is the mean duration of the training rows with the trip's hour (the
    global mean when no row has it, or when none of them has a
    duration), [dow_mean] likewise for the weekday, and
    [zone_combo_mean] is the mean duration of the training rows with the
    trip's pair of zone types, the global mean standing in only when no
    training row has the pair. *)
Theorem fitted_means_are_group_means (w w' : World) (df : loc) :
  fit df w = (w', inr tt) ->
  exists T hs ds tps tds qs,
    heap w !! df = Some T
    /\ get_col T "hour" = Some hs /\ get_col T "day_of_week" = Some ds
    /\ get_col T "zone_type_pickup" = Some tps /\ get_col T "zone_type_dropoff" = Some tds
    /\ rbind (column T "actual_duration_minutes") numeric_column = inr qs
    /\ global_mean (feature_stats (self w')) = Some (agg_mean qs)
    /\ forall x feats,
         row_features (self w') x = inr feats ->
         exists hour dow tp td,
           row_get x "hour" = inr hour /\ row_get x "day_of_week" = inr dow
           /\ row_get x "zone_type_pickup" = inr tp
           /\ row_get x "zone_type_dropoff" = inr td
           /\ In ("hour_mean",
                  fillna (agg_mean qs)
                         (default CNaN (agg_mean <$> group_of (map scalar_key hs) qs
                                                              (key1 hour)))) feats
           /\ In ("dow_mean",
                  fillna (agg_mean qs)
                         (default CNaN (agg_mean <$> group_of (map scalar_key ds) qs
                                                              (key1 dow)))) feats
           /\ In ("zone_combo_mean",
                  default (agg_mean qs)
                          (agg_mean <$> group_of (zip_with tuple_key tps tds) qs
                                                 (key2 tp td))) feats.
Proof.
  intros H.
  destruct (fit_stats w w' df H)
    as (T & g1 & g2 & g3 & v & HT & Hg1 & Hg2 & Hg3 & Hv & S1 & S2 & S3 & S4 & _).
  destruct (groupby1_inv _ _ _ _ Hg1) as (hs & vs1 & q1 & Hhs & Hvs1 & Hq1 & ->).
  destruct (groupby1_inv _ _ _ _ Hg2) as (ds & vs2 & q2 & Hds & Hvs2 & Hq2 & ->).
  destruct (groupby2_inv _ _ _ _ _ Hg3) as (tps & tds & vs3 & q3 & Htps & Htds & Hvs3 & Hq3 & ->).
  assert (E1 : q1 = v).
  { unfold column in Hv. rewrite Hvs1 in Hv. cbn [rbind] in Hv. congruence. }
  assert (E2 : q2 = v).
  { unfold column in Hv. rewrite Hvs2 in Hv. cbn [rbind] in Hv. congruence. }
  assert (E3 : q3 = v).
  { unfold column in Hv. rewrite Hvs3 in Hv. cbn [rbind] in Hv. congruence. }
  subst q1 q2 q3.
  exists T, hs, ds, tps, tds, v.
  repeat (split; [assumption|]).
  intros x feats Hx.
  destruct (row_features_means _ _ _ Hx)
    as (hour & dow & tp & td & hm & dm & cm & g & R1 & R2 & R3 & R4 & M1 & M2 & M3 & M4
        & I1 & I2 & I3).
  rewrite S1 in M1. rewrite S2 in M2. rewrite S3 in M3. rewrite S4 in M4.
  injection M1 as <-. injection M2 as <-. injection M3 as <-. injection M4 as <-.
  exists hour, dow, tp, td. repeat (split; [assumption|]).
  unfold map_dict, mean_to_dict in I1, I2, I3.
  rewrite lookup_fmap, group_rows_lookup in I1, I2, I3.
  repeat split; assumption.
Qed.

Lemma sample_fit_run :
  fit 1%positive sample_world = ((fit 1%positive sample_world).1, inr tt).
Proof.
  pose proof (surjective_pairing (fit 1%positive sample_world)) as F.
  assert (E : (fit 1%positive sample_world).2 = inr tt) by (vm_compute; reflexivity).
  rewrite E in F. exact F.
Qed.

Lemma fitted_means_are_group_means_witness :
  global_mean (feature_stats (self (fit 1%positive sample_world).1)) = Some (CFloat 15)
  /\ exists feats,
       row_features (self (fit 1%positive sample_world).1) (row_at sample_batch 0)
       = inr feats
       /\ In ("hour_mean", CFloat 15) feats
       /\ In ("zone_combo_mean", CFloat 10) feats.
Proof.
  destruct (fitted_means_are_group_means sample_world _ 1%positive sample_fit_run)
    as (T & hs & ds & tps & tds & qs & HT & Hhs & Hds & Htps & Htds & Hqs & Hg & Hrows).
  assert (ET : T = sample_training) by (vm_compute in HT; now injection HT).
  subst T.
  vm_compute in Hhs. injection Hhs as <-.
  vm_compute in Htps. injection Htps as <-.
  vm_compute in Htds. injection Htds as <-.
  vm_compute in Hqs. injection Hqs as <-.
  split; [rewrite Hg; vm_compute; reflexivity|].
  assert (E : exists feats,
             row_features (self (fit 1%positive sample_world).1) (row_at sample_batch 0)
             = inr feats) by (eexists; vm_compute; reflexivity).
  destruct E as (feats & E). exists feats. split; [exact E|].
  destruct (Hrows _ _ E) as (hour & dow & tp & td & R1 & _ & R3 & R4 & I1 & _ & I3).
  vm_compute in R1. injection R1 as <-.
  vm_compute in R3. injection R3 as <-.
  vm_compute in R4. injection R4 as <-.
  split.
  - replace (CFloat 15) with
      (fillna (agg_mean [Some (10 # 1); Some (20 # 1)])
              (default CNaN
                 (agg_mean <$> group_of (map scalar_key [CInt 8; CInt 9])
                                        [Some (10 # 1); Some (20 # 1)] (key1 (CInt 11)))))
      by (vm_compute; reflexivity).
    exact I1.
  - replace (CFloat 10) with
      (default (agg_mean [Some (10 # 1); Some (20 # 1)])
               (agg_mean <$> group_of
                               (zip_with tuple_key
                                         [CStr "residential"; CStr "residential"]
                                         [CStr "residential"; CStr "business"])
                               [Some (10 # 1); Some (20 # 1)]
                               (key2 (CStr "residential") (CStr "residential"))))
      by (vm_compute; reflexivity).
    exact I3.
Defined.

(* ================================================================== *)
(** * The cells of a transformed row                                  *)
(* ================================================================== *)

Lemma strip_prefix_spec (p n l : string) : strip_prefix p n = Some l <-> n = p +:+ l.
Proof.
  revert n. induction p as [|a p IH]; intros n; simpl.
  - split; [now intros [= ->] | now intros ->].
  - destruct n as [|b n]; [split; discriminate|].
    destruct (Ascii.eqb_spec a b) as [->|Hne].
    + rewrite IH. split; [now intros -> | now intros [= ->]].
    + split; [discriminate | intros [= -> _]; congruence].
Qed.

Lemma strip_prefix_None (p n : string) :
  strip_prefix p n = None -> forall l, n <> p +:+ l.
Proof.
  intros H l E. apply strip_prefix_spec in E. congruence.
Qed.

Lemma strip_prefix_prefix (p n : string) :
  String.prefix p n = match strip_prefix p n with Some _ => true | None => false end.
Proof.
  revert n. induction p as [|a p IH]; intros n; [now destruct n|].
  destruct n as [|b n]; [reflexivity|]. simpl.
  destruct (Ascii.ascii_dec a b) as [->|Hne].
  - rewrite Ascii.eqb_refl. apply IH.
  - destruct (Ascii.eqb_spec a b); [congruence | reflexivity].
Qed.

Lemma levels_members (v : list cell) :
  forallb textual v = true ->
  exists lv, levels v = inr lv /\ StronglySorted String_as_OT.lt lv
             /\ forall l, In l lv <-> In (CStr l) v.
Proof.
  induction v as [|c v IH]; simpl; intros H.
  - exists []. split; [reflexivity|]. split; [constructor | tauto].
  - apply andb_true_iff in H as [Hc Hv]. destruct (IH Hv) as (lv & E & S & M).
    destruct c; try discriminate.
    + rewrite E. simpl. eexists. split; [reflexivity|].
      destruct (insert_level_spec s lv S) as [S' M']. split; [exact S'|].
      intros l. rewrite M', M. split.
      * intros [->|Hl]; [now left | now right].
      * intros [[= ->]|Hl]; [now left | now right].
    + exists lv. split; [exact E|]. split; [exact S|].
      intros l. rewrite M. split; [now right|]. intros [X|X]; [discriminate | exact X].
Qed.

Lemma assoc_dummy_columns (prefix : string) (v : list cell) (lv : list string) (l : string) :
  assoc (prefix +:+ "_" +:+ l) (dummy_columns prefix v lv)
  = if existsb (String.eqb l) lv then Some (map (indicator l) v) else None.
Proof.
  unfold dummy_columns. induction lv as [|x lv IH]; simpl; [reflexivity|].
  destruct (String.eqb_spec (prefix +:+ "_" +:+ x) (prefix +:+ "_" +:+ l)) as [E|Hne].
  - apply append_inj_r in E. apply (append_inj_r "_") in E. subst x.
    now rewrite String.eqb_refl.
  - destruct (String.eqb_spec l x) as [->|Hne']; [congruence|]. exact IH.
Qed.

Lemma assoc_dummy_other (prefix n : string) (v : list cell) (lv : list string) :
  (forall l, n <> prefix +:+ "_" +:+ l) -> assoc n (dummy_columns prefix v lv) = None.
Proof.
  intros H. apply assoc_None_notin. rewrite dummy_names. intros Hin.
  apply in_map_iff in Hin as (l & E & _). now apply (H l).
Qed.

Lemma assoc_None_names {V} (n : string) (l : list (string * V)) :
  assoc n l = None -> ~ In n (map fst l).
Proof.
  induction l as [|[m c] l IH]; simpl; intros H; [tauto|].
  destruct (String.eqb_spec m n) as [->|Hne]; [discriminate|].
  intros [X|X]; [congruence | now apply IH].
Qed.

Lemma existsb_level (l : string) (lv : list string) :
  existsb (String.eqb l) lv = true <-> In l lv.
Proof.
  rewrite existsb_exists. split.
  - intros (x & Hx & E). apply String.eqb_eq in E. now subst.
  - intros H. exists l. split; [exact H | apply String.eqb_refl].
Qed.

(** The columns of the encoded frame, label by label. *)
Lemma get_dummies_columns (s d : DataFrame) (tp td wt : list cell) :
  get_col s "zone_type_pickup" = Some tp -> forallb textual tp = true ->
  get_col s "zone_type_dropoff" = Some td -> forallb textual td = true ->
  get_col s "weather" = Some wt -> forallb textual wt = true ->
  (forall n, In n (col_names s) -> is_dummy_name n = false) ->
  get_dummies s categorical_cols = inr d ->
  (forall l, get_col d ("zone_type_pickup_" +:+ l)
             = if bool_decide (CStr l ∈ tp) then Some (map (indicator l) tp) else None)
  /\ (forall l, get_col d ("zone_type_dropoff_" +:+ l)
                = if bool_decide (CStr l ∈ td) then Some (map (indicator l) td) else None)
  /\ (forall l, get_col d ("weather_" +:+ l)
                = if bool_decide (CStr l ∈ wt) then Some (map (indicator l) wt) else None)
  /\ (forall n, is_encoded categorical_cols n = true -> get_col d n = None).
Proof.
  intros Htp Ttp Htd Ttd Hwt Twt Hraw Hd.
  destruct (levels_members tp Ttp) as (l1 & E1 & _ & M1).
  destruct (levels_members td Ttd) as (l2 & E2 & _ & M2).
  destruct (levels_members wt Twt) as (l3 & E3 & _ & M3).
  set (D1 := dummy_columns "zone_type_pickup" tp l1).
  set (D2 := dummy_columns "zone_type_dropoff" td l2).
  set (D3 := dummy_columns "weather" wt l3).
  set (kept := List.filter (fun nc => negb (is_encoded categorical_cols nc.1)) (columns s)).
  assert (Ed : d = mkFrame (nrows s) (kept ++ D1 ++ D2 ++ D3 ++ [])).
  { revert Hd. unfold get_dummies, categorical_cols, encode, column. simpl mapM.
    rewrite Htp, Htd, Hwt. simpl. rewrite E1, E2, E3. simpl. now intros [= <-]. }
  subst d. unfold get_col. cbn [columns].
  assert (Kd : forall n, is_dummy_name n = true -> assoc n kept = None).
  { intros n Hn. apply assoc_None_notin. intros Hin.
    apply in_map_iff in Hin as (y & <- & Hy). apply filter_In in Hy as [Hy _].
    assert (Hy' : In y.1 (col_names s)) by (apply in_map_iff; now exists y).
    apply Hraw in Hy'. congruence. }
  assert (Lv : forall (l : string) (v : list cell) (lv : list string),
             (forall x, In x lv <-> In (CStr x) v) ->
             existsb (String.eqb l) lv = bool_decide (CStr l ∈ v)).
  { intros l v lv M. destruct (existsb (String.eqb l) lv) eqn:E.
    - apply existsb_level, M in E.
      now rewrite bool_decide_eq_true_2 by (now apply list_elem_of_In).
    - rewrite bool_decide_eq_false_2; [reflexivity|]. intros X.
      apply list_elem_of_In, M, existsb_level in X. congruence. }
  split; [|split; [|split]].
  - intros l. rewrite assoc_app, Kd by apply dummy_name_pickup.
    rewrite assoc_app. unfold D1.
    change ("zone_type_pickup_" +:+ l) with ("zone_type_pickup" +:+ "_" +:+ l).
    rewrite assoc_dummy_columns, (Lv l tp l1 M1).
    destruct (bool_decide (CStr l ∈ tp)); [reflexivity|].
    unfold D2, D3. rewrite !assoc_app, !assoc_dummy_other
      by (intros x X; simpl in X; discriminate X). reflexivity.
  - intros l. rewrite assoc_app, Kd by apply dummy_name_dropoff.
    rewrite assoc_app. unfold D1. rewrite assoc_dummy_other
      by (intros x X; simpl in X; discriminate X).
    rewrite assoc_app. unfold D2.
    change ("zone_type_dropoff_" +:+ l) with ("zone_type_dropoff" +:+ "_" +:+ l).
    rewrite assoc_dummy_columns, (Lv l td l2 M2).
    destruct (bool_decide (CStr l ∈ td)); [reflexivity|].
    unfold D3. rewrite !assoc_app, !assoc_dummy_other
      by (intros x X; simpl in X; discriminate X). reflexivity.
  - intros l. rewrite assoc_app, Kd by apply dummy_name_weather.
    rewrite assoc_app. unfold D1. rewrite assoc_dummy_other
      by (intros x X; simpl in X; discriminate X).
    rewrite assoc_app. unfold D2. rewrite assoc_dummy_other
      by (intros x X; simpl in X; discriminate X).
    rewrite assoc_app. unfold D3.
    change ("weather_" +:+ l) with ("weather" +:+ "_" +:+ l).
    rewrite assoc_dummy_columns, (Lv l wt l3 M3).
    now destruct (bool_decide (CStr l ∈ wt)).
  - intros n Hn. apply assoc_None_notin. rewrite !map_app, !in_app_iff.
    unfold D1, D2, D3. rewrite !dummy_names. simpl.
    intros [Hin|[Hin|[Hin|[Hin|[]]]]].
    + apply in_map_iff in Hin as (y & <- & Hy). apply filter_In in Hy as [_ Hy].
      rewrite Hn in Hy. discriminate.
    + apply in_map_iff in Hin as (l & <- & _). discriminate Hn.
    + apply in_map_iff in Hin as (l & <- & _). discriminate Hn.
    + apply in_map_iff in Hin as (l & <- & _). discriminate Hn.
Qed.

Lemma nth_repeat_lt {A} (a d : A) (m i : nat) : (i < m)%nat -> nth i (repeat a m) d = a.
Proof.
  revert i. induction m as [|m IH]; intros i Hi; [lia|].
  destruct i as [|i]; simpl; [reflexivity | apply IH; lia].
Qed.

Lemma indicator_cell (f d out : DataFrame) (cols : list string) (cat name level : string)
      (v : list cell) (i : nat) :
  frame_ok f = true -> (i < nrows f)%nat ->
  get_col f cat = Some v ->
  get_col d name
  = (if bool_decide (CStr level ∈ v) then Some (map (indicator level) v) else None) ->
  get_col out name = match get_col d name with
                     | Some c => Some c
                     | None => Some (repeat (CInt 0) (nrows f))
                     end ->
  exists c, row_get (row_at out i) name = inr c
            /\ hash_norm c
               = CInt (Z.b2z (bool_decide (assoc cat (row_at f i) = Some (CStr level)))).
Proof.
  intros Hok Hi Hv Hd Hout.
  pose proof (frame_ok_length f cat v Hok Hv) as Lv.
  rewrite assoc_row_at, Hv. cbn [fmap option_fmap option_map].
  rewrite row_get_row_at, Hout, Hd.
  destruct (bool_decide (CStr level ∈ v)) eqn:E.
  - eexists. split; [reflexivity|].
    rewrite nth_map_cells by lia. unfold indicator. cbn [hash_norm]. do 2 f_equal.
    apply bool_decide_ext. split; [now intros -> | now intros [= ->]].
  - eexists. split; [reflexivity|]. rewrite nth_repeat_lt by exact Hi. cbn [hash_norm].
    rewrite bool_decide_eq_false_2; [reflexivity|]. intros [= X].
    apply bool_decide_eq_false in E. apply E. rewrite <- X.
    apply list_elem_of_In, nth_In. lia.
Qed.

(** What [transform] with frozen training columns makes of each row of a
    well-formed trip frame. *)
Lemma transform_cells_run (e : FeatureEngineer) (f : DataFrame) (cols : list string) :
  well_fitted e = true -> training_columns e = Some cols ->
  trip_frame f = true -> frame_ok f = true ->
  exists out,
    transform_outcome e f = inr out
    /\ col_names out = cols
    /\ forall i, (i < nrows f)%nat ->
         exists feats,
           row_features e (row_at f i) = inr feats
           /\ forall n, In n cols ->
                exists c, row_get (row_at out i) n = inr c
                          /\ hash_norm c = hash_norm (transform_cell feats (row_at f i) n).
Proof.
  intros He Hc Hf Hok.
  destruct (transform_rowwise e f He Hf Hok)
    as (vs & d & out & Hnames & _ & Hrows & Hd & Hout & Hvs & Hother & Hal).
  rewrite Hc in Hal. destruct Hal as [Hcn Hget].
  destruct (trip_frame_spec f Hf) as (_ & _ & _ & Hcat & _ & _ & Hraw).
  destruct (Hcat "zone_type_pickup") as (tp & Htp & Ttp); [simpl; tauto|].
  destruct (Hcat "zone_type_dropoff") as (td & Htd & Ttd); [simpl; tauto|].
  destruct (Hcat "weather") as (wt & Hwt & Twt); [simpl; tauto|].
  destruct (engineered_names_spec (has_col f "is_friday_prayer")) as [_ Hplain].
  rewrite <- Hnames in Hplain.
  assert (Hsame : forall n, In n categorical_cols ->
                            get_col (set_cols f vs) n = get_col f n).
  { intros n Hn. apply get_col_set_cols_other. rewrite Hnames.
    now apply categorical_not_engineered. }
  destruct (get_dummies_columns (set_cols f vs) d tp td wt) as (D1 & D2 & D3 & D4);
    try assumption.
  { rewrite Hsame; [exact Htp | simpl; tauto]. }
  { rewrite Hsame; [exact Htd | simpl; tauto]. }
  { rewrite Hsame; [exact Hwt | simpl; tauto]. }
  { intros n Hin. apply col_names_set_cols in Hin as [Hin|Hin];
      [now apply Hraw | now apply Hplain]. }
  exists out. split; [exact Hout|]. split; [exact Hcn|].
  intros i Hi. exists (cells_at i vs). split; [now apply Hrows|].
  intros n Hn. specialize (Hget n Hn). unfold transform_cell.
  destruct (assoc n (cells_at i vs)) as [c|] eqn:Ea.
  { apply assoc_Some_pair, cells_at_In in Ea as (v & Hin & ->).
    rewrite (Hvs n v Hin) in Hget. exists (nth i v CNaN).
    split; [|reflexivity]. now rewrite row_get_row_at, Hget. }
  apply assoc_None_names in Ea.
  assert (Hnv : ~ In n (map fst vs)).
  { intros X. apply Ea. unfold cells_at. now rewrite map_map. }
  unfold indicator_of.
  destruct (strip_prefix "zone_type_pickup_" n) as [l|] eqn:S1.
  { apply strip_prefix_spec in S1. subst n.
    apply (indicator_cell f d out cols "zone_type_pickup" _ l tp i Hok Hi Htp (D1 l) Hget). }
  destruct (strip_prefix "zone_type_dropoff_" n) as [l|] eqn:S2.
  { apply strip_prefix_spec in S2. subst n.
    apply (indicator_cell f d out cols "zone_type_dropoff" _ l td i Hok Hi Htd (D2 l) Hget). }
  destruct (strip_prefix "weather_" n) as [l|] eqn:S3.
  { apply strip_prefix_spec in S3. subst n.
    apply (indicator_cell f d out cols "weather" _ l wt i Hok Hi Hwt (D3 l) Hget). }
  assert (Hnd : is_dummy_name n = false).
  { unfold is_dummy_name. now rewrite !strip_prefix_prefix, S1, S2, S3. }
  destruct (is_encoded categorical_cols n) eqn:Enc.
  { rewrite (D4 n Enc) in Hget. exists (CInt 0). split; [|reflexivity].
    rewrite row_get_row_at, Hget. now rewrite nth_repeat_lt. }
  rewrite (Hother n Enc Hnd Hnv) in Hget. rewrite assoc_row_at.
  destruct (get_col f n) as [v|]; cbn [fmap option_fmap option_map default].
  - exists (nth i v CNaN). split; [|reflexivity]. now rewrite row_get_row_at, Hget.
  - exists (CInt 0). split; [|reflexivity].
    rewrite row_get_row_at, Hget. now rewrite nth_repeat_lt.
Qed.

(** X21.  The meaning of [transform] for one trip.  With frozen training
    columns, the cell that [transform] returns in row [i] under a
    training column is, up to Python's equality of numbers,
    [transform_cell] of row [i] of the input: the engineered feature of
    that label, or the 0/1 indicator of the row's own category, or the
    row's own entry, or zero when the trip provides none of these.  The
    returned frame has the training columns, whatever the batch. *)
Theorem transform_cells (w : World) (df : loc) (f : DataFrame) (cols : list string) :
  well_fitted (self w) = true ->
  training_columns (self w) = Some cols ->
  heap w !! df = Some f ->
  trip_frame f = true ->
  frame_ok f = true ->
  exists w' l out,
    transform df w = (w', inr l)
    /\ heap w' !! l = Some out
    /\ col_names out = cols
    /\ forall i, (i < nrows f)%nat ->
         exists feats,
           row_features (self w) (row_at f i) = inr feats
           /\ forall n, In n cols ->
                exists c, row_get (row_at out i) n = inr c
                          /\ hash_norm c = hash_norm (transform_cell feats (row_at f i) n).
Proof.
  intros He Hc Hdf Hf Hok.
  destruct (transform_cells_run (self w) f cols He Hc Hf Hok) as (out & Hout & Hcn & Hcells).
  destruct (transform_returns w df f out He Hdf Hout) as (w' & l & Hr & Hl & _).
  now exists w', l, out.
Qed.

(** X22.  A trip is transformed the same way in every batch.  With
    frozen training columns, if row [i] of one well-formed trip frame
    equals row [j] of another, then under every training column the
    cells of row [i] and row [j] of the two transformed frames are equal
    as Python values (an indicator may be [False] in one frame and the
    integer [0] in the other): which other trips share the batch makes
    no difference to what the models are given. *)
Theorem transform_is_batch_independent
        (w : World) (df1 df2 : loc) (f1 f2 : DataFrame) (cols : list string) (i j : nat) :
  well_fitted (self w) = true ->
  training_columns (self w) = Some cols ->
  heap w !! df1 = Some f1 -> trip_frame f1 = true -> frame_ok f1 = true ->
  heap w !! df2 = Some f2 -> trip_frame f2 = true -> frame_ok f2 = true ->
  (i < nrows f1)%nat -> (j < nrows f2)%nat ->
  row_at f1 i = row_at f2 j ->
  exists w1 l1 out1 w2 l2 out2,
    transform df1 w = (w1, inr l1) /\ heap w1 !! l1 = Some out1
    /\ transform df2 w = (w2, inr l2) /\ heap w2 !! l2 = Some out2
    /\ col_names out1 = cols /\ col_names out2 = cols
    /\ forall n, In n cols ->
         exists c1 c2,
           row_get (row_at out1 i) n = inr c1 /\ row_get (row_at out2 j) n = inr c2
           /\ hash_norm c1 = hash_norm c2.
Proof.
  intros He Hc H1 T1 K1 H2 T2 K2 Hi Hj Hrow.
  destruct (transform_cells_run (self w) f1 cols He Hc T1 K1) as (out1 & O1 & N1 & C1).
  destruct (transform_cells_run (self w) f2 cols He Hc T2 K2) as (out2 & O2 & N2 & C2).
  destruct (transform_returns w df1 f1 out1 He H1 O1) as (w1 & l1 & R1 & L1 & _).
  destruct (transform_returns w df2 f2 out2 He H2 O2) as (w2 & l2 & R2 & L2 & _).
  exists w1, l1, out1, w2, l2, out2.
  repeat (split; [assumption|]).
  intros n Hn.
  destruct (C1 i Hi) as (feats1 & F1 & G1). destruct (C2 j Hj) as (feats2 & F2 & G2).
  rewrite Hrow, F2 in F1. injection F1 as <-.
  destruct (G1 n Hn) as (c1 & E1 & Q1). destruct (G2 n Hn) as (c2 & E2 & Q2).
  exists c1, c2. split; [exact E1|]. split; [exact E2|]. rewrite Q1, Q2, Hrow. reflexivity.
Qed.

Lemma transform_cells_witness :
  exists w' l out c,
    transform 2%positive sample_fitted_world = (w', inr l)
    /\ heap w' !! l = Some out
    /\ row_get (row_at out 1) "weather_rain" = inr c
    /\ hash_norm c = CInt 0.
Proof.
  assert (He : well_fitted (self sample_fitted_world) = true) by (vm_compute; reflexivity).
  assert (Hc : exists cols, training_columns (self sample_fitted_world) = Some cols
                            /\ In "weather_rain" cols).
  { eexists. split; [vm_compute; reflexivity|].
    simpl. repeat (first [left; reflexivity | right]). }
  destruct Hc as (cols & Hc & Hin).
  assert (Hdf : heap sample_fitted_world !! 2%positive = Some sample_batch)
    by (vm_compute; reflexivity).
  assert (Hf : trip_frame sample_batch = true) by (vm_compute; reflexivity).
  assert (Hok : frame_ok sample_batch = true) by (vm_compute; reflexivity).
  destruct (transform_cells sample_fitted_world 2%positive sample_batch cols
              He Hc Hdf Hf Hok)
    as (w' & l & out & Hr & Hl & _ & Hcells).
  destruct (Hcells 1%nat ltac:(simpl; lia)) as (feats & Hfe & Hget).
  destruct (Hget _ Hin) as (c & Hrow & Hn).
  exists w', l, out, c. split; [exact Hr|]. split; [exact Hl|]. split; [exact Hrow|].
  rewrite Hn.
  assert (E : exists x, row_features (self sample_fitted_world) (row_at sample_batch 1)
                        = inr x
                        /\ hash_norm (transform_cell x (row_at sample_batch 1) "weather_rain")
                           = CInt 0).
  { eexists. split; vm_compute; reflexivity. }
  destruct E as (x & Ex & Ec). rewrite Ex in Hfe. injection Hfe as <-. exact Ec.
Defined.

Lemma transform_is_batch_independent_witness :
  exists w1 l1 out1 w2 l2 out2 c1 c2,
    transform 1%positive sample_serving_world = (w1, inr l1) /\ heap w1 !! l1 = Some out1
    /\ transform 2%positive sample_serving_world = (w2, inr l2) /\ heap w2 !! l2 = Some out2
    /\ row_get (row_at out1 0) "zone_type_dropoff_business" = inr c1
    /\ row_get (row_at out2 0) "zone_type_dropoff_business" = inr c2
    /\ hash_norm c1 = hash_norm c2.
Proof.
  assert (He : well_fitted (self sample_serving_world) = true) by (vm_compute; reflexivity).
  assert (Hc : exists cols, training_columns (self sample_serving_world) = Some cols
                            /\ In "zone_type_dropoff_business" cols).
  { eexists. split; [vm_compute; reflexivity|].
    simpl. repeat (first [left; reflexivity | right]). }
  destruct Hc as (cols & Hc & Hin).
  assert (H1 : heap sample_serving_world !! 1%positive = Some sample_batch)
    by (vm_compute; reflexivity).
  assert (H2 : heap sample_serving_world !! 2%positive = Some sample_single)
    by (vm_compute; reflexivity).
  assert (T1 : trip_frame sample_batch = true) by (vm_compute; reflexivity).
  assert (T2 : trip_frame sample_single = true) by (vm_compute; reflexivity).
  assert (K1 : frame_ok sample_batch = true) by (vm_compute; reflexivity).
  assert (K2 : frame_ok sample_single = true) by (vm_compute; reflexivity).
  destruct (transform_is_batch_independent sample_serving_world 1%positive 2%positive
              sample_batch sample_single cols 0 0 He Hc H1 T1 K1 H2 T2 K2
              ltac:(simpl; lia) ltac:(simpl; lia) eq_refl)
    as (w1 & l1 & out1 & w2 & l2 & out2 & R1 & L1 & R2 & L2 & _ & _ & Hall).
  destruct (Hall _ Hin) as (c1 & c2 & E1 & E2 & Q).
  exists w1, l1, out1, w2, l2, out2, c1, c2.
  repeat (split; [assumption|]). exact Q.
Defined.

(** In the batch the first request gets the indicator [False] (another
    request of the batch goes to a business zone); on its own it gets
    the integer [0] with which the missing column is filled. *)
Lemma indicator_type_depends_on_the_batch :
  exists out1 out2,
    transform_outcome (self sample_serving_world) sample_batch = inr out1
    /\ transform_outcome (self sample_serving_world) sample_single = inr out2
    /\ row_get (row_at out1 0) "zone_type_dropoff_business" = inr (CBool false)
    /\ row_get (row_at out2 0) "zone_type_dropoff_business" = inr (CInt 0).
Proof.
  eexists _, _.
  split; [vm_compute; reflexivity|]. split; [vm_compute; reflexivity|].
  split; vm_compute; reflexivity.
Qed.

(* ================================================================== *)
(** * Re-fitting, and the requests the API lets through               *)
(* ================================================================== *)

(** X23.  Training columns are frozen for good.  Once an engineer holds
    training columns, a later [fit_transform] on another frame of trips
    recomputes the statistics but aligns its result to the old columns
    and stores that same list again: levels that only the new data
    contains get no column. *)
Theorem fit_transform_keeps_frozen_columns
        (w w1 : World) (train l0 : loc) (f : DataFrame) (cols : list string) :
  heap w !! train = Some f ->
  trip_frame f = true ->
  training_columns (self w) = Some cols ->
  fit_transform train w = (w1, inr l0) ->
  training_columns (self w1) = Some cols
  /\ exists out0, heap w1 !! l0 = Some out0 /\ col_names out0 = cols.
Proof.
  intros Hf Htrip Hc H.
  destruct (fit_transform_inv w w1 train l0 H) as (wa & wb & out0 & Hfit & Htr & Hout0 & ->).
  destruct (fit_run w wa train Hfit) as (Hheap & Hwf & Htc & _).
  destruct (well_fitted_spec _ Hwf) as (Hfitted & _).
  assert (Hfa : heap wa !! train = Some f) by (now rewrite Hheap).
  destruct (transform_run wa train f Hfitted Hfa) as (h' & _ & Hr).
  destruct (transform_trip (self wa) f Hwf Htrip)
    as (vs & d & out & _ & _ & Hout & _ & _ & _ & _ & _ & Hal).
  rewrite Htc, Hc in Hal. destruct Hal as [Hn _].
  rewrite Hout in Hr. destruct Hr as (l & Hr & Hl & _).
  rewrite Hr in Htr. injection Htr as <- <-. cbn [heap self] in *.
  rewrite Hl in Hout0. injection Hout0 as <-.
  cbn [training_columns with_training_columns]. rewrite Hn.
  split; [reflexivity|]. now exists out.
Qed.

Lemma fit_transform_keeps_frozen_columns_witness :
  exists w1 l,
    fit_transform 1%positive sample_refit_world = (w1, inr l)
    /\ training_columns (self w1) = training_columns (self sample_fitted_world)
    /\ In (CStr "fog") (default [] (get_col sample_refit "weather"))
    /\ ~ In "weather_fog" (default [] (training_columns (self w1))).
Proof.
  assert (Hc : exists cols, training_columns (self sample_refit_world) = Some cols
                            /\ ~ In "weather_fog" cols).
  { eexists. split; [vm_compute; reflexivity|].
    simpl. intros Hin. repeat (destruct Hin as [Hin|Hin]; [discriminate Hin|]). exact Hin. }
  destruct Hc as (cols & Hc & Hno).
  assert (Hl : exists l, (fit_transform 1%positive sample_refit_world).2 = inr l)
    by (eexists; vm_compute; reflexivity).
  destruct Hl as (l & Hl).
  pose proof (surjective_pairing (fit_transform 1%positive sample_refit_world)) as Hrun.
  rewrite Hl in Hrun.
  assert (Hf : heap sample_refit_world !! 1%positive = Some sample_refit)
    by (vm_compute; reflexivity).
  assert (Ht : trip_frame sample_refit = true) by (vm_compute; reflexivity).
  destruct (fit_transform_keeps_frozen_columns sample_refit_world _ 1%positive l
              sample_refit cols Hf Ht Hc Hrun) as (Hkeep & _).
  exists (fit_transform 1%positive sample_refit_world).1, l.
  split; [exact Hrun|]. split; [now rewrite Hkeep|]. split.
  - simpl. tauto.
  - now rewrite Hkeep.
Defined.

(** X24.  The request schema lets through exactly the requests between
    two different zones of the ten-by-ten grid, and for each of them the
    distance that [predict] computes on that grid is at least 1 and at
    most 18.  A request whose pickup zone is out of range is rejected
    for that field alone, even when both zones are equal. *)
Theorem accepted_requests (cfg : Config) (pickup dropoff : Z) :
  (ETARequest.validate pickup dropoff = inr (pickup, dropoff)
   <-> 0 <= pickup < 100 /\ 0 <= dropoff < 100 /\ pickup <> dropoff)
  /\ (forall errors, ETARequest.validate pickup dropoff = inl errors ->
                     ~ (0 <= pickup < 100 /\ 0 <= dropoff < 100 /\ pickup <> dropoff)
                     /\ (~ 0 <= pickup < 100 -> 0 <= dropoff < 100 ->
                         errors = ["pickup_zone"]))
  /\ (grid_size cfg = 10 ->
      ETARequest.validate pickup dropoff = inr (pickup, dropoff) ->
      exists dist, ETAPredictor._calculate_dubai_distance cfg pickup dropoff = inr dist
                   /\ 1 <= dist <= 18).
Proof.
  split; [|split].
  - unfold ETARequest.validate, ETARequest.in_range.
    destruct (Z.leb_spec 0 pickup), (Z.ltb_spec pickup 100),
      (Z.leb_spec 0 dropoff), (Z.ltb_spec dropoff 100), (Z.eqb_spec dropoff pickup);
      cbn [andb app]; split; intros X; first [discriminate X | reflexivity | lia].
  - intros errors. unfold ETARequest.validate, ETARequest.in_range.
    destruct (Z.leb_spec 0 pickup), (Z.ltb_spec pickup 100),
      (Z.leb_spec 0 dropoff), (Z.ltb_spec dropoff 100), (Z.eqb_spec dropoff pickup);
      cbn [andb app]; intros X; first [discriminate X | injection X as <-];
      (split; [lia | intros; first [reflexivity | lia]]).
  - intros Hg X.
    assert (R : 0 <= pickup < 100 /\ 0 <= dropoff < 100 /\ pickup <> dropoff).
    { revert X. unfold ETARequest.validate, ETARequest.in_range.
      destruct (Z.leb_spec 0 pickup), (Z.ltb_spec pickup 100),
        (Z.leb_spec 0 dropoff), (Z.ltb_spec dropoff 100), (Z.eqb_spec dropoff pickup);
        cbn [andb app]; intros X; first [discriminate X | lia]. }
    unfold ETAPredictor._calculate_dubai_distance. rewrite Hg. cbn [Z.eqb].
    eexists. split; [reflexivity|].
    pose proof (Z.div_mod pickup 10 ltac:(lia)).
    pose proof (Z.mod_pos_bound pickup 10 ltac:(lia)).
    pose proof (Z.div_mod dropoff 10 ltac:(lia)).
    pose proof (Z.mod_pos_bound dropoff 10 ltac:(lia)).
    assert (0 <= pickup / 10 < 10)
      by (split; [apply Z.div_pos; lia | apply Z.div_lt_upper_bound; lia]).
    assert (0 <= dropoff / 10 < 10)
      by (split; [apply Z.div_pos; lia | apply Z.div_lt_upper_bound; lia]).
    lia.
Qed.
